(** * The investment-decision calculation engine of stock-backend

    A shallow embedding of the calculation engine of
    [pkg/services/calculations.go]: [CalculateMetrics] (position metrics),
    [CalculatePortfolioMetrics] (portfolio aggregation),
    [CalculateBuyZoneResult] and [CalculateSellZoneResult] (zone queries),
    [solvePriceForEVThreshold] and [expectedValueAtPrice]; of its two
    older versions, the one of [internal/services/calculations.go] and the
    first one, which [internal/services/calculations_test.go] tests; and
    of the code around the engine: the currency conversions of
    [pkg/services/exchange_rate_service.go], the portfolio summary of
    [pkg/api/handlers/portfolio_handler.go] and the scheduled update of a
    position of [pkg/scheduler].

    Numbers.  The engine is embedded twice.  The exact reading models
    Go's [float64] by the rationals [Q]: every operation is exact, there
    is no rounding, no overflow, no underflow, no NaN and no infinity, so
    [math.IsNaN] and [math.IsInf] are constantly false; a statement about
    it is a statement about the formulas of the program in exact
    arithmetic.  The binary64 reading, module [Binary64], is the same text
    over IEEE 754 binary64 numbers with the operations of the processor;
    a statement about it is a statement about the numbers the program
    computes.  Exact results are compared with [==] ([Qeq]); a value that
    is copied unchanged, and every binary64 value, is compared with [=].
    Go's [int] field [SharesOwned] is a [Z].  A Go [map[string]float64] is
    a [gmap] with string keys, read with the zero value for an absent key.

    State.  [CalculateMetrics] mutates the record behind its pointer
    argument; here it is a function from the record before the call to the
    record after it, the pointer being taken to be non-nil.  Calls that
    leave the process (database queries, HTTP fetches) are arguments that
    give their outcome.

    The file has three parts: the functions of the program, the
    definitions the statements use, and the properties with their proofs. *)

From Stdlib Require Import QArith Qabs Qminmax Lqa ZArith Bool.
From Stdlib Require Floats.
From stdpp Require Import gmap strings.

Local Open Scope Q_scope.

(** ** Comparisons of [float64] values as booleans *)

Definition Qltb (x y : Q) : bool := negb (Qle_bool y x).
Definition Qleb (x y : Q) : bool := Qle_bool x y.
Definition Qeqb (x y : Q) : bool := Qeq_bool x y.

Infix "<?" := Qltb (at level 70, no associativity) : Q_scope.
Infix "<=?" := Qleb (at level 70, no associativity) : Q_scope.
Infix "=?" := Qeqb (at level 70, no associativity) : Q_scope.
Notation "x >? y" := (Qltb y x) (at level 70, no associativity, only parsing) : Q_scope.
Notation "x >=? y" := (Qleb y x) (at level 70, no associativity, only parsing) : Q_scope.

(** [math.IsNaN] and [math.IsInf] on exact numbers: a rational is neither.
    The checks of the source can fire only on binary64 numbers; there they
    are [PrimFloat.is_nan] and [PrimFloat.is_infinity], see
    [Binary64.solvePriceForEVThreshold]. *)
Definition IsNaN (_ : Q) : bool := false.
Definition IsInf (_ : Q) : bool := false.

(** ** The position record *)

(** Modelled from the spec: the declaration of [models.Stock] is not among
    the sources.  The fields are the ones the calculation engine and its
    tests read and write, with the names they use there; section 3 of the
    specification lists the same fields. *)
Record Stock : Type := mkStock {
  Ticker : string;
  Sector : string;
  Currency : string;
  CurrentPrice : Q;
  FairValue : Q;
  Beta : Q;
  ProbabilityPositive : Q;
  DownsideRisk : Q;
  SharesOwned : Z;
  AvgPriceLocal : Q;
  Volatility : Q;
  UpsidePotential : Q;
  BRatio : Q;
  ExpectedValue : Q;
  KellyFraction : Q;
  HalfKellySuggested : Q;
  Assessment : string;
  BuyZoneMin : Q;
  BuyZoneMax : Q;
  SellZoneLowerBound : Q;
  SellZoneUpperBound : Q;
  SellZoneStatus : string
}.

(** The zero value of the struct, [models.Stock{}]. *)
Definition zeroStock : Stock :=
  mkStock "" "" "" 0 0 0 0 0 0%Z 0 0 0 0 0 0 0 "" 0 0 0 0 "".

(** Field assignments [stock.F = v]. *)
Definition set_DownsideRisk (v : Q) (s : Stock) : Stock :=
  mkStock (Ticker s) (Sector s) (Currency s) (CurrentPrice s) (FairValue s)
    (Beta s) (ProbabilityPositive s) v (SharesOwned s) (AvgPriceLocal s)
    (Volatility s) (UpsidePotential s) (BRatio s) (ExpectedValue s)
    (KellyFraction s) (HalfKellySuggested s) (Assessment s) (BuyZoneMin s)
    (BuyZoneMax s) (SellZoneLowerBound s) (SellZoneUpperBound s)
    (SellZoneStatus s).

Definition set_ProbabilityPositive (v : Q) (s : Stock) : Stock :=
  mkStock (Ticker s) (Sector s) (Currency s) (CurrentPrice s) (FairValue s)
    (Beta s) v (DownsideRisk s) (SharesOwned s) (AvgPriceLocal s)
    (Volatility s) (UpsidePotential s) (BRatio s) (ExpectedValue s)
    (KellyFraction s) (HalfKellySuggested s) (Assessment s) (BuyZoneMin s)
    (BuyZoneMax s) (SellZoneLowerBound s) (SellZoneUpperBound s)
    (SellZoneStatus s).

Definition set_UpsidePotential (v : Q) (s : Stock) : Stock :=
  mkStock (Ticker s) (Sector s) (Currency s) (CurrentPrice s) (FairValue s)
    (Beta s) (ProbabilityPositive s) (DownsideRisk s) (SharesOwned s)
    (AvgPriceLocal s) (Volatility s) v (BRatio s) (ExpectedValue s)
    (KellyFraction s) (HalfKellySuggested s) (Assessment s) (BuyZoneMin s)
    (BuyZoneMax s) (SellZoneLowerBound s) (SellZoneUpperBound s)
    (SellZoneStatus s).

Definition set_BRatio (v : Q) (s : Stock) : Stock :=
  mkStock (Ticker s) (Sector s) (Currency s) (CurrentPrice s) (FairValue s)
    (Beta s) (ProbabilityPositive s) (DownsideRisk s) (SharesOwned s)
    (AvgPriceLocal s) (Volatility s) (UpsidePotential s) v (ExpectedValue s)
    (KellyFraction s) (HalfKellySuggested s) (Assessment s) (BuyZoneMin s)
    (BuyZoneMax s) (SellZoneLowerBound s) (SellZoneUpperBound s)
    (SellZoneStatus s).

Definition set_ExpectedValue (v : Q) (s : Stock) : Stock :=
  mkStock (Ticker s) (Sector s) (Currency s) (CurrentPrice s) (FairValue s)
    (Beta s) (ProbabilityPositive s) (DownsideRisk s) (SharesOwned s)
    (AvgPriceLocal s) (Volatility s) (UpsidePotential s) (BRatio s) v
    (KellyFraction s) (HalfKellySuggested s) (Assessment s) (BuyZoneMin s)
    (BuyZoneMax s) (SellZoneLowerBound s) (SellZoneUpperBound s)
    (SellZoneStatus s).

Definition set_KellyFraction (v : Q) (s : Stock) : Stock :=
  mkStock (Ticker s) (Sector s) (Currency s) (CurrentPrice s) (FairValue s)
    (Beta s) (ProbabilityPositive s) (DownsideRisk s) (SharesOwned s)
    (AvgPriceLocal s) (Volatility s) (UpsidePotential s) (BRatio s)
    (ExpectedValue s) v (HalfKellySuggested s) (Assessment s) (BuyZoneMin s)
    (BuyZoneMax s) (SellZoneLowerBound s) (SellZoneUpperBound s)
    (SellZoneStatus s).

Definition set_HalfKellySuggested (v : Q) (s : Stock) : Stock :=
  mkStock (Ticker s) (Sector s) (Currency s) (CurrentPrice s) (FairValue s)
    (Beta s) (ProbabilityPositive s) (DownsideRisk s) (SharesOwned s)
    (AvgPriceLocal s) (Volatility s) (UpsidePotential s) (BRatio s)
    (ExpectedValue s) (KellyFraction s) v (Assessment s) (BuyZoneMin s)
    (BuyZoneMax s) (SellZoneLowerBound s) (SellZoneUpperBound s)
    (SellZoneStatus s).

Definition set_Assessment (v : string) (s : Stock) : Stock :=
  mkStock (Ticker s) (Sector s) (Currency s) (CurrentPrice s) (FairValue s)
    (Beta s) (ProbabilityPositive s) (DownsideRisk s) (SharesOwned s)
    (AvgPriceLocal s) (Volatility s) (UpsidePotential s) (BRatio s)
    (ExpectedValue s) (KellyFraction s) (HalfKellySuggested s) v
    (BuyZoneMin s) (BuyZoneMax s) (SellZoneLowerBound s)
    (SellZoneUpperBound s) (SellZoneStatus s).

Definition set_BuyZoneMin (v : Q) (s : Stock) : Stock :=
  mkStock (Ticker s) (Sector s) (Currency s) (CurrentPrice s) (FairValue s)
    (Beta s) (ProbabilityPositive s) (DownsideRisk s) (SharesOwned s)
    (AvgPriceLocal s) (Volatility s) (UpsidePotential s) (BRatio s)
    (ExpectedValue s) (KellyFraction s) (HalfKellySuggested s) (Assessment s)
    v (BuyZoneMax s) (SellZoneLowerBound s) (SellZoneUpperBound s)
    (SellZoneStatus s).

Definition set_BuyZoneMax (v : Q) (s : Stock) : Stock :=
  mkStock (Ticker s) (Sector s) (Currency s) (CurrentPrice s) (FairValue s)
    (Beta s) (ProbabilityPositive s) (DownsideRisk s) (SharesOwned s)
    (AvgPriceLocal s) (Volatility s) (UpsidePotential s) (BRatio s)
    (ExpectedValue s) (KellyFraction s) (HalfKellySuggested s) (Assessment s)
    (BuyZoneMin s) v (SellZoneLowerBound s) (SellZoneUpperBound s)
    (SellZoneStatus s).

Definition set_SellZoneLowerBound (v : Q) (s : Stock) : Stock :=
  mkStock (Ticker s) (Sector s) (Currency s) (CurrentPrice s) (FairValue s)
    (Beta s) (ProbabilityPositive s) (DownsideRisk s) (SharesOwned s)
    (AvgPriceLocal s) (Volatility s) (UpsidePotential s) (BRatio s)
    (ExpectedValue s) (KellyFraction s) (HalfKellySuggested s) (Assessment s)
    (BuyZoneMin s) (BuyZoneMax s) v (SellZoneUpperBound s)
    (SellZoneStatus s).

Definition set_SellZoneUpperBound (v : Q) (s : Stock) : Stock :=
  mkStock (Ticker s) (Sector s) (Currency s) (CurrentPrice s) (FairValue s)
    (Beta s) (ProbabilityPositive s) (DownsideRisk s) (SharesOwned s)
    (AvgPriceLocal s) (Volatility s) (UpsidePotential s) (BRatio s)
    (ExpectedValue s) (KellyFraction s) (HalfKellySuggested s) (Assessment s)
    (BuyZoneMin s) (BuyZoneMax s) (SellZoneLowerBound s) v
    (SellZoneStatus s).

Definition set_SellZoneStatus (v : string) (s : Stock) : Stock :=
  mkStock (Ticker s) (Sector s) (Currency s) (CurrentPrice s) (FairValue s)
    (Beta s) (ProbabilityPositive s) (DownsideRisk s) (SharesOwned s)
    (AvgPriceLocal s) (Volatility s) (UpsidePotential s) (BRatio s)
    (ExpectedValue s) (KellyFraction s) (HalfKellySuggested s) (Assessment s)
    (BuyZoneMin s) (BuyZoneMax s) (SellZoneLowerBound s)
    (SellZoneUpperBound s) v.

(** ** Constants of [pkg/services/calculations.go] *)

Definition defaultProbabilityPositive : Q := 0.65.
Definition riskFreeRatePercent : Q := 4.0.
Definition minDownsideMagnitude : Q := 0.1.

(** ** The threshold solver and the forward formula *)

Definition calibrateDownsideRisk (beta : Q) : Q :=
  if beta <? 0.5 then -15.0
  else if beta <? 1.0 then -20.0
  else if beta <? 1.5 then -25.0
  else -30.0.

Definition expectedValueAtPrice
    (fairValue probabilityPositive downsideRisk currentPrice : Q) : Q :=
  if currentPrice <=? 0 then 0
  else
    let upsidePercent := ((fairValue - currentPrice) / currentPrice) * 100 in
    (probabilityPositive * upsidePercent)
    + ((1 - probabilityPositive) * downsideRisk).

Definition solvePriceForEVThreshold
    (fairValue probabilityPositive downsideRisk evThreshold : Q) : Q * bool :=
  let downsideMagnitude := Qabs downsideRisk in
  let denominator :=
    evThreshold + (100 * probabilityPositive)
    + ((1 - probabilityPositive) * downsideMagnitude) in
  if denominator <=? 0 then (0, false)
  else
    let price := (100 * probabilityPositive * fairValue) / denominator in
    if IsNaN price || IsInf price || (price <=? 0) then (0, false)
    else (price, true).

(** ** [CalculateMetrics]

    The Go function mutates [*stock] in ten numbered steps; each step is a
    function from the record before the step to the record after it, and
    [CalculateMetrics] runs them in order. *)

(** 1. Calibrate downside risk based on beta, unless explicitly provided. *)
Definition step1_calibrate (stock : Stock) : Stock :=
  if DownsideRisk stock =? 0 then
    if Beta stock >? 0 then
      set_DownsideRisk (calibrateDownsideRisk (Beta stock)) stock
    else
      set_DownsideRisk (-20.0) stock
  else stock.

(** 2. Upside Potential = ((Fair Value - Current Price) / Current Price) * 100 *)
Definition step2_upside (stock : Stock) : Stock :=
  if (CurrentPrice stock >? 0) && (FairValue stock >? 0) then
    set_UpsidePotential
      (((FairValue stock - CurrentPrice stock) / CurrentPrice stock) * 100)
      stock
  else stock.

(** 3. Use conservative default probability when missing/invalid. *)
Definition step3_probability (stock : Stock) : Stock :=
  if (ProbabilityPositive stock <=? 0) || (ProbabilityPositive stock >? 1) then
    set_ProbabilityPositive defaultProbabilityPositive stock
  else stock.

(** 4. b Ratio = Upside % / |Downside %| with a small floor on downside. *)
Definition step4_bratio (stock : Stock) : Stock :=
  let downsideMagnitude := Qabs (DownsideRisk stock) in
  let downsideMagnitude :=
    if downsideMagnitude <? minDownsideMagnitude then minDownsideMagnitude
    else downsideMagnitude in
  set_BRatio (UpsidePotential stock / downsideMagnitude) stock.

(** 5. Expected Value (EV) = (p * Upside %) + ((1 - p) * Downside %) *)
Definition step5_ev (stock : Stock) : Stock :=
  set_ExpectedValue
    ((ProbabilityPositive stock * UpsidePotential stock)
     + ((1 - ProbabilityPositive stock) * DownsideRisk stock))
    stock.

(** 6. Kelly f* = ((b * p) - (1 - p)) / b, in percent and clamped at 0. *)
Definition step6_kelly (stock : Stock) : Stock :=
  if BRatio stock >? 0 then
    let stock :=
      set_KellyFraction
        (((BRatio stock * ProbabilityPositive stock)
          - (1 - ProbabilityPositive stock)) / BRatio stock * 100)
        stock in
    if KellyFraction stock <? 0 then set_KellyFraction 0 stock else stock
  else
    set_KellyFraction 0 stock.

(** 7. Half-Kelly suggested weight, capped at 15%. *)
Definition step7_halfKelly (stock : Stock) : Stock :=
  let stock := set_HalfKellySuggested (KellyFraction stock / 2) stock in
  if HalfKellySuggested stock >? 15 then set_HalfKellySuggested 15 stock
  else stock.

(** 8. Assessment thresholds under a conservative EV policy. *)
Definition step8_assessment (stock : Stock) : Stock :=
  if ExpectedValue stock >? 7 then
    set_Assessment "Add" stock
  else if (ExpectedValue stock >=? 3) && (ExpectedValue stock <=? 7) then
    set_Assessment "Hold" stock
  else if (ExpectedValue stock >=? 0) && (ExpectedValue stock <? 3) then
    set_Assessment "Trim" stock
  else
    set_Assessment "Sell" stock.

(** 9. Buy zone uses EV >= 7% entry threshold. *)
Definition step9_buyZone (stock : Stock) : Stock :=
  if (FairValue stock >? 0) && (ProbabilityPositive stock >? 0) then
    let targetEV := 7.0 in
    let requiredUpside :=
      (targetEV - (1 - ProbabilityPositive stock) * DownsideRisk stock)
      / ProbabilityPositive stock in
    if requiredUpside >? -100 then
      let stock :=
        set_BuyZoneMax (FairValue stock / (1 + requiredUpside / 100)) stock in
      set_BuyZoneMin (BuyZoneMax stock * 0.90) stock
    else
      let stock := set_BuyZoneMin (CurrentPrice stock * 0.85) stock in
      set_BuyZoneMax (CurrentPrice stock * 0.95) stock
  else stock.

(** 10. Sell zone thresholds: lower bound at EV = 3%, upper bound at
    EV = 0%. *)
Definition step10_sellZone (stock : Stock) : Stock :=
  let '(sellLowerBound, okTrim) :=
    solvePriceForEVThreshold (FairValue stock) (ProbabilityPositive stock)
      (DownsideRisk stock) 3 in
  let '(sellUpperBound, okSell) :=
    solvePriceForEVThreshold (FairValue stock) (ProbabilityPositive stock)
      (DownsideRisk stock) 0 in
  if okTrim && okSell && (sellLowerBound <? sellUpperBound) then
    let stock := set_SellZoneLowerBound sellLowerBound stock in
    let stock := set_SellZoneUpperBound sellUpperBound stock in
    if ExpectedValue stock >? 3 then
      set_SellZoneStatus "Below sell zone" stock
    else if ExpectedValue stock >? 0 then
      set_SellZoneStatus "In trim zone" stock
    else
      set_SellZoneStatus "In sell zone" stock
  else
    let stock := set_SellZoneLowerBound 0 stock in
    let stock := set_SellZoneUpperBound 0 stock in
    set_SellZoneStatus "no sell zone" stock.

Definition CalculateMetrics (stock : Stock) : Stock :=
  let stock := step1_calibrate stock in
  let stock := step2_upside stock in
  let stock := step3_probability stock in
  let stock := step4_bratio stock in
  let stock := step5_ev stock in
  let stock := step6_kelly stock in
  let stock := step7_halfKelly stock in
  let stock := step8_assessment stock in
  let stock := step9_buyZone stock in
  step10_sellZone stock.

(** ** Portfolio aggregation *)

Record PortfolioMetrics : Type := mkPortfolioMetrics {
  TotalValue : Q;
  OverallEV : Q;
  WeightedVolatility : Q;
  SharpeRatio : Q;
  KellyUtilization : Q;
  SectorWeights : gmap string Q
}.

(** [for i, x := range l { body }] with the loop state passed along. *)
Fixpoint rangeLoop {St A : Type} (body : St -> nat -> A -> St)
    (i : nat) (l : list A) (st : St) : St :=
  match l with
  | [] => st
  | x :: l' => rangeLoop body (S i) l' (body st i x)
  end.

(** Reading a Go map at a key: the zero value when the key is absent. *)
Definition mapGet (m : gmap string Q) (k : string) : Q := default 0 (m !! k).

(** Reading [stockValues[i]]; the slice has [len(stocks)] entries, so the
    index of a [range stocks] loop is always in range. *)
Definition sliceGet (l : list Q) (i : nat) : Q := default 0 (l !! i).

(** State of the first pass: [totalValue] and [stockValues]. *)
Definition firstPassBody (fxRates : gmap string Q)
    (st : Q * list Q) (i : nat) (stock : Stock) : Q * list Q :=
  let '(totalValue, stockValues) := st in
  if (SharesOwned stock <=? 0)%Z then st
  else
    let fxRate := mapGet fxRates (Currency stock) in
    if fxRate <=? 0 then st
    else
      let valueEUR :=
        inject_Z (SharesOwned stock) * CurrentPrice stock / fxRate in
      (totalValue + valueEUR, <[i := valueEUR]> stockValues).

(** State of the second pass. *)
Record Weighted : Type := mkWeighted {
  weightedEV : Q;
  weightedVolatility : Q;
  sectorWeights : gmap string Q;
  kellyUtilization : Q
}.

Definition secondPassBody (totalValue : Q) (stockValues : list Q)
    (st : Weighted) (i : nat) (stock : Stock) : Weighted :=
  if (SharesOwned stock <=? 0)%Z then st
  else if (totalValue >? 0) && (sliceGet stockValues i >? 0) then
    let weight := sliceGet stockValues i / totalValue in
    mkWeighted
      (weightedEV st + ExpectedValue stock * weight)
      (weightedVolatility st + Volatility stock * weight)
      (<[Sector stock := mapGet (sectorWeights st) (Sector stock) + weight * 100]>
         (sectorWeights st))
      (kellyUtilization st + weight * 100)
  else st.

(** The part of the function after the first pass, shared by both
    variants of the aggregator. *)
Definition aggregate (stocks : list Stock) (first : Q * list Q)
    : PortfolioMetrics :=
  let '(totalValue, stockValues) := first in
  let w :=
    rangeLoop (secondPassBody totalValue stockValues) 0 stocks
      (mkWeighted 0 0 ∅ 0) in
  let sharpeRatio :=
    if weightedVolatility w >? 0 then
      (weightedEV w - riskFreeRatePercent) / weightedVolatility w
    else 0 in
  mkPortfolioMetrics totalValue (weightedEV w) (weightedVolatility w)
    sharpeRatio (kellyUtilization w) (sectorWeights w).

(** [pkg/services]: a missing or non-positive rate skips the position. *)
Definition CalculatePortfolioMetrics (stocks : list Stock)
    (fxRates : gmap string Q) : PortfolioMetrics :=
  aggregate stocks
    (rangeLoop (firstPassBody fxRates) 0 stocks
       (0, replicate (length stocks) 0)).

(** [internal/services]: the older aggregator, which replaces a missing
    (zero) rate by 1 and uses any other rate as it is. *)
Module Internal.

Definition firstPassBody (fxRates : gmap string Q)
    (st : Q * list Q) (i : nat) (stock : Stock) : Q * list Q :=
  let '(totalValue, stockValues) := st in
  if (SharesOwned stock <=? 0)%Z then st
  else
    let fxRate := mapGet fxRates (Currency stock) in
    let fxRate := if fxRate =? 0 then 1.0 else fxRate in
    let valueEUR :=
      inject_Z (SharesOwned stock) * CurrentPrice stock / fxRate in
    (totalValue + valueEUR, <[i := valueEUR]> stockValues).

Definition CalculatePortfolioMetrics (stocks : list Stock)
    (fxRates : gmap string Q) : PortfolioMetrics :=
  aggregate stocks
    (rangeLoop (firstPassBody fxRates) 0 stocks
       (0, replicate (length stocks) 0)).

(** [CalculateMetrics] of [internal/services]: steps 1 to 9 are the text of
    the current function; there is no step 10, so the sell zone is never
    written. *)
Definition CalculateMetrics (stock : Stock) : Stock :=
  let stock := step1_calibrate stock in
  let stock := step2_upside stock in
  let stock := step3_probability stock in
  let stock := step4_bratio stock in
  let stock := step5_ev stock in
  let stock := step6_kelly stock in
  let stock := step7_halfKelly stock in
  let stock := step8_assessment stock in
  step9_buyZone stock.

End Internal.

(** ** The standalone zone queries *)

Module BuyZone.
Record t : Type := mk { LowerBound : Q; UpperBound : Q }.
End BuyZone.

Module SellZone.
Record t : Type := mk { LowerBound : Q; UpperBound : Q }.
End SellZone.

Module BuyZoneCalculationResult.
Record t : Type := mk {
  Ticker : string;
  FairValue : Q;
  ProbabilityPositive : Q;
  DownsideRisk : Q;
  BuyZone : BuyZone.t;
  CurrentExpectedValue : Q;
  ZoneStatus : string
}.
End BuyZoneCalculationResult.

Module SellZoneCalculationResult.
Record t : Type := mk {
  Ticker : string;
  FairValue : Q;
  ProbabilityPositive : Q;
  DownsideRisk : Q;
  SellZone : SellZone.t;
  CurrentExpectedValue : Q;
  SellZoneStatus : string
}.
End SellZoneCalculationResult.

(** A Go [error]: [None] is [nil], [Some msg] is [fmt.Errorf(msg)]. *)
Definition error : Type := option string.

Definition CalculateBuyZoneResult
    (ticker : string) (fairValue probabilityPositive downsideRisk currentPrice : Q)
    : BuyZoneCalculationResult.t * error :=
  let result (zone : BuyZone.t) (ev : Q) (status : string) :=
    BuyZoneCalculationResult.mk ticker fairValue probabilityPositive
      downsideRisk zone ev status in
  if (probabilityPositive <? 0) || (probabilityPositive >? 1) then
    (result (BuyZone.mk 0 0) 0 "",
     Some "probability_positive must be between 0 and 1")
  else if downsideRisk >=? 0 then
    (result (BuyZone.mk 0 0) 0 "", Some "downside_risk must be negative")
  else if fairValue <=? 0 then
    (result (BuyZone.mk 0 0) 0 "", Some "fair_value must be positive")
  else
    let '(lowerBound, okLower) :=
      solvePriceForEVThreshold fairValue probabilityPositive downsideRisk 15 in
    let '(upperBound, okUpper) :=
      solvePriceForEVThreshold fairValue probabilityPositive downsideRisk 7 in
    if negb okLower || negb okUpper then
      (result (BuyZone.mk 0 0) 0 "no buy zone available", None)
    else
      let zone := BuyZone.mk lowerBound upperBound in
      if BuyZone.LowerBound zone >? BuyZone.UpperBound zone then
        (result zone 0 "no buy zone available", None)
      else if currentPrice >? 0 then
        let ev :=
          expectedValueAtPrice fairValue probabilityPositive downsideRisk
            currentPrice in
        if currentPrice <? BuyZone.LowerBound zone then
          (result zone ev "EV >> 15%", None)
        else if currentPrice <=? BuyZone.UpperBound zone then
          (result zone ev "within buy zone", None)
        else
          (result zone ev "outside buy zone", None)
      else
        (result zone 0 "", None).

Definition CalculateSellZoneResult
    (ticker : string) (fairValue probabilityPositive downsideRisk currentPrice : Q)
    : SellZoneCalculationResult.t * error :=
  let result (zone : SellZone.t) (ev : Q) (status : string) :=
    SellZoneCalculationResult.mk ticker fairValue probabilityPositive
      downsideRisk zone ev status in
  if (probabilityPositive <? 0) || (probabilityPositive >? 1) then
    (result (SellZone.mk 0 0) 0 "",
     Some "probability_positive must be between 0 and 1")
  else if downsideRisk >=? 0 then
    (result (SellZone.mk 0 0) 0 "", Some "downside_risk must be negative")
  else if fairValue <=? 0 then
    (result (SellZone.mk 0 0) 0 "", Some "fair_value must be positive")
  else
    let '(trimPrice, okTrim) :=
      solvePriceForEVThreshold fairValue probabilityPositive downsideRisk 3 in
    let '(sellPrice, okSell) :=
      solvePriceForEVThreshold fairValue probabilityPositive downsideRisk 0 in
    if negb okTrim || negb okSell || (trimPrice >=? sellPrice) then
      (result (SellZone.mk 0 0) 0 "no sell zone", None)
    else
      let zone := SellZone.mk trimPrice sellPrice in
      if currentPrice >? 0 then
        let ev :=
          expectedValueAtPrice fairValue probabilityPositive downsideRisk
            currentPrice in
        if ev >? 3 then (result zone ev "Below sell zone", None)
        else if ev >? 0 then (result zone ev "In trim zone", None)
        else (result zone ev "In sell zone", None)
      else
        (result zone 0 "", None).

(** ** The same functions with checked divisions

    [CalculateMetrics], the threshold solver and [CalculatePortfolioMetrics]
    once more, with every division replaced by a division that fails unless
    its divisor is strictly positive. *)

Module Guarded.

(** [a / b], defined only for a strictly positive divisor. *)
Definition div (a b : Q) : option Q :=
  if 0 <? b then Some (a / b) else None.

Definition step2_upside (stock : Stock) : option Stock :=
  if (CurrentPrice stock >? 0) && (FairValue stock >? 0) then
    q ← div (FairValue stock - CurrentPrice stock) (CurrentPrice stock);
    Some (set_UpsidePotential (q * 100) stock)
  else Some stock.

Definition step4_bratio (stock : Stock) : option Stock :=
  let downsideMagnitude := Qabs (DownsideRisk stock) in
  let downsideMagnitude :=
    if downsideMagnitude <? minDownsideMagnitude then minDownsideMagnitude
    else downsideMagnitude in
  q ← div (UpsidePotential stock) downsideMagnitude;
  Some (set_BRatio q stock).

Definition step6_kelly (stock : Stock) : option Stock :=
  if BRatio stock >? 0 then
    q ← div ((BRatio stock * ProbabilityPositive stock)
             - (1 - ProbabilityPositive stock)) (BRatio stock);
    let stock := set_KellyFraction (q * 100) stock in
    Some (if KellyFraction stock <? 0 then set_KellyFraction 0 stock
          else stock)
  else
    Some (set_KellyFraction 0 stock).

Definition step7_halfKelly (stock : Stock) : option Stock :=
  q ← div (KellyFraction stock) 2;
  let stock := set_HalfKellySuggested q stock in
  Some (if HalfKellySuggested stock >? 15 then
          set_HalfKellySuggested 15 stock
        else stock).

Definition step9_buyZone (stock : Stock) : option Stock :=
  if (FairValue stock >? 0) && (ProbabilityPositive stock >? 0) then
    let targetEV := 7.0 in
    requiredUpside ←
      div (targetEV - (1 - ProbabilityPositive stock) * DownsideRisk stock)
        (ProbabilityPositive stock);
    if requiredUpside >? -100 then
      h ← div requiredUpside 100;
      q ← div (FairValue stock) (1 + h);
      let stock := set_BuyZoneMax q stock in
      Some (set_BuyZoneMin (BuyZoneMax stock * 0.90) stock)
    else
      let stock := set_BuyZoneMin (CurrentPrice stock * 0.85) stock in
      Some (set_BuyZoneMax (CurrentPrice stock * 0.95) stock)
  else Some stock.

Definition solvePriceForEVThreshold
    (fairValue probabilityPositive downsideRisk evThreshold : Q)
    : option (Q * bool) :=
  let downsideMagnitude := Qabs downsideRisk in
  let denominator :=
    evThreshold + (100 * probabilityPositive)
    + ((1 - probabilityPositive) * downsideMagnitude) in
  if denominator <=? 0 then Some (0, false)
  else
    price ← div (100 * probabilityPositive * fairValue) denominator;
    Some (if IsNaN price || IsInf price || (price <=? 0) then (0, false)
          else (price, true)).

Definition step10_sellZone (stock : Stock) : option Stock :=
  '(sellLowerBound, okTrim) ←
    solvePriceForEVThreshold (FairValue stock) (ProbabilityPositive stock)
      (DownsideRisk stock) 3;
  '(sellUpperBound, okSell) ←
    solvePriceForEVThreshold (FairValue stock) (ProbabilityPositive stock)
      (DownsideRisk stock) 0;
  Some
    (if okTrim && okSell && (sellLowerBound <? sellUpperBound) then
       let stock := set_SellZoneLowerBound sellLowerBound stock in
       let stock := set_SellZoneUpperBound sellUpperBound stock in
       if ExpectedValue stock >? 3 then
         set_SellZoneStatus "Below sell zone" stock
       else if ExpectedValue stock >? 0 then
         set_SellZoneStatus "In trim zone" stock
       else
         set_SellZoneStatus "In sell zone" stock
     else
       let stock := set_SellZoneLowerBound 0 stock in
       let stock := set_SellZoneUpperBound 0 stock in
       set_SellZoneStatus "no sell zone" stock).

(** Steps 1, 3, 5 and 8 do not divide. *)
Definition CalculateMetrics (stock : Stock) : option Stock :=
  let stock := step1_calibrate stock in
  stock ← step2_upside stock;
  let stock := step3_probability stock in
  stock ← step4_bratio stock;
  let stock := step5_ev stock in
  stock ← step6_kelly stock;
  stock ← step7_halfKelly stock;
  let stock := step8_assessment stock in
  stock ← step9_buyZone stock;
  step10_sellZone stock.

Fixpoint rangeLoop {St A : Type} (body : St -> nat -> A -> option St)
    (i : nat) (l : list A) (st : St) : option St :=
  match l with
  | [] => Some st
  | x :: l' => st' ← body st i x; rangeLoop body (S i) l' st'
  end.

Definition firstPassBody (fxRates : gmap string Q)
    (st : Q * list Q) (i : nat) (stock : Stock) : option (Q * list Q) :=
  let '(totalValue, stockValues) := st in
  if (SharesOwned stock <=? 0)%Z then Some st
  else
    let fxRate := mapGet fxRates (Currency stock) in
    if fxRate <=? 0 then Some st
    else
      valueEUR ← div (inject_Z (SharesOwned stock) * CurrentPrice stock)
                    fxRate;
      Some (totalValue + valueEUR, <[i := valueEUR]> stockValues).

Definition secondPassBody (totalValue : Q) (stockValues : list Q)
    (st : Weighted) (i : nat) (stock : Stock) : option Weighted :=
  if (SharesOwned stock <=? 0)%Z then Some st
  else if (totalValue >? 0) && (sliceGet stockValues i >? 0) then
    weight ← div (sliceGet stockValues i) totalValue;
    Some
      (mkWeighted
         (weightedEV st + ExpectedValue stock * weight)
         (weightedVolatility st + Volatility stock * weight)
         (<[Sector stock :=
              mapGet (sectorWeights st) (Sector stock) + weight * 100]>
            (sectorWeights st))
         (kellyUtilization st + weight * 100))
  else Some st.

Definition CalculatePortfolioMetrics (stocks : list Stock)
    (fxRates : gmap string Q) : option PortfolioMetrics :=
  '(totalValue, stockValues) ←
    rangeLoop (firstPassBody fxRates) 0 stocks
      (0, replicate (length stocks) 0);
  w ← rangeLoop (secondPassBody totalValue stockValues) 0 stocks
        (mkWeighted 0 0 ∅ 0);
  sharpeRatio ←
    (if weightedVolatility w >? 0 then
       div (weightedEV w - riskFreeRatePercent) (weightedVolatility w)
     else Some 0);
  Some (mkPortfolioMetrics totalValue (weightedEV w) (weightedVolatility w)
          sharpeRatio (kellyUtilization w) (sectorWeights w)).

End Guarded.

(** ** The first version of the engine

    The earliest [calculations.go] of [internal/services], the one
    [internal/services/calculations_test.go] tests.  Its [CalculateMetrics]
    always calibrates the downside risk, does not sanitise the probability
    and does not clamp the Kelly fraction; its aggregator is a single loop
    that multiplies by the rate and weighs each position by the running
    total. *)
Module Legacy.

(** Calculate Downside Risk based on Beta. *)
Definition step_downside (stock : Stock) : Stock :=
  if Beta stock <? 0.5 then set_DownsideRisk (-15.0) stock
  else if (Beta stock >=? 0.5) && (Beta stock <? 1.0) then
    set_DownsideRisk (-20.0) stock
  else if (Beta stock >=? 1.0) && (Beta stock <? 1.5) then
    set_DownsideRisk (-25.0) stock
  else set_DownsideRisk (-30.0) stock.

(** Calculate Upside Potential (%). *)
Definition step_upside (stock : Stock) : Stock :=
  if CurrentPrice stock >? 0 then
    set_UpsidePotential
      (((FairValue stock - CurrentPrice stock) / CurrentPrice stock) * 100)
      stock
  else stock.

(** Calculate Expected Value (EV) (%). *)
Definition step_ev (stock : Stock) : Stock :=
  set_ExpectedValue
    ((ProbabilityPositive stock * UpsidePotential stock)
     + ((1 - ProbabilityPositive stock) * DownsideRisk stock))
    stock.

(** Calculate b ratio (Upside/Downside ratio). *)
Definition step_bratio (stock : Stock) : Stock :=
  if negb (DownsideRisk stock =? 0) then
    set_BRatio (UpsidePotential stock / Qabs (DownsideRisk stock)) stock
  else stock.

(** Calculate Kelly Fraction, then convert to percentage. *)
Definition step_kelly (stock : Stock) : Stock :=
  if BRatio stock >? 0 then
    let stock :=
      set_KellyFraction
        (((BRatio stock * ProbabilityPositive stock)
          - (1 - ProbabilityPositive stock)) / BRatio stock)
        stock in
    set_KellyFraction (KellyFraction stock * 100) stock
  else stock.

(** Calculate Half-Kelly Suggested Weight (%), capped at 15%. *)
Definition step_halfKelly (stock : Stock) : Stock :=
  let stock := set_HalfKellySuggested (KellyFraction stock / 2) stock in
  if HalfKellySuggested stock >? 15 then set_HalfKellySuggested 15 stock
  else stock.

(** Determine Assessment based on EV. *)
Definition step_assessment (stock : Stock) : Stock :=
  if ExpectedValue stock >? 7 then set_Assessment "Add" stock
  else if ExpectedValue stock >=? 3 then set_Assessment "Hold" stock
  else if ExpectedValue stock >=? 0 then set_Assessment "Trim" stock
  else set_Assessment "Sell" stock.

(** The buy zone is computed by the text of step 9 of the current
    function. *)
Definition CalculateMetrics (stock : Stock) : Stock :=
  let stock := step_downside stock in
  let stock := step_upside stock in
  let stock := step_ev stock in
  let stock := step_bratio stock in
  let stock := step_kelly stock in
  let stock := step_halfKelly stock in
  let stock := step_assessment stock in
  step9_buyZone stock.

(** State of the single loop of the aggregator. *)
Record Running : Type := mkRunning {
  totalValue : Q;
  weightedEV : Q;
  weightedVolatility : Q;
  sectorWeights : gmap string Q
}.

(** The position value both loops compute: a missing (zero) rate counts as
    1 and the price is multiplied by the rate. *)
Definition valueUSD (fxRates : gmap string Q) (stock : Stock) : Q :=
  let fxRate := mapGet fxRates (Currency stock) in
  let fxRate := if fxRate =? 0 then 1.0 else fxRate in
  inject_Z (SharesOwned stock) * CurrentPrice stock * fxRate.

(** The weight of a position is taken against the total of the positions
    seen so far.  In Go a total of 0 makes the weight infinite or NaN; here
    the quotient is 0, so the model is the program only on portfolios
    whose running total never vanishes. *)
Definition loopBody (fxRates : gmap string Q) (st : Running)
    (stock : Stock) : Running :=
  let valueUSD := valueUSD fxRates stock in
  let totalValue := totalValue st + valueUSD in
  let weight := valueUSD / totalValue in
  mkRunning totalValue
    (weightedEV st + ExpectedValue stock * weight)
    (weightedVolatility st + Volatility stock * weight)
    (<[Sector stock := mapGet (sectorWeights st) (Sector stock) + weight * 100]>
       (sectorWeights st)).

(** The second loop, for the Kelly utilization, uses the final total. *)
Definition kellyBody (fxRates : gmap string Q) (totalValue : Q)
    (kellyUtilization : Q) (stock : Stock) : Q :=
  let valueUSD := valueUSD fxRates stock in
  let weight := (valueUSD / totalValue) * 100 in
  kellyUtilization + weight.

Definition CalculatePortfolioMetrics (stocks : list Stock)
    (fxRates : gmap string Q) : PortfolioMetrics :=
  let st := foldl (loopBody fxRates) (mkRunning 0 0 0 ∅) stocks in
  let sharpeRatio :=
    if weightedVolatility st >? 0 then weightedEV st / weightedVolatility st
    else 0 in
  let kellyUtilization :=
    foldl (kellyBody fxRates (totalValue st)) 0 stocks in
  mkPortfolioMetrics (totalValue st) (weightedEV st) (weightedVolatility st)
    sharpeRatio kellyUtilization (sectorWeights st).

End Legacy.

(** ** Exchange rates ([pkg/services/exchange_rate_service.go])

    Rates are stored as units of the currency per 1 EUR.  The service
    reads them from a table; the query for the active row of a currency is
    a function from the currency code to its outcome: the rate of the row
    found, no row, or a database error. *)
Inductive queryResult : Type :=
| Found (rate : Q)
| RecordNotFound
| QueryError (err : string).

Definition GetRate (db : string -> queryResult) (currencyCode : string)
    : Q * error :=
  match db currencyCode with
  | Found rate => (rate, None)
  | RecordNotFound => (1.0, None)
  | QueryError err => (0, Some err)
  end.

Definition ConvertToEUR (db : string -> queryResult) (amount : Q)
    (fromCurrency : string) : Q * error :=
  if bool_decide (fromCurrency = "EUR") then (amount, None)
  else
    match GetRate db fromCurrency with
    | (_, Some err) => (0, Some err)
    | (rate, None) =>
        if rate =? 0 then
          (0, Some ("invalid exchange rate for " +:+ fromCurrency))
        else (amount / rate, None)
    end.

Definition ConvertFromEUR (db : string -> queryResult) (amount : Q)
    (toCurrency : string) : Q * error :=
  if bool_decide (toCurrency = "EUR") then (amount, None)
  else
    match GetRate db toCurrency with
    | (_, Some err) => (0, Some err)
    | (rate, None) => (amount * rate, None)
    end.

(** ** The callers of the engine

    [models.Stock] has further fields, which the calculators never touch
    and their callers write: the weight in the portfolio, the value in USD
    and the unrealised profit. *)
Record StockRow : Type := mkStockRow {
  engineFields : Stock;
  Weight : Q;
  CurrentValueUSD : Q;
  UnrealizedPnL : Q
}.

(** *** The portfolio summary ([pkg/api/handlers/portfolio_handler.go]) *)

Definition fallbackRates : gmap string Q :=
  <["RUB" := 93.7594]>
    (<["GBP" := 0.8796]>
       (<["DKK" := 7.4604]> (<["USD" := 1.154]> (<["EUR" := 1.0]> ∅)))).

Inductive response : Type :=
| StatusInternalServerError (message : string)
| StatusOK (summary : PortfolioMetrics) (stocks : list StockRow).

(** One iteration of the loop that updates the weights; the rows it
    changes are the rows it saves. *)
Definition updateWeight (fxRates : gmap string Q) (metrics : PortfolioMetrics)
    (row : StockRow) : StockRow :=
  let stock := engineFields row in
  if (SharesOwned stock <=? 0)%Z then row
  else
    let fxRate := mapGet fxRates (Currency stock) in
    let fxRate := if fxRate =? 0 then 1.0 else fxRate in
    let valueEUR :=
      inject_Z (SharesOwned stock) * CurrentPrice stock / fxRate in
    if TotalValue metrics >? 0 then
      mkStockRow stock ((valueEUR / TotalValue metrics) * 100)
        (valueEUR * mapGet fxRates "USD") (UnrealizedPnL row)
    else row.

(** [found] is the outcome of [h.db.Find(&stocks)] and [rates] that of
    [GetRatesMap]. *)
Definition GetPortfolioSummary (found : list StockRow * error)
    (rates : gmap string Q * error) : response :=
  match found with
  | (_, Some _) => StatusInternalServerError "Failed to fetch stocks"
  | (stocks, None) =>
      let fxRates :=
        match rates with
        | (_, Some _) => fallbackRates
        | (fxRates, None) => fxRates
        end in
      let metrics := CalculatePortfolioMetrics (map engineFields stocks) fxRates in
      StatusOK metrics (map (updateWeight fxRates metrics) stocks)
  end.

(** *** The scheduled update of one position ([pkg/scheduler])

    [updateStock] fetches the price, lets the external service fill in its
    estimates, runs [CalculateMetrics], converts value and cost, saves the
    row and creates alerts.  The calls that leave the process are
    arguments: the two fetches, the table of rates, the save and the
    settings row read; so is [formatFloat], which prints a number with two
    decimals.  The result is the error returned or the row saved with the
    alerts created.  Timestamps and the history row, a copy of fields of
    the saved row, are left out. *)
Record PortfolioSettings : Type := mkPortfolioSettings {
  AlertsEnabled : bool;
  AlertThresholdEV : Q
}.

Record Alert : Type := mkAlert {
  AlertTicker : string;
  AlertType : string;
  Message : string;
  EmailSent : bool
}.

Inductive updateResult : Type :=
| UpdateFailed (err : string)
| Updated (saved : StockRow) (alerts : list Alert).

(** [x, err := call; if err != nil { return err }]. *)
Definition orReturn {A : Type} (call : A * error)
    (rest : A -> updateResult) : updateResult :=
  match call with
  | (_, Some err) => UpdateFailed err
  | (x, None) => rest x
  end.

Notation "'attempt' x ':=' call 'in' rest" := (orReturn call (fun x => rest))
  (at level 10, x name, call at level 100, rest at level 200,
   only parsing).

Definition set_CurrentPrice (v : Q) (s : Stock) : Stock :=
  mkStock (Ticker s) (Sector s) (Currency s) v (FairValue s)
    (Beta s) (ProbabilityPositive s) (DownsideRisk s) (SharesOwned s)
    (AvgPriceLocal s) (Volatility s) (UpsidePotential s) (BRatio s)
    (ExpectedValue s) (KellyFraction s) (HalfKellySuggested s) (Assessment s)
    (BuyZoneMin s) (BuyZoneMax s) (SellZoneLowerBound s)
    (SellZoneUpperBound s) (SellZoneStatus s).

Definition updateStock
    (FetchStockPrice : string -> Q * error)
    (FetchGrokCalculations : Stock -> Stock * error)
    (db : string -> queryResult)
    (Save : StockRow -> error)
    (settings : PortfolioSettings)
    (formatFloat : Q -> string)
    (row : StockRow) : updateResult :=
  let stock := engineFields row in
  let oldEV := ExpectedValue stock in
  attempt price := FetchStockPrice (Ticker stock) in
  let stock := set_CurrentPrice price stock in
  attempt stock := FetchGrokCalculations stock in
  let stock := CalculateMetrics stock in
  let amountLocal := inject_Z (SharesOwned stock) * CurrentPrice stock in
  let costLocal := inject_Z (SharesOwned stock) * AvgPriceLocal stock in
  attempt valueEUR := ConvertToEUR db amountLocal (Currency stock) in
  attempt costEUR := ConvertToEUR db costLocal (Currency stock) in
  let '(usdRate, err) := GetRate db "USD" in
  if bool_decide (err <> None) || (usdRate <=? 0) then
    UpdateFailed "invalid USD exchange rate for scheduler calculations"
  else
    let row :=
      mkStockRow stock (Weight row) (valueEUR * usdRate)
        ((valueEUR - costEUR) * usdRate) in
    attempt saved := (row, Save row) in
    let evChange := ExpectedValue stock - oldEV in
    let alerts :=
      if AlertsEnabled settings
         && ((evChange >? AlertThresholdEV settings)
             || (evChange <? - AlertThresholdEV settings))
      then
        [mkAlert (Ticker stock) "ev_change"
           ("EV changed from " +:+ formatFloat oldEV +:+ "% to "
            +:+ formatFloat (ExpectedValue stock) +:+ "%")
           false]
      else [] in
    let alerts :=
      if (CurrentPrice stock >=? BuyZoneMin stock)
         && (CurrentPrice stock <=? BuyZoneMax stock)
      then
        alerts ++
        [mkAlert (Ticker stock) "buy_zone"
           (Ticker stock +:+ " is in buy zone at "
            +:+ formatFloat (CurrentPrice stock))
           false]
      else alerts in
    Updated saved alerts.

(** ** The engine in binary64

    The same functions over IEEE 754 binary64 numbers, the [float64] of
    Go, with the operations of the processor: rounding to nearest even,
    infinities, signed zeros and NaN.  The text of every function is the
    text of its exact counterpart above, with the operations in the order
    and the grouping of the source; every operation is rounded on its own,
    as on amd64, where the compiler fuses no multiplication with an
    addition.  [math.IsNaN], [math.IsInf] and [math.Abs] are the
    operations on binary64, and a constant of the source is the binary64
    number nearest to it, as in Go. *)
Module Binary64.

Import PrimFloat.
Local Open Scope float_scope.
Local Set Warnings "-inexact-float".

Notation "x >? y" := (PrimFloat.ltb y x)
  (at level 70, no associativity, only parsing) : float_scope.
Notation "x >=? y" := (PrimFloat.leb y x)
  (at level 70, no associativity, only parsing) : float_scope.

(** [float64(n)] for a Go [int]: the nearest binary64 number, for
    |n| < 2^63, as every [int] but the least one is. *)
Definition float64 (n : Z) : float :=
  if (n <? 0)%Z then - of_uint63 (Uint63.of_Z (- n))
  else of_uint63 (Uint63.of_Z n).

(** *** The position record *)

(** The fields are those of the record of the exact model; the numbers are
    binary64. *)
Record Stock : Type := mkStock {
  Ticker : string;
  Sector : string;
  Currency : string;
  CurrentPrice : float;
  FairValue : float;
  Beta : float;
  ProbabilityPositive : float;
  DownsideRisk : float;
  SharesOwned : Z;
  AvgPriceLocal : float;
  Volatility : float;
  UpsidePotential : float;
  BRatio : float;
  ExpectedValue : float;
  KellyFraction : float;
  HalfKellySuggested : float;
  Assessment : string;
  BuyZoneMin : float;
  BuyZoneMax : float;
  SellZoneLowerBound : float;
  SellZoneUpperBound : float;
  SellZoneStatus : string
}.

(** The zero value of the struct, [models.Stock{}]. *)
Definition zeroStock : Stock :=
  mkStock "" "" "" 0 0 0 0 0 0%Z 0 0 0 0 0 0 0 "" 0 0 0 0 "".

(** Field assignments [stock.F = v]. *)
Definition set_DownsideRisk (v : float) (s : Stock) : Stock :=
  mkStock (Ticker s) (Sector s) (Currency s) (CurrentPrice s) (FairValue s)
    (Beta s) (ProbabilityPositive s) v (SharesOwned s) (AvgPriceLocal s)
    (Volatility s) (UpsidePotential s) (BRatio s) (ExpectedValue s)
    (KellyFraction s) (HalfKellySuggested s) (Assessment s) (BuyZoneMin s)
    (BuyZoneMax s) (SellZoneLowerBound s) (SellZoneUpperBound s)
    (SellZoneStatus s).

Definition set_ProbabilityPositive (v : float) (s : Stock) : Stock :=
  mkStock (Ticker s) (Sector s) (Currency s) (CurrentPrice s) (FairValue s)
    (Beta s) v (DownsideRisk s) (SharesOwned s) (AvgPriceLocal s)
    (Volatility s) (UpsidePotential s) (BRatio s) (ExpectedValue s)
    (KellyFraction s) (HalfKellySuggested s) (Assessment s) (BuyZoneMin s)
    (BuyZoneMax s) (SellZoneLowerBound s) (SellZoneUpperBound s)
    (SellZoneStatus s).

Definition set_UpsidePotential (v : float) (s : Stock) : Stock :=
  mkStock (Ticker s) (Sector s) (Currency s) (CurrentPrice s) (FairValue s)
    (Beta s) (ProbabilityPositive s) (DownsideRisk s) (SharesOwned s)
    (AvgPriceLocal s) (Volatility s) v (BRatio s) (ExpectedValue s)
    (KellyFraction s) (HalfKellySuggested s) (Assessment s) (BuyZoneMin s)
    (BuyZoneMax s) (SellZoneLowerBound s) (SellZoneUpperBound s)
    (SellZoneStatus s).

Definition set_BRatio (v : float) (s : Stock) : Stock :=
  mkStock (Ticker s) (Sector s) (Currency s) (CurrentPrice s) (FairValue s)
    (Beta s) (ProbabilityPositive s) (DownsideRisk s) (SharesOwned s)
    (AvgPriceLocal s) (Volatility s) (UpsidePotential s) v (ExpectedValue s)
    (KellyFraction s) (HalfKellySuggested s) (Assessment s) (BuyZoneMin s)
    (BuyZoneMax s) (SellZoneLowerBound s) (SellZoneUpperBound s)
    (SellZoneStatus s).

Definition set_ExpectedValue (v : float) (s : Stock) : Stock :=
  mkStock (Ticker s) (Sector s) (Currency s) (CurrentPrice s) (FairValue s)
    (Beta s) (ProbabilityPositive s) (DownsideRisk s) (SharesOwned s)
    (AvgPriceLocal s) (Volatility s) (UpsidePotential s) (BRatio s) v
    (KellyFraction s) (HalfKellySuggested s) (Assessment s) (BuyZoneMin s)
    (BuyZoneMax s) (SellZoneLowerBound s) (SellZoneUpperBound s)
    (SellZoneStatus s).

Definition set_KellyFraction (v : float) (s : Stock) : Stock :=
  mkStock (Ticker s) (Sector s) (Currency s) (CurrentPrice s) (FairValue s)
    (Beta s) (ProbabilityPositive s) (DownsideRisk s) (SharesOwned s)
    (AvgPriceLocal s) (Volatility s) (UpsidePotential s) (BRatio s)
    (ExpectedValue s) v (HalfKellySuggested s) (Assessment s) (BuyZoneMin s)
    (BuyZoneMax s) (SellZoneLowerBound s) (SellZoneUpperBound s)
    (SellZoneStatus s).

Definition set_HalfKellySuggested (v : float) (s : Stock) : Stock :=
  mkStock (Ticker s) (Sector s) (Currency s) (CurrentPrice s) (FairValue s)
    (Beta s) (ProbabilityPositive s) (DownsideRisk s) (SharesOwned s)
    (AvgPriceLocal s) (Volatility s) (UpsidePotential s) (BRatio s)
    (ExpectedValue s) (KellyFraction s) v (Assessment s) (BuyZoneMin s)
    (BuyZoneMax s) (SellZoneLowerBound s) (SellZoneUpperBound s)
    (SellZoneStatus s).

Definition set_Assessment (v : string) (s : Stock) : Stock :=
  mkStock (Ticker s) (Sector s) (Currency s) (CurrentPrice s) (FairValue s)
    (Beta s) (ProbabilityPositive s) (DownsideRisk s) (SharesOwned s)
    (AvgPriceLocal s) (Volatility s) (UpsidePotential s) (BRatio s)
    (ExpectedValue s) (KellyFraction s) (HalfKellySuggested s) v
    (BuyZoneMin s) (BuyZoneMax s) (SellZoneLowerBound s)
    (SellZoneUpperBound s) (SellZoneStatus s).

Definition set_BuyZoneMin (v : float) (s : Stock) : Stock :=
  mkStock (Ticker s) (Sector s) (Currency s) (CurrentPrice s) (FairValue s)
    (Beta s) (ProbabilityPositive s) (DownsideRisk s) (SharesOwned s)
    (AvgPriceLocal s) (Volatility s) (UpsidePotential s) (BRatio s)
    (ExpectedValue s) (KellyFraction s) (HalfKellySuggested s) (Assessment s)
    v (BuyZoneMax s) (SellZoneLowerBound s) (SellZoneUpperBound s)
    (SellZoneStatus s).

Definition set_BuyZoneMax (v : float) (s : Stock) : Stock :=
  mkStock (Ticker s) (Sector s) (Currency s) (CurrentPrice s) (FairValue s)
    (Beta s) (ProbabilityPositive s) (DownsideRisk s) (SharesOwned s)
    (AvgPriceLocal s) (Volatility s) (UpsidePotential s) (BRatio s)
    (ExpectedValue s) (KellyFraction s) (HalfKellySuggested s) (Assessment s)
    (BuyZoneMin s) v (SellZoneLowerBound s) (SellZoneUpperBound s)
    (SellZoneStatus s).

Definition set_SellZoneLowerBound (v : float) (s : Stock) : Stock :=
  mkStock (Ticker s) (Sector s) (Currency s) (CurrentPrice s) (FairValue s)
    (Beta s) (ProbabilityPositive s) (DownsideRisk s) (SharesOwned s)
    (AvgPriceLocal s) (Volatility s) (UpsidePotential s) (BRatio s)
    (ExpectedValue s) (KellyFraction s) (HalfKellySuggested s) (Assessment s)
    (BuyZoneMin s) (BuyZoneMax s) v (SellZoneUpperBound s)
    (SellZoneStatus s).

Definition set_SellZoneUpperBound (v : float) (s : Stock) : Stock :=
  mkStock (Ticker s) (Sector s) (Currency s) (CurrentPrice s) (FairValue s)
    (Beta s) (ProbabilityPositive s) (DownsideRisk s) (SharesOwned s)
    (AvgPriceLocal s) (Volatility s) (UpsidePotential s) (BRatio s)
    (ExpectedValue s) (KellyFraction s) (HalfKellySuggested s) (Assessment s)
    (BuyZoneMin s) (BuyZoneMax s) (SellZoneLowerBound s) v
    (SellZoneStatus s).

Definition set_SellZoneStatus (v : string) (s : Stock) : Stock :=
  mkStock (Ticker s) (Sector s) (Currency s) (CurrentPrice s) (FairValue s)
    (Beta s) (ProbabilityPositive s) (DownsideRisk s) (SharesOwned s)
    (AvgPriceLocal s) (Volatility s) (UpsidePotential s) (BRatio s)
    (ExpectedValue s) (KellyFraction s) (HalfKellySuggested s) (Assessment s)
    (BuyZoneMin s) (BuyZoneMax s) (SellZoneLowerBound s)
    (SellZoneUpperBound s) v.

(** *** Constants of [pkg/services/calculations.go] *)

Definition defaultProbabilityPositive : float := 0.65.
Definition riskFreeRatePercent : float := 4.0.
Definition minDownsideMagnitude : float := 0.1.

(** *** The threshold solver and the forward formula *)

Definition calibrateDownsideRisk (beta : float) : float :=
  if beta <? 0.5 then -15.0
  else if beta <? 1.0 then -20.0
  else if beta <? 1.5 then -25.0
  else -30.0.

Definition expectedValueAtPrice
    (fairValue probabilityPositive downsideRisk currentPrice : float) : float :=
  if currentPrice <=? 0 then 0
  else
    let upsidePercent := ((fairValue - currentPrice) / currentPrice) * 100 in
    (probabilityPositive * upsidePercent)
    + ((1 - probabilityPositive) * downsideRisk).

Definition solvePriceForEVThreshold
    (fairValue probabilityPositive downsideRisk evThreshold : float)
    : float * bool :=
  let downsideMagnitude := abs downsideRisk in
  let denominator :=
    evThreshold + (100 * probabilityPositive)
    + ((1 - probabilityPositive) * downsideMagnitude) in
  if denominator <=? 0 then (0, false)
  else
    let price := (100 * probabilityPositive * fairValue) / denominator in
    if is_nan price || is_infinity price || (price <=? 0) then (0, false)
    else (price, true).

(** *** [CalculateMetrics]

    The Go function mutates [*stock] in ten numbered steps; each step is a
    function from the record before the step to the record after it, and
    [CalculateMetrics] runs them in order. *)

(** 1. Calibrate downside risk based on beta, unless explicitly provided. *)
Definition step1_calibrate (stock : Stock) : Stock :=
  if DownsideRisk stock =? 0 then
    if Beta stock >? 0 then
      set_DownsideRisk (calibrateDownsideRisk (Beta stock)) stock
    else
      set_DownsideRisk (-20.0) stock
  else stock.

(** 2. Upside Potential = ((Fair Value - Current Price) / Current Price) * 100 *)
Definition step2_upside (stock : Stock) : Stock :=
  if (CurrentPrice stock >? 0) && (FairValue stock >? 0) then
    set_UpsidePotential
      (((FairValue stock - CurrentPrice stock) / CurrentPrice stock) * 100)
      stock
  else stock.

(** 3. Use conservative default probability when missing/invalid. *)
Definition step3_probability (stock : Stock) : Stock :=
  if (ProbabilityPositive stock <=? 0) || (ProbabilityPositive stock >? 1) then
    set_ProbabilityPositive defaultProbabilityPositive stock
  else stock.

(** 4. b Ratio = Upside % / |Downside %| with a small floor on downside. *)
Definition step4_bratio (stock : Stock) : Stock :=
  let downsideMagnitude := abs (DownsideRisk stock) in
  let downsideMagnitude :=
    if downsideMagnitude <? minDownsideMagnitude then minDownsideMagnitude
    else downsideMagnitude in
  set_BRatio (UpsidePotential stock / downsideMagnitude) stock.

(** 5. Expected Value (EV) = (p * Upside %) + ((1 - p) * Downside %) *)
Definition step5_ev (stock : Stock) : Stock :=
  set_ExpectedValue
    ((ProbabilityPositive stock * UpsidePotential stock)
     + ((1 - ProbabilityPositive stock) * DownsideRisk stock))
    stock.

(** 6. Kelly f* = ((b * p) - (1 - p)) / b, in percent and clamped at 0. *)
Definition step6_kelly (stock : Stock) : Stock :=
  if BRatio stock >? 0 then
    let stock :=
      set_KellyFraction
        (((BRatio stock * ProbabilityPositive stock)
          - (1 - ProbabilityPositive stock)) / BRatio stock * 100)
        stock in
    if KellyFraction stock <? 0 then set_KellyFraction 0 stock else stock
  else
    set_KellyFraction 0 stock.

(** 7. Half-Kelly suggested weight, capped at 15%. *)
Definition step7_halfKelly (stock : Stock) : Stock :=
  let stock := set_HalfKellySuggested (KellyFraction stock / 2) stock in
  if HalfKellySuggested stock >? 15 then set_HalfKellySuggested 15 stock
  else stock.

(** 8. Assessment thresholds under a conservative EV policy. *)
Definition step8_assessment (stock : Stock) : Stock :=
  if ExpectedValue stock >? 7 then
    set_Assessment "Add" stock
  else if (ExpectedValue stock >=? 3) && (ExpectedValue stock <=? 7) then
    set_Assessment "Hold" stock
  else if (ExpectedValue stock >=? 0) && (ExpectedValue stock <? 3) then
    set_Assessment "Trim" stock
  else
    set_Assessment "Sell" stock.

(** 9. Buy zone uses EV >= 7% entry threshold. *)
Definition step9_buyZone (stock : Stock) : Stock :=
  if (FairValue stock >? 0) && (ProbabilityPositive stock >? 0) then
    let targetEV := 7.0 in
    let requiredUpside :=
      (targetEV - (1 - ProbabilityPositive stock) * DownsideRisk stock)
      / ProbabilityPositive stock in
    if requiredUpside >? -100 then
      let stock :=
        set_BuyZoneMax (FairValue stock / (1 + requiredUpside / 100)) stock in
      set_BuyZoneMin (BuyZoneMax stock * 0.90) stock
    else
      let stock := set_BuyZoneMin (CurrentPrice stock * 0.85) stock in
      set_BuyZoneMax (CurrentPrice stock * 0.95) stock
  else stock.

(** 10. Sell zone thresholds: lower bound at EV = 3%, upper bound at
    EV = 0%. *)
Definition step10_sellZone (stock : Stock) : Stock :=
  let '(sellLowerBound, okTrim) :=
    solvePriceForEVThreshold (FairValue stock) (ProbabilityPositive stock)
      (DownsideRisk stock) 3 in
  let '(sellUpperBound, okSell) :=
    solvePriceForEVThreshold (FairValue stock) (ProbabilityPositive stock)
      (DownsideRisk stock) 0 in
  if okTrim && okSell && (sellLowerBound <? sellUpperBound) then
    let stock := set_SellZoneLowerBound sellLowerBound stock in
    let stock := set_SellZoneUpperBound sellUpperBound stock in
    if ExpectedValue stock >? 3 then
      set_SellZoneStatus "Below sell zone" stock
    else if ExpectedValue stock >? 0 then
      set_SellZoneStatus "In trim zone" stock
    else
      set_SellZoneStatus "In sell zone" stock
  else
    let stock := set_SellZoneLowerBound 0 stock in
    let stock := set_SellZoneUpperBound 0 stock in
    set_SellZoneStatus "no sell zone" stock.

Definition CalculateMetrics (stock : Stock) : Stock :=
  let stock := step1_calibrate stock in
  let stock := step2_upside stock in
  let stock := step3_probability stock in
  let stock := step4_bratio stock in
  let stock := step5_ev stock in
  let stock := step6_kelly stock in
  let stock := step7_halfKelly stock in
  let stock := step8_assessment stock in
  let stock := step9_buyZone stock in
  step10_sellZone stock.

(** *** Portfolio aggregation *)

Record PortfolioMetrics : Type := mkPortfolioMetrics {
  TotalValue : float;
  OverallEV : float;
  WeightedVolatility : float;
  SharpeRatio : float;
  KellyUtilization : float;
  SectorWeights : gmap string float
}.

(** Reading a Go map at a key: the zero value when the key is absent. *)
Definition mapGet (m : gmap string float) (k : string) : float := default 0 (m !! k).

(** Reading [stockValues[i]]; the slice has [len(stocks)] entries, so the
    index of a [range stocks] loop is always in range. *)
Definition sliceGet (l : list float) (i : nat) : float := default 0 (l !! i).

(** State of the first pass: [totalValue] and [stockValues]. *)
Definition firstPassBody (fxRates : gmap string float)
    (st : float * list float) (i : nat) (stock : Stock) : float * list float :=
  let '(totalValue, stockValues) := st in
  if (SharesOwned stock <=? 0)%Z then st
  else
    let fxRate := mapGet fxRates (Currency stock) in
    if fxRate <=? 0 then st
    else
      let valueEUR :=
        float64 (SharesOwned stock) * CurrentPrice stock / fxRate in
      (totalValue + valueEUR, <[i := valueEUR]> stockValues).

(** State of the second pass. *)
Record Weighted : Type := mkWeighted {
  weightedEV : float;
  weightedVolatility : float;
  sectorWeights : gmap string float;
  kellyUtilization : float
}.

Definition secondPassBody (totalValue : float) (stockValues : list float)
    (st : Weighted) (i : nat) (stock : Stock) : Weighted :=
  if (SharesOwned stock <=? 0)%Z then st
  else if (totalValue >? 0) && (sliceGet stockValues i >? 0) then
    let weight := sliceGet stockValues i / totalValue in
    mkWeighted
      (weightedEV st + ExpectedValue stock * weight)
      (weightedVolatility st + Volatility stock * weight)
      (<[Sector stock := mapGet (sectorWeights st) (Sector stock) + weight * 100]>
         (sectorWeights st))
      (kellyUtilization st + weight * 100)
  else st.

(** The part of the function after the first pass, shared by both
    variants of the aggregator. *)
Definition aggregate (stocks : list Stock) (first : float * list float)
    : PortfolioMetrics :=
  let '(totalValue, stockValues) := first in
  let w :=
    rangeLoop (secondPassBody totalValue stockValues) 0%nat stocks
      (mkWeighted 0 0 ∅ 0) in
  let sharpeRatio :=
    if weightedVolatility w >? 0 then
      (weightedEV w - riskFreeRatePercent) / weightedVolatility w
    else 0 in
  mkPortfolioMetrics totalValue (weightedEV w) (weightedVolatility w)
    sharpeRatio (kellyUtilization w) (sectorWeights w).

(** [pkg/services]: a missing or non-positive rate skips the position. *)
Definition CalculatePortfolioMetrics (stocks : list Stock)
    (fxRates : gmap string float) : PortfolioMetrics :=
  aggregate stocks
    (rangeLoop (firstPassBody fxRates) 0%nat stocks
       (0, replicate (length stocks) 0)).

End Binary64.

(** * Definitions used in the statements *)

(** ** The value of every field after [CalculateMetrics]

    Each function below gives one field of the result in terms of the
    record passed in. *)

Definition downsideAfter (s : Stock) : Q :=
  if DownsideRisk s =? 0 then
    if Beta s >? 0 then calibrateDownsideRisk (Beta s) else -20.0
  else DownsideRisk s.

Definition upsideAfter (s : Stock) : Q :=
  if (CurrentPrice s >? 0) && (FairValue s >? 0) then
    ((FairValue s - CurrentPrice s) / CurrentPrice s) * 100
  else UpsidePotential s.

Definition probabilityAfter (s : Stock) : Q :=
  if (ProbabilityPositive s <=? 0) || (ProbabilityPositive s >? 1) then
    defaultProbabilityPositive
  else ProbabilityPositive s.

Definition magnitudeAfter (s : Stock) : Q :=
  if Qabs (downsideAfter s) <? minDownsideMagnitude then minDownsideMagnitude
  else Qabs (downsideAfter s).

Definition bratioAfter (s : Stock) : Q := upsideAfter s / magnitudeAfter s.

Definition evAfter (s : Stock) : Q :=
  (probabilityAfter s * upsideAfter s)
  + ((1 - probabilityAfter s) * downsideAfter s).

Definition rawKelly (s : Stock) : Q :=
  ((bratioAfter s * probabilityAfter s) - (1 - probabilityAfter s))
  / bratioAfter s * 100.

Definition kellyAfter (s : Stock) : Q :=
  if bratioAfter s >? 0 then
    if rawKelly s <? 0 then 0 else rawKelly s
  else 0.

Definition halfKellyAfter (s : Stock) : Q :=
  if kellyAfter s / 2 >? 15 then 15 else kellyAfter s / 2.

Definition assessmentAfter (s : Stock) : string :=
  if evAfter s >? 7 then "Add"
  else if (evAfter s >=? 3) && (evAfter s <=? 7) then "Hold"
  else if (evAfter s >=? 0) && (evAfter s <? 3) then "Trim"
  else "Sell".

Definition requiredUpside (s : Stock) : Q :=
  (7.0 - (1 - probabilityAfter s) * downsideAfter s) / probabilityAfter s.

Definition buyZoneGuard (s : Stock) : bool :=
  (FairValue s >? 0) && (probabilityAfter s >? 0).

Definition buyMaxAfter (s : Stock) : Q :=
  if buyZoneGuard s then
    if requiredUpside s >? -100 then
      FairValue s / (1 + requiredUpside s / 100)
    else CurrentPrice s * 0.95
  else BuyZoneMax s.

Definition buyMinAfter (s : Stock) : Q :=
  if buyZoneGuard s then
    if requiredUpside s >? -100 then
      FairValue s / (1 + requiredUpside s / 100) * 0.90
    else CurrentPrice s * 0.85
  else BuyZoneMin s.

Definition solveAfter (s : Stock) (evThreshold : Q) : Q * bool :=
  solvePriceForEVThreshold (FairValue s) (probabilityAfter s)
    (downsideAfter s) evThreshold.

Definition sellZoneGuard (s : Stock) : bool :=
  snd (solveAfter s 3) && snd (solveAfter s 0)
  && (fst (solveAfter s 3) <? fst (solveAfter s 0)).

Definition sellLowerAfter (s : Stock) : Q :=
  if sellZoneGuard s then fst (solveAfter s 3) else 0.

Definition sellUpperAfter (s : Stock) : Q :=
  if sellZoneGuard s then fst (solveAfter s 0) else 0.

Definition sellStatusAfter (s : Stock) : string :=
  if sellZoneGuard s then
    if evAfter s >? 3 then "Below sell zone"
    else if evAfter s >? 0 then "In trim zone"
    else "In sell zone"
  else "no sell zone".

Definition fieldsAfter (s : Stock) : Stock :=
  mkStock (Ticker s) (Sector s) (Currency s) (CurrentPrice s) (FairValue s)
    (Beta s) (probabilityAfter s) (downsideAfter s) (SharesOwned s)
    (AvgPriceLocal s) (Volatility s) (upsideAfter s) (bratioAfter s)
    (evAfter s) (kellyAfter s) (halfKellyAfter s) (assessmentAfter s)
    (buyMinAfter s) (buyMaxAfter s) (sellLowerAfter s) (sellUpperAfter s)
    (sellStatusAfter s).

(** ** Raw inputs and derived fields *)

(** The raw inputs of a position. *)
Definition sameInputs (a b : Stock) : Prop :=
  Ticker a = Ticker b /\ Sector a = Sector b /\ Currency a = Currency b /\
  CurrentPrice a = CurrentPrice b /\ FairValue a = FairValue b /\
  Beta a = Beta b /\ ProbabilityPositive a = ProbabilityPositive b /\
  DownsideRisk a = DownsideRisk b /\ SharesOwned a = SharesOwned b /\
  AvgPriceLocal a = AvgPriceLocal b.

(** The derived fields of a position. *)
Definition sameDerived (a b : Stock) : Prop :=
  UpsidePotential a = UpsidePotential b /\ BRatio a = BRatio b /\
  ExpectedValue a = ExpectedValue b /\ KellyFraction a = KellyFraction b /\
  HalfKellySuggested a = HalfKellySuggested b /\
  Assessment a = Assessment b /\
  BuyZoneMin a = BuyZoneMin b /\ BuyZoneMax a = BuyZoneMax b /\
  SellZoneLowerBound a = SellZoneLowerBound b /\
  SellZoneUpperBound a = SellZoneUpperBound b /\
  SellZoneStatus a = SellZoneStatus b.

(** ** Validation in the standalone zone queries *)

Definition errProbability : string :=
  "probability_positive must be between 0 and 1".
Definition errDownside : string := "downside_risk must be negative".
Definition errFairValue : string := "fair_value must be positive".

(** The three checks, in the order the code makes them. *)
Definition validationError (fv p d : Q) : error :=
  if (p <? 0) || (p >? 1) then Some errProbability
  else if d >=? 0 then Some errDownside
  else if fv <=? 0 then Some errFairValue
  else None.

(** ** What the two passes of the aggregator compute *)

(** A position counts when shares are owned and its currency has a
    positive rate. *)
Definition included (fxRates : gmap string Q) (stock : Stock) : bool :=
  (0 <? SharesOwned stock)%Z && (0 <? mapGet fxRates (Currency stock)).

(** The value of a position in the base currency. *)
Definition positionValue (fxRates : gmap string Q) (stock : Stock) : Q :=
  inject_Z (SharesOwned stock) * CurrentPrice stock
  / mapGet fxRates (Currency stock).

(** The rate [internal/services] divides by: 1 when the rate is missing or
    zero. *)
Definition internalRate (fxRates : gmap string Q) (stock : Stock) : Q :=
  if mapGet fxRates (Currency stock) =? 0 then 1.0
  else mapGet fxRates (Currency stock).

(** Shares are owned. *)
Definition owned (stock : Stock) : bool := (0 <? SharesOwned stock)%Z.

(** The entry of [stockValues] for a position after the first pass. *)
Definition valueOf (fxRates : gmap string Q) (stock : Stock) : Q :=
  if included fxRates stock then positionValue fxRates stock else 0.

Definition Qsum (l : list Q) : Q := foldr Qplus 0 l.

(** The sum of the values of a map. *)
Definition sumValues (m : gmap string Q) : Q :=
  map_fold (fun _ v acc => v + acc) 0 m.

(** One iteration of the second pass, given the position's entry of
    [stockValues]. *)
Definition secondPassStep (totalValue : Q) (st : Weighted) (v : Q)
    (stock : Stock) : Weighted :=
  if (SharesOwned stock <=? 0)%Z then st
  else if (totalValue >? 0) && (v >? 0) then
    let weight := v / totalValue in
    mkWeighted
      (weightedEV st + ExpectedValue stock * weight)
      (weightedVolatility st + Volatility stock * weight)
      (<[Sector stock := mapGet (sectorWeights st) (Sector stock) + weight * 100]>
         (sectorWeights st))
      (kellyUtilization st + weight * 100)
  else st.

Definition totalOf (fxRates : gmap string Q) (t : Q) (stocks : list Stock) : Q :=
  foldl (fun t stock =>
           if included fxRates stock then t + positionValue fxRates stock
           else t) t stocks.

Definition weightedOf (fxRates : gmap string Q) (totalValue : Q)
    (st : Weighted) (stocks : list Stock) : Weighted :=
  foldl (fun st stock =>
           secondPassStep totalValue st (valueOf fxRates stock) stock)
    st stocks.

(** The summary record built from the total and the second-pass state. *)
Definition summaryOf (totalValue : Q) (w : Weighted) : PortfolioMetrics :=
  mkPortfolioMetrics totalValue (weightedEV w) (weightedVolatility w)
    (if weightedVolatility w >? 0 then
       (weightedEV w - riskFreeRatePercent) / weightedVolatility w
     else 0)
    (kellyUtilization w) (sectorWeights w).

(** The all-zero summary. *)
Definition zeroSummary : PortfolioMetrics := mkPortfolioMetrics 0 0 0 0 0 ∅.

(** ** Concrete positions and portfolios *)

Definition freshA : Stock :=
  mkStock "ABC" "Tech" "USD" 100 120 1.2 0 0 0%Z 0 0 0 0 0 0 0 "" 0 0 0 0 "".
Definition freshB : Stock :=
  mkStock "ABC" "Tech" "USD" 100 120 1.2 0 0 0%Z 0 0
    55 3 (-2) 40 15 "Sell" 1 2 3 4 "In sell zone".

(** A position with an explicit downside risk and a low beta. *)
Definition explicitDownside : Stock :=
  mkStock "ABC" "Tech" "USD" 100 120 0.4 0 (-10) 0%Z 0 0 0 0 0 0 0 "" 0 0 0 0 "".

(** Two positions with the same price and fair value but a different
    upside potential left from an earlier call; the price is zero, as for a
    position whose price has not been fetched. *)
Definition staleA : Stock :=
  mkStock "ABC" "Tech" "USD" 0 120 0 0 0 0%Z 0 0 0 0 0 0 0 "" 0 0 0 0 "".
Definition staleB : Stock :=
  mkStock "ABC" "Tech" "USD" 0 120 0 0 0 0%Z 0 0 20 0 0 0 0 "" 0 0 0 0 "".


(** A position in a currency for which no rate is known. *)
Definition unratedPosition : Stock :=
  mkStock "ABC" "Tech" "GBP" 100 0 0 0 0 10%Z 0 10 0 0 5 0 0 "" 0 0 0 0 "".

(** The portfolio of the reference test: two owned positions and one
    without shares; 2 EUR buy one unit of the base currency. *)
Definition testStocks : list Stock :=
  [ mkStock "" "Tech" "USD" 100 0 0 0 0 10%Z 0 10 0 0 5 0 0 "" 0 0 0 0 "";
    mkStock "" "Health" "EUR" 200 0 0 0 0 5%Z 0 20 0 0 1 0 0 "" 0 0 0 0 "";
    mkStock "" "Ignored" "USD" 999 0 0 0 0 0%Z 0 0 0 0 0 0 0 "" 0 0 0 0 "" ].
Definition testRates : gmap string Q := <["USD" := 1]> (<["EUR" := 2]> ∅).


(** ** Weights of the second pass *)

(** The position gets a weight in the second pass: the total is positive
    and so is the position's value. *)
Definition weighted (fxRates : gmap string Q) (totalValue : Q)
    (stock : Stock) : bool :=
  (0 <? totalValue) && (0 <? valueOf fxRates stock).

(** Its weight, as a fraction of the total. *)
Definition weightOf (fxRates : gmap string Q) (totalValue : Q)
    (stock : Stock) : Q :=
  valueOf fxRates stock / totalValue.

(** The weighted positions of one sector. *)
Definition weightedIn (fxRates : gmap string Q) (totalValue : Q)
    (sector : string) (stock : Stock) : bool :=
  weighted fxRates totalValue stock && bool_decide (Sector stock = sector).

(** ** The value of every field after the first version of
    [CalculateMetrics] *)

Definition legacyDownside (s : Stock) : Q :=
  if Beta s <? 0.5 then -15.0
  else if (Beta s >=? 0.5) && (Beta s <? 1.0) then -20.0
  else if (Beta s >=? 1.0) && (Beta s <? 1.5) then -25.0
  else -30.0.

Definition legacyUpside (s : Stock) : Q :=
  if CurrentPrice s >? 0 then
    ((FairValue s - CurrentPrice s) / CurrentPrice s) * 100
  else UpsidePotential s.

Definition legacyEV (s : Stock) : Q :=
  (ProbabilityPositive s * legacyUpside s)
  + ((1 - ProbabilityPositive s) * legacyDownside s).

Definition legacyBRatio (s : Stock) : Q :=
  if negb (legacyDownside s =? 0) then
    legacyUpside s / Qabs (legacyDownside s)
  else BRatio s.

Definition legacyKelly (s : Stock) : Q :=
  if legacyBRatio s >? 0 then
    ((legacyBRatio s * ProbabilityPositive s) - (1 - ProbabilityPositive s))
    / legacyBRatio s * 100
  else KellyFraction s.

Definition legacyHalfKelly (s : Stock) : Q :=
  if legacyKelly s / 2 >? 15 then 15 else legacyKelly s / 2.

Definition legacyAssessment (s : Stock) : string :=
  if legacyEV s >? 7 then "Add"
  else if legacyEV s >=? 3 then "Hold"
  else if legacyEV s >=? 0 then "Trim"
  else "Sell".

Definition legacyRequiredUpside (s : Stock) : Q :=
  (7.0 - (1 - ProbabilityPositive s) * legacyDownside s)
  / ProbabilityPositive s.

Definition legacyBuyZoneGuard (s : Stock) : bool :=
  (FairValue s >? 0) && (ProbabilityPositive s >? 0).

Definition legacyBuyMax (s : Stock) : Q :=
  if legacyBuyZoneGuard s then
    if legacyRequiredUpside s >? -100 then
      FairValue s / (1 + legacyRequiredUpside s / 100)
    else CurrentPrice s * 0.95
  else BuyZoneMax s.

Definition legacyBuyMin (s : Stock) : Q :=
  if legacyBuyZoneGuard s then
    if legacyRequiredUpside s >? -100 then
      FairValue s / (1 + legacyRequiredUpside s / 100) * 0.90
    else CurrentPrice s * 0.85
  else BuyZoneMin s.

Definition legacyFieldsAfter (s : Stock) : Stock :=
  mkStock (Ticker s) (Sector s) (Currency s) (CurrentPrice s) (FairValue s)
    (Beta s) (ProbabilityPositive s) (legacyDownside s) (SharesOwned s)
    (AvgPriceLocal s) (Volatility s) (legacyUpside s) (legacyBRatio s)
    (legacyEV s) (legacyKelly s) (legacyHalfKelly s) (legacyAssessment s)
    (legacyBuyMin s) (legacyBuyMax s) (SellZoneLowerBound s)
    (SellZoneUpperBound s) (SellZoneStatus s).

(** The positions and the portfolio of
    [internal/services/calculations_test.go]. *)
Definition legacyDerived : Stock :=
  mkStock "" "" "" 100 120 1.2 0.65 0 0%Z 0 0 0 0 0 0 0 "" 0 0 0 0 "".
Definition legacyNegativeEV : Stock :=
  mkStock "" "" "" 100 100 0.4 0.1 0 0%Z 0 0 0 0 0 0 0 "" 0 0 0 0 "".
Definition legacyTestStocks : list Stock :=
  [ mkStock "" "Tech" "USD" 100 0 0 0 0 10%Z 0 10 0 0 5 0 0 "" 0 0 0 0 "";
    mkStock "" "Health" "EUR" 200 0 0 0 0 5%Z 0 20 0 0 1 0 0 "" 0 0 0 0 "" ].

(** ** The rows of the portfolio summary *)

(** The rates the summary is computed with: the fallback rates when the
    rates could not be read. *)
Definition ratesUsed (rates : gmap string Q * error) : gmap string Q :=
  match rates with
  | (_, Some _) => fallbackRates
  | (fxRates, None) => fxRates
  end.

(** The rows with shares owned, and those of one sector. *)
Definition ownedRow (row : StockRow) : bool := owned (engineFields row).

Definition ownedRowIn (sector : string) (row : StockRow) : bool :=
  owned (engineFields row)
  && bool_decide (Sector (engineFields row) = sector).

(** Three rows for the portfolio of the reference test, with weights left
    from an earlier request. *)
Definition testRows : list StockRow :=
  map (fun stock => mkStockRow stock 50 0 0) testStocks.

(** The same portfolio with a fourth position, in a currency without a
    rate. *)
Definition unratedRow : StockRow := mkStockRow unratedPosition 0 0 0.
Definition testRowsUnrated : list StockRow := testRows ++ [unratedRow].

(** ** The alerts of the scheduled update *)

(** An alert of the given type is among the alerts created. *)
Definition raised (type : string) (alerts : list Alert) : Prop :=
  exists alert, In alert alerts /\ AlertType alert = type.

(** A scheduled update: a position in EUR, a price of 95 fetched, an
    external service that leaves the remaining inputs as they are, no row
    in the table of rates, a save that succeeds, alerts enabled with a
    threshold of 10. *)
Definition scheduledRow : StockRow :=
  mkStockRow
    (mkStock "ABC" "Tech" "EUR" 90 120 1.2 0.65 0 10%Z 80 0 0 0 0 0 0 ""
       0 0 0 0 "")
    0 0 0.
Definition priceFetched : string -> Q * error := fun _ => (95, None).
Definition estimatesKept : Stock -> Stock * error := fun stock => (stock, None).
Definition noRates : string -> queryResult := fun _ => RecordNotFound.
Definition saveSucceeds : StockRow -> error := fun _ => None.
Definition alertSettings : PortfolioSettings := mkPortfolioSettings true 10.0.
Definition noFormat : Q -> string := fun _ => "".

(** ** The value of every field after [CalculateMetrics] in binary64

    The definitions of the exact model, read over binary64. *)
Module Binary64Fields.

Import PrimFloat Binary64.
Local Open Scope float_scope.
Local Set Warnings "-inexact-float".

Definition downsideAfter (s : Stock) : float :=
  if DownsideRisk s =? 0 then
    if Beta s >? 0 then calibrateDownsideRisk (Beta s) else -20.0
  else DownsideRisk s.

Definition upsideAfter (s : Stock) : float :=
  if (CurrentPrice s >? 0) && (FairValue s >? 0) then
    ((FairValue s - CurrentPrice s) / CurrentPrice s) * 100
  else UpsidePotential s.

Definition probabilityAfter (s : Stock) : float :=
  if (ProbabilityPositive s <=? 0) || (ProbabilityPositive s >? 1) then
    defaultProbabilityPositive
  else ProbabilityPositive s.

Definition magnitudeAfter (s : Stock) : float :=
  if abs (downsideAfter s) <? minDownsideMagnitude then minDownsideMagnitude
  else abs (downsideAfter s).

Definition bratioAfter (s : Stock) : float := upsideAfter s / magnitudeAfter s.

Definition evAfter (s : Stock) : float :=
  (probabilityAfter s * upsideAfter s)
  + ((1 - probabilityAfter s) * downsideAfter s).

Definition rawKelly (s : Stock) : float :=
  ((bratioAfter s * probabilityAfter s) - (1 - probabilityAfter s))
  / bratioAfter s * 100.

Definition kellyAfter (s : Stock) : float :=
  if bratioAfter s >? 0 then
    if rawKelly s <? 0 then 0 else rawKelly s
  else 0.

Definition halfKellyAfter (s : Stock) : float :=
  if kellyAfter s / 2 >? 15 then 15 else kellyAfter s / 2.

Definition assessmentAfter (s : Stock) : string :=
  if evAfter s >? 7 then "Add"
  else if (evAfter s >=? 3) && (evAfter s <=? 7) then "Hold"
  else if (evAfter s >=? 0) && (evAfter s <? 3) then "Trim"
  else "Sell".

Definition requiredUpside (s : Stock) : float :=
  (7.0 - (1 - probabilityAfter s) * downsideAfter s) / probabilityAfter s.

Definition buyZoneGuard (s : Stock) : bool :=
  (FairValue s >? 0) && (probabilityAfter s >? 0).

Definition buyMaxAfter (s : Stock) : float :=
  if buyZoneGuard s then
    if requiredUpside s >? -100 then
      FairValue s / (1 + requiredUpside s / 100)
    else CurrentPrice s * 0.95
  else BuyZoneMax s.

Definition buyMinAfter (s : Stock) : float :=
  if buyZoneGuard s then
    if requiredUpside s >? -100 then
      FairValue s / (1 + requiredUpside s / 100) * 0.90
    else CurrentPrice s * 0.85
  else BuyZoneMin s.

Definition solveAfter (s : Stock) (evThreshold : float)
    : float * bool :=
  solvePriceForEVThreshold (FairValue s) (probabilityAfter s)
    (downsideAfter s) evThreshold.

Definition sellZoneGuard (s : Stock) : bool :=
  snd (solveAfter s 3) && snd (solveAfter s 0)
  && (fst (solveAfter s 3) <? fst (solveAfter s 0)).

Definition sellLowerAfter (s : Stock) : float :=
  if sellZoneGuard s then fst (solveAfter s 3) else 0.

Definition sellUpperAfter (s : Stock) : float :=
  if sellZoneGuard s then fst (solveAfter s 0) else 0.

Definition sellStatusAfter (s : Stock) : string :=
  if sellZoneGuard s then
    if evAfter s >? 3 then "Below sell zone"
    else if evAfter s >? 0 then "In trim zone"
    else "In sell zone"
  else "no sell zone".

Definition fieldsAfter (s : Stock) : Stock :=
  mkStock (Ticker s) (Sector s) (Currency s) (CurrentPrice s) (FairValue s)
    (Beta s) (probabilityAfter s) (downsideAfter s) (SharesOwned s)
    (AvgPriceLocal s) (Volatility s) (upsideAfter s) (bratioAfter s)
    (evAfter s) (kellyAfter s) (halfKellyAfter s) (assessmentAfter s)
    (buyMinAfter s) (buyMaxAfter s) (sellLowerAfter s) (sellUpperAfter s)
    (sellStatusAfter s).

End Binary64Fields.

(** ** Signs of binary64 numbers

    A number is not positive when it is NaN, a zero or negative; it is
    positive or NaN otherwise; it is not negative when its sign bit is
    clear or it is NaN. *)
Section Binary64Signs.
Import SpecFloat.

Definition notPositive (x : spec_float) : Prop :=
  match x with
  | S754_nan | S754_zero _ => True
  | S754_infinity s | S754_finite s _ _ => s = true
  end.



End Binary64Signs.

(** ** Concrete positions and portfolios in binary64 *)
Module Binary64Inputs.

Import PrimFloat Binary64.
Local Open Scope float_scope.
Local Set Warnings "-inexact-float".

(** The position of the reference test: price 100, fair value 120, beta
    1.2, no probability and no downside risk given. *)
Definition reference : Stock :=
  mkStock "ABC" "Tech" "USD" 100 120 1.2 0 0 0%Z 0 0 0 0 0 0 0 "" 0 0 0 0 "".

(** A price of 1e-10 against a fair value of 1e300: the upside potential
    overflows. *)
Definition overflowing : Stock :=
  mkStock "ABC" "Tech" "USD" 1e-10 1e300 1.2 0 0 0%Z 0 0 0 0 0 0 0 ""
    0 0 0 0 "".


(** The portfolio of the reference test. *)
Definition testStocks : list Stock :=
  [ mkStock "" "Tech" "USD" 100 0 0 0 0 10%Z 0 10 0 0 5 0 0 "" 0 0 0 0 "";
    mkStock "" "Health" "EUR" 200 0 0 0 0 5%Z 0 20 0 0 1 0 0 "" 0 0 0 0 "";
    mkStock "" "Ignored" "USD" 999 0 0 0 0 0%Z 0 0 0 0 0 0 0 "" 0 0 0 0 "" ].
Definition testRates : gmap string float := <["USD" := 1]> (<["EUR" := 2]> ∅).


End Binary64Inputs.

(** * Properties *)

(** ** Comparisons *)

Lemma Qltb_spec (x y : Q) : reflect (x < y) (x <? y).
Proof.
  unfold Qltb. destruct (Qle_bool y x) eqn:E; constructor.
  - apply Qle_bool_iff in E. lra.
  - destruct (Qlt_le_dec x y) as [H|H]; [exact H|].
    apply Qle_bool_iff in H. congruence.
Qed.

Lemma Qleb_spec (x y : Q) : reflect (x <= y) (x <=? y).
Proof.
  unfold Qleb. destruct (Qle_bool x y) eqn:E; constructor.
  - by apply Qle_bool_iff.
  - intros H. apply Qle_bool_iff in H. congruence.
Qed.

Lemma Qeqb_spec (x y : Q) : reflect (x == y) (x =? y).
Proof.
  unfold Qeqb. destruct (Qeq_bool x y) eqn:E; constructor.
  - by apply Qeq_bool_iff.
  - by apply Qeq_bool_neq.
Qed.

(** Case analysis on the boolean comparisons of the goal. *)
Ltac qcases :=
  repeat match goal with
         | |- context [?x <? ?y] => destruct (Qltb_spec x y)
         | |- context [?x <=? ?y] => destruct (Qleb_spec x y)
         | |- context [?x =? ?y] => destruct (Qeqb_spec x y)
         end.

(** Closed comparisons of rationals. *)
Ltac qclosed := vm_compute; first [reflexivity | discriminate].

(** ** The ten steps compute the field values

    [CalculateMetrics_fields] proves that the ten steps compute exactly the
    values of [fieldsAfter]; the properties of the calculator are then
    proved on them. *)

(** Every step is one or two field assignments whose value may be the old
    one. *)
Ltac step_cases :=
  repeat match goal with
         | |- context [if ?c then _ else _] => destruct c
         | |- context [let '(_, _) := ?p in _] => destruct p
         end;
  reflexivity.

Lemma step1_assign (s : Stock) :
  step1_calibrate s = set_DownsideRisk (downsideAfter s) s.
Proof. destruct s. unfold step1_calibrate, downsideAfter. cbn. step_cases. Qed.

Lemma step2_assign (s : Stock) :
  step2_upside s = set_UpsidePotential (upsideAfter s) s.
Proof. destruct s. unfold step2_upside, upsideAfter. cbn. step_cases. Qed.

Lemma step3_assign (s : Stock) :
  step3_probability s = set_ProbabilityPositive (probabilityAfter s) s.
Proof. destruct s. unfold step3_probability, probabilityAfter. cbn. step_cases. Qed.

Lemma step6_assign (s : Stock) :
  step6_kelly s =
  set_KellyFraction
    (if BRatio s >? 0 then
       let k := ((BRatio s * ProbabilityPositive s)
                 - (1 - ProbabilityPositive s)) / BRatio s * 100 in
       if k <? 0 then 0 else k
     else 0) s.
Proof. destruct s. unfold step6_kelly. cbn. step_cases. Qed.

Lemma step7_assign (s : Stock) :
  step7_halfKelly s =
  set_HalfKellySuggested
    (if KellyFraction s / 2 >? 15 then 15 else KellyFraction s / 2) s.
Proof. destruct s. unfold step7_halfKelly. cbn. step_cases. Qed.

Lemma step8_assign (s : Stock) :
  step8_assessment s =
  set_Assessment
    (if ExpectedValue s >? 7 then "Add"
     else if (ExpectedValue s >=? 3) && (ExpectedValue s <=? 7) then "Hold"
     else if (ExpectedValue s >=? 0) && (ExpectedValue s <? 3) then "Trim"
     else "Sell") s.
Proof. destruct s. unfold step8_assessment. cbn. step_cases. Qed.

Lemma step9_assign (s : Stock) :
  step9_buyZone s =
  let guard := (FairValue s >? 0) && (ProbabilityPositive s >? 0) in
  let required :=
    (7.0 - (1 - ProbabilityPositive s) * DownsideRisk s)
    / ProbabilityPositive s in
  set_BuyZoneMin
    (if guard then
       if required >? -100 then FairValue s / (1 + required / 100) * 0.90
       else CurrentPrice s * 0.85
     else BuyZoneMin s)
    (set_BuyZoneMax
       (if guard then
          if required >? -100 then FairValue s / (1 + required / 100)
          else CurrentPrice s * 0.95
        else BuyZoneMax s) s).
Proof. destruct s. unfold step9_buyZone. cbn. step_cases. Qed.

Lemma step10_assign (s : Stock) :
  step10_sellZone s =
  let trim :=
    solvePriceForEVThreshold (FairValue s) (ProbabilityPositive s)
      (DownsideRisk s) 3 in
  let sell :=
    solvePriceForEVThreshold (FairValue s) (ProbabilityPositive s)
      (DownsideRisk s) 0 in
  let guard := snd trim && snd sell && (fst trim <? fst sell) in
  set_SellZoneStatus
    (if guard then
       if ExpectedValue s >? 3 then "Below sell zone"
       else if ExpectedValue s >? 0 then "In trim zone"
       else "In sell zone"
     else "no sell zone")
    (set_SellZoneUpperBound (if guard then fst sell else 0)
       (set_SellZoneLowerBound (if guard then fst trim else 0) s)).
Proof.
  destruct s. unfold step10_sellZone. cbn [FairValue ProbabilityPositive DownsideRisk ExpectedValue].
  destruct (solvePriceForEVThreshold _ _ _ 3) as [lo okTrim].
  destruct (solvePriceForEVThreshold _ _ _ 0) as [hi okSell].
  cbn. step_cases.
Qed.

Ltac after_assign :=
  cbn [set_DownsideRisk set_ProbabilityPositive set_UpsidePotential set_BRatio
       set_ExpectedValue set_KellyFraction set_HalfKellySuggested
       set_Assessment set_BuyZoneMin set_BuyZoneMax set_SellZoneLowerBound
       set_SellZoneUpperBound set_SellZoneStatus
       Ticker Sector Currency CurrentPrice FairValue Beta ProbabilityPositive
       DownsideRisk SharesOwned AvgPriceLocal Volatility UpsidePotential
       BRatio ExpectedValue KellyFraction HalfKellySuggested Assessment
       BuyZoneMin BuyZoneMax SellZoneLowerBound SellZoneUpperBound
       SellZoneStatus].

Theorem CalculateMetrics_fields (s : Stock) :
  CalculateMetrics s = fieldsAfter s.
Proof.
  unfold CalculateMetrics. cbv zeta. destruct s.
  rewrite step1_assign; after_assign.
  match goal with |- context [downsideAfter ?r] => set (d := downsideAfter r) end.
  rewrite step2_assign; after_assign.
  match goal with |- context [upsideAfter ?r] => set (u := upsideAfter r) end.
  rewrite step3_assign; after_assign.
  match goal with |- context [probabilityAfter ?r] => set (p := probabilityAfter r) end.
  unfold step4_bratio; after_assign.
  match goal with |- context [set_BRatio ?r] => set (b := r) end.
  unfold step5_ev; after_assign.
  match goal with |- context [set_ExpectedValue ?r] => set (e := r) end.
  rewrite step6_assign; after_assign.
  match goal with |- context [set_KellyFraction ?r] => set (k := r) end.
  rewrite step7_assign; after_assign.
  match goal with |- context [set_HalfKellySuggested ?r] => set (h := r) end.
  rewrite step8_assign; after_assign.
  match goal with |- context [set_Assessment ?r] => set (a := r) end.
  rewrite step9_assign; cbv zeta; after_assign.
  rewrite step10_assign; cbv zeta; after_assign.
  reflexivity.
Qed.

Lemma CalculateMetrics_DownsideRisk (s : Stock) :
  DownsideRisk (CalculateMetrics s) = downsideAfter s.
Proof. by rewrite CalculateMetrics_fields. Qed.

Lemma CalculateMetrics_ProbabilityPositive (s : Stock) :
  ProbabilityPositive (CalculateMetrics s) = probabilityAfter s.
Proof. by rewrite CalculateMetrics_fields. Qed.

Lemma CalculateMetrics_UpsidePotential (s : Stock) :
  UpsidePotential (CalculateMetrics s) = upsideAfter s.
Proof. by rewrite CalculateMetrics_fields. Qed.

Lemma CalculateMetrics_BRatio (s : Stock) :
  BRatio (CalculateMetrics s) = bratioAfter s.
Proof. by rewrite CalculateMetrics_fields. Qed.

Lemma CalculateMetrics_ExpectedValue (s : Stock) :
  ExpectedValue (CalculateMetrics s) = evAfter s.
Proof. by rewrite CalculateMetrics_fields. Qed.

Lemma CalculateMetrics_KellyFraction (s : Stock) :
  KellyFraction (CalculateMetrics s) = kellyAfter s.
Proof. by rewrite CalculateMetrics_fields. Qed.

Lemma CalculateMetrics_HalfKellySuggested (s : Stock) :
  HalfKellySuggested (CalculateMetrics s) = halfKellyAfter s.
Proof. by rewrite CalculateMetrics_fields. Qed.

Lemma CalculateMetrics_Assessment (s : Stock) :
  Assessment (CalculateMetrics s) = assessmentAfter s.
Proof. by rewrite CalculateMetrics_fields. Qed.

Lemma CalculateMetrics_BuyZoneMax (s : Stock) :
  BuyZoneMax (CalculateMetrics s) = buyMaxAfter s.
Proof. by rewrite CalculateMetrics_fields. Qed.

Lemma CalculateMetrics_BuyZoneMin (s : Stock) :
  BuyZoneMin (CalculateMetrics s) = buyMinAfter s.
Proof. by rewrite CalculateMetrics_fields. Qed.

Lemma CalculateMetrics_SellZoneLowerBound (s : Stock) :
  SellZoneLowerBound (CalculateMetrics s) = sellLowerAfter s.
Proof. by rewrite CalculateMetrics_fields. Qed.

Lemma CalculateMetrics_SellZoneUpperBound (s : Stock) :
  SellZoneUpperBound (CalculateMetrics s) = sellUpperAfter s.
Proof. by rewrite CalculateMetrics_fields. Qed.

Lemma CalculateMetrics_SellZoneStatus (s : Stock) :
  SellZoneStatus (CalculateMetrics s) = sellStatusAfter s.
Proof. by rewrite CalculateMetrics_fields. Qed.

(** The sanitised probability lies in (0, 1]. *)
Lemma probabilityAfter_range (s : Stock) :
  0 < probabilityAfter s /\ probabilityAfter s <= 1.
Proof.
  unfold probabilityAfter, defaultProbabilityPositive.
  qcases; cbn [orb]; lra.
Qed.

(** ** Downside-risk calibration *)

Lemma calibrateDownsideRisk_bands (beta : Q) :
  (1.5 <= beta -> calibrateDownsideRisk beta == -30) /\
  (1.0 <= beta < 1.5 -> calibrateDownsideRisk beta == -25) /\
  (0.5 <= beta < 1.0 -> calibrateDownsideRisk beta == -20) /\
  (beta < 0.5 -> calibrateDownsideRisk beta == -15).
Proof.
  unfold calibrateDownsideRisk.
  repeat split; intros; qcases; try lra; reflexivity.
Qed.

(** C3: a downside risk of exactly zero is replaced by -30, -25, -20 or -15
    according to the band of beta, and by -20 when beta is not positive; a
    non-zero downside risk is returned as it was given, whatever beta is. *)
Theorem CalculateMetrics_calibrates_downside (s : Stock) :
  (DownsideRisk s == 0 ->
     (1.5 <= Beta s -> DownsideRisk (CalculateMetrics s) == -30) /\
     (1.0 <= Beta s < 1.5 -> DownsideRisk (CalculateMetrics s) == -25) /\
     (0.5 <= Beta s < 1.0 -> DownsideRisk (CalculateMetrics s) == -20) /\
     (0 < Beta s < 0.5 -> DownsideRisk (CalculateMetrics s) == -15) /\
     (Beta s <= 0 -> DownsideRisk (CalculateMetrics s) == -20)) /\
  (~ DownsideRisk s == 0 ->
     DownsideRisk (CalculateMetrics s) = DownsideRisk s).
Proof.
  rewrite CalculateMetrics_DownsideRisk. unfold downsideAfter.
  destruct (calibrateDownsideRisk_bands (Beta s)) as (H30 & H25 & H20 & H15).
  split.
  - intros Hz. destruct (Qeqb_spec (DownsideRisk s) 0) as [_|Hn]; [|easy].
    destruct (Qltb_spec 0 (Beta s)) as [Hb|Hb].
    + repeat split; intros; try lra; auto; apply H15; lra.
    + repeat split; intros; try lra; reflexivity.
  - intros Hn. destruct (Qeqb_spec (DownsideRisk s) 0); [easy|reflexivity].
Qed.

(** ** Assessment bands *)

(** C4: the assessment partitions the computed expected value: "Add" iff
    EV > 7, "Hold" iff 3 <= EV <= 7, "Trim" iff 0 <= EV < 3, "Sell" iff
    EV < 0. *)
Theorem CalculateMetrics_assessment_partition (s : Stock) :
  let r := CalculateMetrics s in
  (Assessment r = "Add" <-> 7 < ExpectedValue r) /\
  (Assessment r = "Hold" <-> 3 <= ExpectedValue r <= 7) /\
  (Assessment r = "Trim" <-> 0 <= ExpectedValue r < 3) /\
  (Assessment r = "Sell" <-> ExpectedValue r < 0).
Proof.
  cbv zeta.
  rewrite CalculateMetrics_Assessment, CalculateMetrics_ExpectedValue.
  unfold assessmentAfter. generalize (evAfter s) as ev. intros ev.
  qcases; cbn [andb]; repeat split; intros; try discriminate; try lra;
    reflexivity.
Qed.

(** ** Kelly fraction and half-Kelly weight *)

(** The Kelly fraction and the half-Kelly weight in exact arithmetic: with b
    the computed b-ratio and p the sanitised probability, the Kelly fraction
    is ((b*p) - (1-p))/b*100 clamped below at 0 when b > 0 and 0 when b <= 0,
    so it is never negative; the half-Kelly weight is min(Kelly/2, 15), so it
    is at most 15 and equals Kelly/2 whenever that is at most 15.  In binary64
    the Kelly fraction can be NaN: see [CalculateMetrics_kelly_float64]. *)
Theorem CalculateMetrics_kelly (s : Stock) :
  let r := CalculateMetrics s in
  let b := BRatio r in
  let p := ProbabilityPositive r in
  (0 < b -> KellyFraction r == Qmax 0 (((b * p) - (1 - p)) / b * 100)) /\
  (b <= 0 -> KellyFraction r == 0) /\
  0 <= KellyFraction r /\
  HalfKellySuggested r == Qmin (KellyFraction r / 2) 15 /\
  HalfKellySuggested r <= 15 /\
  (KellyFraction r / 2 <= 15 -> HalfKellySuggested r == KellyFraction r / 2).
Proof.
  cbv zeta.
  rewrite CalculateMetrics_BRatio, CalculateMetrics_ProbabilityPositive,
    CalculateMetrics_KellyFraction, CalculateMetrics_HalfKellySuggested.
  unfold halfKellyAfter, kellyAfter, rawKelly.
  generalize (bratioAfter s) as b, (probabilityAfter s) as p. intros b p.
  set (raw := (b * p - (1 - p)) / b * 100).
  destruct (Q.max_spec 0 raw) as [[? Hmax]|[? Hmax]];
  match goal with
  | |- context [Qmin ?x 15] =>
      destruct (Q.min_spec x 15) as [[? Hmin]|[? Hmin]]
  end; rewrite ?Hmax, ?Hmin;
  repeat split; intros; revert Hmin; qcases; intros; try lra.
Qed.

(** ** Which fields of the input the result depends on *)

(** The only derived fields [CalculateMetrics] ever reads are the ones a
    failed guard leaves in place: the upside potential and the buy zone. *)
Lemma CalculateMetrics_reads (a b : Stock) :
  sameInputs a b ->
  UpsidePotential a = UpsidePotential b ->
  BuyZoneMin a = BuyZoneMin b -> BuyZoneMax a = BuyZoneMax b ->
  sameDerived (CalculateMetrics a) (CalculateMetrics b).
Proof.
  intros (_ & _ & _ & Hcp & Hfv & Hbeta & Hp & Hd & _ & _) Hup Hmin Hmax.
  rewrite !CalculateMetrics_fields.
  assert (downsideAfter a = downsideAfter b) as Ed
    by (unfold downsideAfter; by rewrite Hd, Hbeta).
  assert (upsideAfter a = upsideAfter b) as Eu
    by (unfold upsideAfter; by rewrite Hcp, Hfv, Hup).
  assert (probabilityAfter a = probabilityAfter b) as Ep
    by (unfold probabilityAfter; by rewrite Hp).
  assert (bratioAfter a = bratioAfter b) as Eb
    by (unfold bratioAfter, magnitudeAfter; by rewrite Eu, Ed).
  assert (evAfter a = evAfter b) as Ee
    by (unfold evAfter; by rewrite Eu, Ed, Ep).
  assert (kellyAfter a = kellyAfter b) as Ek
    by (unfold kellyAfter, rawKelly; by rewrite Eb, Ep).
  assert (sellZoneGuard a = sellZoneGuard b) as Eg
    by (unfold sellZoneGuard, solveAfter; by rewrite Hfv, Ep, Ed).
  unfold sameDerived, fieldsAfter; cbn.
  repeat split; try assumption.
  - unfold halfKellyAfter. by rewrite Ek.
  - unfold assessmentAfter. by rewrite Ee.
  - unfold buyMinAfter, buyZoneGuard, requiredUpside.
    by rewrite Hfv, Hcp, Ep, Ed, Hmin.
  - unfold buyMaxAfter, buyZoneGuard, requiredUpside.
    by rewrite Hfv, Hcp, Ep, Ed, Hmax.
  - unfold sellLowerAfter, solveAfter. by rewrite Eg, Hfv, Ep, Ed.
  - unfold sellUpperAfter, solveAfter. by rewrite Eg, Hfv, Ep, Ed.
  - unfold sellStatusAfter. by rewrite Eg, Ee.
Qed.

(** With a positive price and a positive fair value no derived field of
    the input is read at all. *)
Lemma CalculateMetrics_overwrites (s : Stock) (up bmin bmax : Q) :
  0 < CurrentPrice s -> 0 < FairValue s ->
  sameDerived (CalculateMetrics s)
    (CalculateMetrics
       (set_UpsidePotential up (set_BuyZoneMin bmin (set_BuyZoneMax bmax s)))).
Proof.
  intros Hcp Hfv. rewrite !CalculateMetrics_fields.
  set (s' := set_UpsidePotential _ _).
  assert (downsideAfter s = downsideAfter s') as Ed by reflexivity.
  assert (probabilityAfter s = probabilityAfter s') as Ep by reflexivity.
  assert (upsideAfter s = upsideAfter s') as Eu.
  { unfold upsideAfter, s'; cbn.
    destruct (Qltb_spec 0 (CurrentPrice s)); [|easy].
    destruct (Qltb_spec 0 (FairValue s)); [|easy]. reflexivity. }
  assert (bratioAfter s = bratioAfter s') as Eb
    by (unfold bratioAfter, magnitudeAfter; by rewrite Eu, Ed).
  assert (evAfter s = evAfter s') as Ee
    by (unfold evAfter; by rewrite Eu, Ed, Ep).
  assert (kellyAfter s = kellyAfter s') as Ek
    by (unfold kellyAfter, rawKelly; by rewrite Eb, Ep).
  assert (buyZoneGuard s = true) as Eg.
  { unfold buyZoneGuard. destruct (probabilityAfter_range s) as [Hp _].
    destruct (Qltb_spec 0 (FairValue s)); [|easy].
    destruct (Qltb_spec 0 (probabilityAfter s)); [|easy]. reflexivity. }
  assert (buyZoneGuard s' = true) as Eg' by exact Eg.
  unfold sameDerived, fieldsAfter; cbn.
  repeat split; try assumption; try reflexivity.
  - unfold halfKellyAfter. by rewrite Ek.
  - unfold assessmentAfter. by rewrite Ee.
  - unfold buyMinAfter. by rewrite Eg, Eg'.
  - unfold buyMaxAfter. by rewrite Eg, Eg'.
  - unfold sellStatusAfter. by rewrite Ee.
Qed.

(** C1, as the code has it: two positions that agree on every raw input
    and whose current price and fair value are positive get identical
    derived fields, whatever derived values they held before the call. *)
Theorem CalculateMetrics_recomputes (a b : Stock) :
  sameInputs a b ->
  0 < CurrentPrice a -> 0 < FairValue a ->
  sameDerived (CalculateMetrics a) (CalculateMetrics b).
Proof.
  intros Hin Hcp Hfv.
  pose proof
    (CalculateMetrics_overwrites a (UpsidePotential b) (BuyZoneMin b)
       (BuyZoneMax b) Hcp Hfv) as Ha.
  set (a' := set_UpsidePotential _ _) in Ha.
  assert (sameDerived (CalculateMetrics a') (CalculateMetrics b)) as Hb.
  { apply CalculateMetrics_reads; try reflexivity. exact Hin. }
  unfold sameDerived in *.
  destruct Ha as (?&?&?&?&?&?&?&?&?&?&?), Hb as (?&?&?&?&?&?&?&?&?&?&?).
  repeat split; etransitivity; eassumption.
Qed.

Lemma CalculateMetrics_recomputes_witness :
  sameInputs freshA freshB /\
  0 < CurrentPrice freshA /\ 0 < FairValue freshA /\
  sameDerived (CalculateMetrics freshA) (CalculateMetrics freshB).
Proof.
  assert (sameInputs freshA freshB) as Hin by (repeat split; reflexivity).
  assert (0 < CurrentPrice freshA) as Hcp by qclosed.
  assert (0 < FairValue freshA) as Hfv by qclosed.
  split; [exact Hin|]. split; [exact Hcp|]. split; [exact Hfv|].
  exact (CalculateMetrics_recomputes freshA freshB Hin Hcp Hfv).
Defined.

(** C1 as stated fails: with a current price of zero the upside potential
    is not written, and the value left in the record decides the expected
    value and the assessment. *)
Lemma stale_upside_counterexample :
  sameInputs staleA staleB /\
  Assessment (CalculateMetrics staleA) = "Sell" /\
  Assessment (CalculateMetrics staleB) = "Hold" /\
  ~ sameDerived (CalculateMetrics staleA) (CalculateMetrics staleB).
Proof.
  split; [repeat split; reflexivity|].
  split; [reflexivity|]. split; [reflexivity|].
  intros (_ & _ & _ & _ & _ & H & _). vm_compute in H. discriminate.
Qed.

(** ** The threshold solver *)

Lemma Qdiv_pos (a b : Q) : 0 < b -> (0 < a / b <-> 0 < a).
Proof.
  intros Hb. split; intros H.
  - assert (a == a / b * b) as -> by (field; lra).
    apply Qmult_lt_0_compat; assumption.
  - apply Qlt_shift_div_l; lra.
Qed.

Lemma solver_denominator_pos (p d ev : Q) :
  0 < p -> p <= 1 -> 0 <= ev -> 0 < ev + 100 * p + (1 - p) * Qabs d.
Proof.
  intros Hp Hp1 Hev.
  assert (0 <= (1 - p) * Qabs d)
    by (apply Qmult_le_0_compat; [lra | apply Qabs_nonneg]).
  lra.
Qed.

(** For a probability in (0, 1] and a non-negative threshold the solve
    succeeds exactly when the fair value is positive. *)
Lemma solvePriceForEVThreshold_spec (fv p d ev : Q) :
  0 < p -> p <= 1 -> 0 <= ev ->
  solvePriceForEVThreshold fv p d ev =
  if fv >? 0 then
    (100 * p * fv / (ev + 100 * p + (1 - p) * Qabs d), true)
  else (0, false).
Proof.
  intros Hp Hp1 Hev. unfold solvePriceForEVThreshold, IsNaN, IsInf.
  pose proof (solver_denominator_pos p d ev Hp Hp1 Hev) as Hden.
  cbv zeta. set (den := ev + 100 * p + (1 - p) * Qabs d) in *.
  destruct (Qleb_spec den 0); [lra|]. cbn [orb].
  pose proof (Qdiv_pos (100 * p * fv) den Hden) as Hdiv.
  destruct (Qleb_spec (100 * p * fv / den) 0) as [Hle|Hgt];
    destruct (Qltb_spec 0 fv) as [Hfv|Hfv]; try reflexivity.
  - assert (0 < 100 * p * fv) by nra. apply Hdiv in H. lra.
  - assert (0 < 100 * p * fv / den) as H by lra.
    apply Hdiv in H. nra.
Qed.

(** ** Buy zone *)

Lemma CalculateMetrics_FairValue (s : Stock) :
  FairValue (CalculateMetrics s) = FairValue s.
Proof. by rewrite CalculateMetrics_fields. Qed.

Lemma buyZoneGuard_true (s : Stock) : 0 < FairValue s -> buyZoneGuard s = true.
Proof.
  intros Hfv. unfold buyZoneGuard.
  destruct (probabilityAfter_range s) as [Hp _].
  destruct (Qltb_spec 0 (FairValue s)); [|easy].
  destruct (Qltb_spec 0 (probabilityAfter s)); [|easy]. reflexivity.
Qed.

Lemma Qdiv_100 (x : Q) : x / 100 == x * (1 # 100).
Proof. field. Qed.

(** The round trip of the buy zone in exact arithmetic: when the fair value is
    positive and the buy zone is solved from the required upside (required
    upside > -100), the forward formula [expectedValueAtPrice] at the computed
    [BuyZoneMax] gives exactly the target 7; and when the downside risk is not
    positive that branch is always the one taken and [BuyZoneMax] is the price
    100*p*FV / (7 + 100*p + (1-p)*|D|) which the threshold solver returns. *)
Theorem CalculateMetrics_buy_zone_round_trip (s : Stock) :
  let r := CalculateMetrics s in
  let p := ProbabilityPositive r in
  let d := DownsideRisk r in
  0 < FairValue s ->
  (-100 < (7 - (1 - p) * d) / p ->
     expectedValueAtPrice (FairValue r) p d (BuyZoneMax r) == 7) /\
  (d <= 0 ->
     -100 < (7 - (1 - p) * d) / p /\
     BuyZoneMax r
     == 100 * p * FairValue r / (7 + 100 * p + (1 - p) * Qabs d) /\
     solvePriceForEVThreshold (FairValue r) p d 7
     = (100 * p * FairValue r / (7 + 100 * p + (1 - p) * Qabs d), true)).
Proof.
  cbv zeta. intros Hfv.
  rewrite CalculateMetrics_ProbabilityPositive, CalculateMetrics_DownsideRisk,
    CalculateMetrics_FairValue, CalculateMetrics_BuyZoneMax.
  destruct (probabilityAfter_range s) as [Hp Hp1].
  unfold buyMaxAfter. rewrite (buyZoneGuard_true s Hfv).
  assert (requiredUpside s
          == (7 - (1 - probabilityAfter s) * downsideAfter s)
             / probabilityAfter s) as Hru
    by (unfold requiredUpside; field; lra).
  set (p := probabilityAfter s) in *. set (d := downsideAfter s) in *.
  set (fv := FairValue s) in *. set (ru := requiredUpside s) in *.
  assert (ru * p == 7 - (1 - p) * d) as Hrup
    by (rewrite Hru; field; lra).
  split.
  - intros Hgt. rewrite <- Hru in Hgt.
    destruct (Qltb_spec (-100) ru); [|easy].
    assert (0 < 1 + ru / 100) as Hden by (rewrite Qdiv_100; lra).
    assert (0 < fv / (1 + ru / 100)) as Hb by (apply Qdiv_pos; lra).
    unfold expectedValueAtPrice.
    destruct (Qleb_spec (fv / (1 + ru / 100)) 0); [lra|].
    rewrite Hru. field. repeat split; try lra. nra.
  - intros Hd.
    assert (Qabs d == - d) as Habs by (by apply Qabs_neg).
    assert (0 < ru) as Hpos.
    { rewrite Hru. apply Qdiv_pos; [lra|]. nra. }
    rewrite <- Hru. split; [lra|].
    destruct (Qltb_spec (-100) ru); [|lra].
    split.
    + rewrite Habs, Hru. field. split; [nra|lra].
    + rewrite solvePriceForEVThreshold_spec by lra.
      destruct (Qltb_spec 0 fv); [reflexivity|easy].
Qed.

Lemma CalculateMetrics_buy_zone_round_trip_witness :
  let r := CalculateMetrics freshA in
  0 < FairValue freshA /\
  expectedValueAtPrice (FairValue r) (ProbabilityPositive r) (DownsideRisk r)
    (BuyZoneMax r) == 7 /\
  BuyZoneMax r
  == 100 * ProbabilityPositive r * FairValue r
     / (7 + 100 * ProbabilityPositive r
        + (1 - ProbabilityPositive r) * Qabs (DownsideRisk r)).
Proof.
  cbv zeta.
  assert (0 < FairValue freshA) as Hfv by qclosed.
  assert (DownsideRisk (CalculateMetrics freshA) <= 0) as Hd by qclosed.
  split; [exact Hfv|]. split.
  - apply (proj1 (CalculateMetrics_buy_zone_round_trip freshA Hfv)). qclosed.
  - exact (proj1 (proj2
      (proj2 (CalculateMetrics_buy_zone_round_trip freshA Hfv) Hd))).
Defined.


(** ** Sell zone *)

Lemma Qdiv_lt_denominator (a x y : Q) :
  0 < a -> 0 < x -> x < y -> a / y < a / x.
Proof.
  intros Ha Hx Hy. apply Qlt_shift_div_r; [lra|].
  assert (a / x * y == a * y / x) as -> by (field; lra).
  apply Qlt_shift_div_l; [lra|]. nra.
Qed.

(** The sell zone in exact arithmetic: the sanitised probability is in (0, 1];
    when the fair value is positive both threshold solves succeed, 0 < lower
    bound < upper bound, and the status is one of the three zone labels; when
    the fair value is not positive both bounds are 0 and the status is "no
    sell zone".  In binary64 a positive fair value is not enough: see
    [CalculateMetrics_sell_zone_float64]. *)
Theorem CalculateMetrics_sell_zone (s : Stock) :
  let r := CalculateMetrics s in
  let solve :=
    solvePriceForEVThreshold (FairValue r) (ProbabilityPositive r)
      (DownsideRisk r) in
  (0 < ProbabilityPositive r /\ ProbabilityPositive r <= 1) /\
  (0 < FairValue s ->
     snd (solve 3) = true /\ snd (solve 0) = true /\
     SellZoneLowerBound r = fst (solve 3) /\
     SellZoneUpperBound r = fst (solve 0) /\
     0 < SellZoneLowerBound r /\
     SellZoneLowerBound r < SellZoneUpperBound r /\
     (SellZoneStatus r = "Below sell zone" \/
      SellZoneStatus r = "In trim zone" \/
      SellZoneStatus r = "In sell zone")) /\
  (FairValue s <= 0 ->
     SellZoneLowerBound r = 0 /\ SellZoneUpperBound r = 0 /\
     SellZoneStatus r = "no sell zone").
Proof.
  cbv zeta.
  rewrite CalculateMetrics_ProbabilityPositive, CalculateMetrics_DownsideRisk,
    CalculateMetrics_FairValue, CalculateMetrics_SellZoneLowerBound,
    CalculateMetrics_SellZoneUpperBound, CalculateMetrics_SellZoneStatus.
  destruct (probabilityAfter_range s) as [Hp Hp1].
  split; [split; assumption|].
  unfold sellLowerAfter, sellUpperAfter, sellStatusAfter, sellZoneGuard,
    solveAfter.
  rewrite !solvePriceForEVThreshold_spec by lra.
  set (p := probabilityAfter s) in *. set (d := downsideAfter s).
  pose proof (solver_denominator_pos p d 0 Hp Hp1 ltac:(lra)) as Hden.
  split; intros Hfv.
  - destruct (Qltb_spec 0 (FairValue s)) as [_|]; [|easy].
    cbn [fst snd andb].
    assert (0 < 100 * p * FairValue s) as Hnum by nra.
    assert (100 * p * FairValue s / (3 + 100 * p + (1 - p) * Qabs d)
            < 100 * p * FairValue s / (0 + 100 * p + (1 - p) * Qabs d))
      as Hlt by (apply Qdiv_lt_denominator; lra).
    match goal with
    | |- context [?x / ?y <? ?z] => destruct (Qltb_spec (x / y) z) as [_|]
    end; [|easy].
    repeat split; try assumption.
    + apply Qdiv_pos; lra.
    + qcases; auto.
  - destruct (Qltb_spec 0 (FairValue s)); [lra|]. cbn. repeat split.
Qed.

(** ** Validation in the standalone zone queries *)

Lemma CalculateBuyZoneResult_error (ticker : string) (fv p d cp : Q) :
  snd (CalculateBuyZoneResult ticker fv p d cp) = validationError fv p d.
Proof.
  unfold CalculateBuyZoneResult, validationError.
  destruct ((p <? 0) || (p >? 1)); [reflexivity|].
  destruct (d >=? 0); [reflexivity|].
  destruct (fv <=? 0); [reflexivity|].
  destruct (solvePriceForEVThreshold fv p d 15) as [lo okLower].
  destruct (solvePriceForEVThreshold fv p d 7) as [hi okUpper].
  repeat match goal with
         | |- context [if ?c then _ else _] => destruct c
         end; reflexivity.
Qed.

Lemma CalculateSellZoneResult_error (ticker : string) (fv p d cp : Q) :
  snd (CalculateSellZoneResult ticker fv p d cp) = validationError fv p d.
Proof.
  unfold CalculateSellZoneResult, validationError.
  destruct ((p <? 0) || (p >? 1)); [reflexivity|].
  destruct (d >=? 0); [reflexivity|].
  destruct (fv <=? 0); [reflexivity|].
  destruct (solvePriceForEVThreshold fv p d 3) as [lo okTrim].
  destruct (solvePriceForEVThreshold fv p d 0) as [hi okSell].
  repeat match goal with
         | |- context [if ?c then _ else _] => destruct c
         end; reflexivity.
Qed.

Lemma validationError_spec (fv p d : Q) :
  (validationError fv p d <> None <-> p < 0 \/ 1 < p \/ 0 <= d \/ fv <= 0) /\
  (validationError fv p d = None <-> 0 <= p <= 1 /\ d < 0 /\ 0 < fv) /\
  (validationError fv p d = None \/
   validationError fv p d = Some errProbability \/
   validationError fv p d = Some errDownside \/
   validationError fv p d = Some errFairValue).
Proof.
  unfold validationError. qcases; cbn [orb].
  all: repeat split; intros; try discriminate; try lra; try easy; auto.
  all: try (right; lra); try (left; lra); try (right; right; lra).
  all: match goal with H : _ \/ _ |- _ => destruct H as [?|[?|[?|?]]]; lra end.
Qed.

Lemma validation_passes (fv p d : Q) :
  0 <= p <= 1 -> d < 0 -> 0 < fv ->
  (p <? 0) || (p >? 1) = false /\ (d >=? 0) = false /\ (fv <=? 0) = false.
Proof. intros Hp Hd Hfv. qcases; cbn [orb]; repeat split; lra. Qed.

Lemma CalculateBuyZoneResult_infeasible (ticker : string) (fv p d cp : Q) :
  0 <= p <= 1 -> d < 0 -> 0 < fv ->
  snd (solvePriceForEVThreshold fv p d 15) = false \/
  snd (solvePriceForEVThreshold fv p d 7) = false ->
  BuyZoneCalculationResult.ZoneStatus
    (fst (CalculateBuyZoneResult ticker fv p d cp))
  = "no buy zone available".
Proof.
  intros Hp Hd Hfv Hfail. unfold CalculateBuyZoneResult.
  destruct (validation_passes fv p d Hp Hd Hfv) as (-> & -> & ->).
  destruct (solvePriceForEVThreshold fv p d 15) as [lo okLower].
  destruct (solvePriceForEVThreshold fv p d 7) as [hi okUpper].
  cbn [snd] in Hfail.
  destruct Hfail as [-> | ->]; [|destruct okLower]; reflexivity.
Qed.

Lemma CalculateSellZoneResult_infeasible (ticker : string) (fv p d cp : Q) :
  0 <= p <= 1 -> d < 0 -> 0 < fv ->
  snd (solvePriceForEVThreshold fv p d 3) = false \/
  snd (solvePriceForEVThreshold fv p d 0) = false ->
  SellZoneCalculationResult.SellZoneStatus
    (fst (CalculateSellZoneResult ticker fv p d cp))
  = "no sell zone".
Proof.
  intros Hp Hd Hfv Hfail. unfold CalculateSellZoneResult.
  destruct (validation_passes fv p d Hp Hd Hfv) as (-> & -> & ->).
  destruct (solvePriceForEVThreshold fv p d 3) as [lo okTrim].
  destruct (solvePriceForEVThreshold fv p d 0) as [hi okSell].
  cbn [snd] in Hfail.
  destruct Hfail as [-> | ->]; [|destruct okTrim]; reflexivity.
Qed.

(** C8: both zone queries return an error exactly when the probability is
    outside [0, 1], or the downside risk is not negative, or the fair value
    is not positive, the error being one of the three validation messages;
    for every other argument tuple the error is nil, and a threshold the
    solver cannot solve shows in the status string only. *)
Theorem zone_queries_validate (ticker : string) (fv p d cp : Q) :
  let buy := CalculateBuyZoneResult ticker fv p d cp in
  let sell := CalculateSellZoneResult ticker fv p d cp in
  let solve := solvePriceForEVThreshold fv p d in
  (snd buy <> None <-> p < 0 \/ 1 < p \/ 0 <= d \/ fv <= 0) /\
  (snd buy = None <-> 0 <= p <= 1 /\ d < 0 /\ 0 < fv) /\
  (snd sell <> None <-> p < 0 \/ 1 < p \/ 0 <= d \/ fv <= 0) /\
  (snd sell = None <-> 0 <= p <= 1 /\ d < 0 /\ 0 < fv) /\
  (snd buy = None \/ snd buy = Some errProbability \/
   snd buy = Some errDownside \/ snd buy = Some errFairValue) /\
  snd sell = snd buy /\
  (0 <= p <= 1 -> d < 0 -> 0 < fv ->
   (snd (solve 15) = false \/ snd (solve 7) = false ->
    snd buy = None /\
    BuyZoneCalculationResult.ZoneStatus (fst buy) = "no buy zone available") /\
   (snd (solve 3) = false \/ snd (solve 0) = false ->
    snd sell = None /\
    SellZoneCalculationResult.SellZoneStatus (fst sell) = "no sell zone")).
Proof.
  cbv zeta.
  rewrite CalculateBuyZoneResult_error, CalculateSellZoneResult_error.
  destruct (validationError_spec fv p d) as (H1 & H2 & H3).
  split; [exact H1|]. split; [exact H2|]. split; [exact H1|].
  split; [exact H2|]. split; [exact H3|]. split; [reflexivity|].
  intros Hp Hd Hfv.
  assert (validationError fv p d = None) as Hnone by (by apply H2).
  split; intros Hfail; (split; [exact Hnone|]).
  - by apply CalculateBuyZoneResult_infeasible.
  - by apply CalculateSellZoneResult_infeasible.
Qed.

Lemma zone_queries_validate_witness :
  (0 <= 0 <= 1 /\ -20 < 0 /\ 0 < 100) /\
  snd (solvePriceForEVThreshold 100 0 (-20) 15) = false /\
  snd (CalculateBuyZoneResult "X" 100 0 (-20) 90) = None /\
  BuyZoneCalculationResult.ZoneStatus
    (fst (CalculateBuyZoneResult "X" 100 0 (-20) 90))
  = "no buy zone available".
Proof.
  assert (0 <= 0 <= 1) as Hp by (split; qclosed).
  assert (-20 < 0) as Hd by qclosed.
  assert (0 < 100) as Hfv by qclosed.
  assert (snd (solvePriceForEVThreshold 100 0 (-20) 15) = false) as Hfail
    by reflexivity.
  split; [split; [exact Hp|split; [exact Hd|exact Hfv]]|].
  split; [exact Hfail|].
  pose proof (zone_queries_validate "X" 100 0 (-20) 90) as H. cbv zeta in H.
  destruct H as (_ & _ & _ & _ & _ & _ & H).
  exact (proj1 (H Hp Hd Hfv) (or_introl Hfail)).
Defined.

(** ** Portfolio aggregation: what the two passes compute *)

Lemma included_spec (fxRates : gmap string Q) (stock : Stock) :
  included fxRates stock = true <->
  (0 < SharesOwned stock)%Z /\
  exists rate, fxRates !! Currency stock = Some rate /\ 0 < rate.
Proof.
  unfold included, mapGet. rewrite andb_true_iff, Z.ltb_lt.
  destruct (fxRates !! Currency stock) as [rate|]; cbn [default from_option id].
  - destruct (Qltb_spec 0 rate) as [Hr|Hr]; split.
    + intros [? _]. split; [assumption|]. exists rate. by split.
    + intros [? _]. by split.
    + intros [_ ?]. discriminate.
    + intros [_ (r & [= <-] & ?)]. lra.
  - split.
    + intros [_ H]. vm_compute in H. discriminate.
    + intros [_ (r & ? & _)]. discriminate.
Qed.

Lemma firstPassBody_included (fxRates : gmap string Q) (t : Q)
    (vs : list Q) (i : nat) (stock : Stock) :
  firstPassBody fxRates (t, vs) i stock =
  if included fxRates stock then
    (t + positionValue fxRates stock,
     <[i := positionValue fxRates stock]> vs)
  else (t, vs).
Proof.
  unfold firstPassBody, included, positionValue.
  rewrite (Z.ltb_antisym (SharesOwned stock) 0).
  destruct (SharesOwned stock <=? 0)%Z; [reflexivity|]. cbn [negb andb].
  unfold Qltb, Qleb.
  destruct (Qle_bool (mapGet fxRates (Currency stock)) 0); reflexivity.
Qed.

Lemma firstPass_loop (fxRates : gmap string Q) (stocks : list Stock) :
  forall (pre : list Q) (t : Q),
    rangeLoop (firstPassBody fxRates) (length pre) stocks
      (t, pre ++ replicate (length stocks) 0)
    = (totalOf fxRates t stocks, pre ++ map (valueOf fxRates) stocks).
Proof.
  induction stocks as [|stock stocks IH]; intros pre t; [reflexivity|].
  cbn [rangeLoop length replicate map]. unfold totalOf. cbn [foldl].
  rewrite firstPassBody_included. unfold valueOf at 1.
  destruct (included fxRates stock).
  - replace (<[length pre := positionValue fxRates stock]>
               (pre ++ 0 :: replicate (length stocks) 0))
      with ((pre ++ [positionValue fxRates stock])
              ++ replicate (length stocks) 0).
    + replace (S (length pre))
        with (length (pre ++ [positionValue fxRates stock]))
        by (rewrite length_app; cbn; lia).
      rewrite IH. by rewrite <- app_assoc.
    + rewrite <- (Nat.add_0_r (length pre)).
      rewrite insert_app_r. by rewrite <- app_assoc.
  - replace (pre ++ 0 :: replicate (length stocks) 0)
      with ((pre ++ [0]) ++ replicate (length stocks) 0)
      by (by rewrite <- app_assoc).
    replace (S (length pre)) with (length (pre ++ [0]))
      by (rewrite length_app; cbn; lia).
    rewrite IH. by rewrite <- app_assoc.
Qed.

Lemma secondPass_loop (totalValue : Q) (f : Stock -> Q) (stocks : list Stock) :
  forall (pre : list Q) (vs : list Q) (st : Weighted),
    vs = pre ++ map f stocks ->
    rangeLoop (secondPassBody totalValue vs) (length pre) stocks st
    = foldl (fun st stock => secondPassStep totalValue st (f stock) stock)
        st stocks.
Proof.
  induction stocks as [|stock stocks IH]; intros pre vs st Hvs;
    [reflexivity|].
  cbn [rangeLoop foldl map] in *.
  assert (sliceGet vs (length pre) = f stock) as Hget.
  { unfold sliceGet. rewrite Hvs, list_lookup_middle; reflexivity. }
  replace (secondPassBody totalValue vs st (length pre) stock)
    with (secondPassStep totalValue st (f stock) stock)
    by (unfold secondPassBody, secondPassStep; by rewrite Hget).
  replace (S (length pre)) with (length (pre ++ [f stock]))
    by (rewrite length_app; cbn; lia).
  apply IH. rewrite Hvs. by rewrite <- app_assoc.
Qed.

Theorem CalculatePortfolioMetrics_passes (stocks : list Stock)
    (fxRates : gmap string Q) :
  CalculatePortfolioMetrics stocks fxRates =
  summaryOf (totalOf fxRates 0 stocks)
    (weightedOf fxRates (totalOf fxRates 0 stocks) (mkWeighted 0 0 ∅ 0) stocks).
Proof.
  unfold CalculatePortfolioMetrics, aggregate.
  pose proof (firstPass_loop fxRates stocks [] 0) as Hfirst.
  cbn [length app] in Hfirst. rewrite Hfirst.
  pose proof (secondPass_loop (totalOf fxRates 0 stocks) (valueOf fxRates)
                stocks [] _ (mkWeighted 0 0 ∅ 0) eq_refl) as Hsecond.
  cbn [length app] in Hsecond. rewrite Hsecond.
  reflexivity.
Qed.

(** ** Positions that do not count *)

Lemma totalOf_filter (fxRates : gmap string Q) (stocks : list Stock) :
  forall t,
    totalOf fxRates t (List.filter (included fxRates) stocks)
    = totalOf fxRates t stocks.
Proof.
  unfold totalOf.
  induction stocks as [|stock stocks IH]; intros t; [reflexivity|].
  cbn [List.filter foldl].
  destruct (included fxRates stock) eqn:E; cbn [foldl]; rewrite ?E; apply IH.
Qed.

Lemma secondPassStep_excluded (fxRates : gmap string Q) (totalValue : Q)
    (st : Weighted) (stock : Stock) :
  included fxRates stock = false ->
  secondPassStep totalValue st (valueOf fxRates stock) stock = st.
Proof.
  intros E. unfold secondPassStep, valueOf. rewrite E.
  destruct (SharesOwned stock <=? 0)%Z; [reflexivity|].
  by rewrite andb_false_r.
Qed.

Lemma weightedOf_filter (fxRates : gmap string Q) (totalValue : Q)
    (stocks : list Stock) :
  forall st,
    weightedOf fxRates totalValue st (List.filter (included fxRates) stocks)
    = weightedOf fxRates totalValue st stocks.
Proof.
  unfold weightedOf.
  induction stocks as [|stock stocks IH]; intros st; [reflexivity|].
  cbn [List.filter foldl].
  destruct (included fxRates stock) eqn:E; cbn [foldl].
  - apply IH.
  - rewrite (secondPassStep_excluded _ _ _ _ E). apply IH.
Qed.

Lemma totalOf_sum (fxRates : gmap string Q) (stocks : list Stock) :
  forall t,
    totalOf fxRates t stocks
    == t + Qsum (map (positionValue fxRates)
                   (List.filter (included fxRates) stocks)).
Proof.
  unfold totalOf, Qsum.
  induction stocks as [|stock stocks IH]; intros t; cbn [foldl List.filter].
  - cbn. lra.
  - destruct (included fxRates stock); rewrite IH; cbn [map foldr]; lra.
Qed.

Lemma CalculatePortfolioMetrics_filter (stocks : list Stock)
    (fxRates : gmap string Q) :
  CalculatePortfolioMetrics stocks fxRates
  = CalculatePortfolioMetrics (List.filter (included fxRates) stocks) fxRates.
Proof.
  rewrite !CalculatePortfolioMetrics_passes.
  by rewrite totalOf_filter, weightedOf_filter.
Qed.

Lemma internal_firstPass_total (fxRates : gmap string Q)
    (stocks : list Stock) :
  forall (i : nat) (t : Q) (vs : list Q),
    fst (rangeLoop (Internal.firstPassBody fxRates) i stocks (t, vs))
    == t + Qsum (map (fun stock =>
                        inject_Z (SharesOwned stock) * CurrentPrice stock
                        / internalRate fxRates stock)
                   (List.filter owned stocks)).
Proof.
  unfold Qsum.
  induction stocks as [|stock stocks IH]; intros i t vs;
    cbn [rangeLoop List.filter].
  - cbn. lra.
  - unfold Internal.firstPassBody at 2, owned at 1, internalRate.
    rewrite (Z.ltb_antisym (SharesOwned stock) 0).
    destruct (SharesOwned stock <=? 0)%Z; cbn [negb]; rewrite IH.
    + reflexivity.
    + cbn [map foldr]. unfold internalRate. lra.
Qed.

(** C6, as the code has it.  For [pkg/services]: the total value is the
    sum of shares * price / rate over exactly the positions with shares
    owned and a positive rate for their currency, and the whole summary is
    the one computed from those positions alone, so any other position adds
    nothing to the total or to any weighted aggregate.  For
    [internal/services]: the total value is the sum over the positions
    with shares owned, a missing or zero rate counting as 1. *)
Theorem CalculatePortfolioMetrics_total_value (stocks : list Stock)
    (fxRates : gmap string Q) :
  TotalValue (CalculatePortfolioMetrics stocks fxRates)
  == Qsum (map (fun stock =>
                  inject_Z (SharesOwned stock) * CurrentPrice stock
                  / mapGet fxRates (Currency stock))
             (List.filter (included fxRates) stocks)) /\
  CalculatePortfolioMetrics stocks fxRates
  = CalculatePortfolioMetrics (List.filter (included fxRates) stocks) fxRates /\
  (forall stock,
     included fxRates stock = true <->
     (0 < SharesOwned stock)%Z /\
     exists rate, fxRates !! Currency stock = Some rate /\ 0 < rate) /\
  TotalValue (Internal.CalculatePortfolioMetrics stocks fxRates)
  == Qsum (map (fun stock =>
                  inject_Z (SharesOwned stock) * CurrentPrice stock
                  / (if mapGet fxRates (Currency stock) =? 0 then 1.0
                     else mapGet fxRates (Currency stock)))
             (List.filter (fun stock => (0 <? SharesOwned stock)%Z) stocks)).
Proof.
  split; [|split; [|split]].
  - rewrite CalculatePortfolioMetrics_passes. cbn [TotalValue summaryOf].
    rewrite totalOf_sum. fold (positionValue fxRates). lra.
  - apply CalculatePortfolioMetrics_filter.
  - intros stock. apply included_spec.
  - unfold Internal.CalculatePortfolioMetrics, aggregate.
    pose proof (internal_firstPass_total fxRates stocks 0 0
                  (replicate (length stocks) 0)) as H.
    destruct (rangeLoop (Internal.firstPassBody fxRates) 0 stocks _)
      as [total vs].
    cbn [TotalValue fst] in *. rewrite H. unfold internalRate, owned. lra.
Qed.

(** C6 as stated fails for the aggregator of [internal/services]: a
    missing rate is replaced by 1, so the position is valued at
    shares * price and carries the whole weight, where [pkg/services]
    gives it no value. *)
Lemma internal_missing_rate_counterexample :
  (0 < SharesOwned unratedPosition)%Z /\
  (∅ : gmap string Q) !! Currency unratedPosition = None /\
  TotalValue (Internal.CalculatePortfolioMetrics [unratedPosition] ∅) == 1000 /\
  KellyUtilization (Internal.CalculatePortfolioMetrics [unratedPosition] ∅)
  == 100 /\
  ~ TotalValue (Internal.CalculatePortfolioMetrics [unratedPosition] ∅) == 0 /\
  TotalValue (CalculatePortfolioMetrics [unratedPosition] ∅) == 0.
Proof. repeat split; try qclosed. Qed.

(** ** Sector weights *)

Lemma sumValues_empty : sumValues ∅ = 0.
Proof. unfold sumValues. by rewrite map_fold_empty. Qed.

Lemma sumValues_insert (m : gmap string Q) (k : string) (v : Q) :
  m !! k = None -> sumValues (<[k := v]> m) == v + sumValues m.
Proof.
  intros Hk. unfold sumValues.
  apply (map_fold_insert Qeq (fun _ v acc => v + acc)); [| |exact Hk].
  - intros _ z x y Hxy. by rewrite Hxy.
  - intros. lra.
Qed.

Lemma sumValues_delete (m : gmap string Q) (k : string) (v : Q) :
  m !! k = Some v -> sumValues m == v + sumValues (delete k m).
Proof.
  intros Hk. unfold sumValues.
  apply (map_fold_delete Qeq (fun _ v acc => v + acc)); [| |exact Hk].
  - intros _ z x y Hxy. by rewrite Hxy.
  - intros. lra.
Qed.

(** [m[k] += x] adds [x] to the sum of the values. *)
Lemma sumValues_add (m : gmap string Q) (k : string) (x : Q) :
  sumValues (<[k := mapGet m k + x]> m) == sumValues m + x.
Proof.
  unfold mapGet. destruct (m !! k) as [v|] eqn:Hk; cbn [default from_option id].
  - rewrite <- insert_delete_eq.
    rewrite sumValues_insert by apply lookup_delete_eq.
    rewrite (sumValues_delete m k v Hk). unfold id. lra.
  - rewrite sumValues_insert by exact Hk. lra.
Qed.

Lemma secondPassStep_sector_sum (totalValue : Q) (st : Weighted) (v : Q)
    (stock : Stock) :
  sumValues (sectorWeights st) == kellyUtilization st ->
  sumValues (sectorWeights (secondPassStep totalValue st v stock))
  == kellyUtilization (secondPassStep totalValue st v stock).
Proof.
  intros H. unfold secondPassStep.
  destruct (SharesOwned stock <=? 0)%Z; [exact H|].
  destruct ((totalValue >? 0) && (v >? 0)); [|exact H].
  cbn [sectorWeights kellyUtilization]. rewrite sumValues_add, H. reflexivity.
Qed.

Lemma weightedOf_sector_sum (fxRates : gmap string Q) (totalValue : Q)
    (stocks : list Stock) :
  forall st,
    sumValues (sectorWeights st) == kellyUtilization st ->
    sumValues (sectorWeights (weightedOf fxRates totalValue st stocks))
    == kellyUtilization (weightedOf fxRates totalValue st stocks).
Proof.
  unfold weightedOf.
  induction stocks as [|stock stocks IH]; intros st H; [exact H|].
  cbn [foldl]. apply IH. by apply secondPassStep_sector_sum.
Qed.

Lemma totalOf_values (fxRates : gmap string Q) (stocks : list Stock) :
  forall t,
    totalOf fxRates t stocks == t + Qsum (map (valueOf fxRates) stocks).
Proof.
  unfold totalOf, Qsum, valueOf.
  induction stocks as [|stock stocks IH]; intros t; cbn [foldl map foldr].
  - lra.
  - rewrite IH. destruct (included fxRates stock); lra.
Qed.

Lemma valueOf_nonneg (fxRates : gmap string Q) (stock : Stock) :
  (included fxRates stock = true -> 0 <= CurrentPrice stock) ->
  0 <= valueOf fxRates stock.
Proof.
  intros Hprice. unfold valueOf.
  destruct (included fxRates stock) eqn:E; [|lra].
  specialize (Hprice eq_refl). unfold included in E.
  apply andb_true_iff in E as [Hs Hr]. apply Z.ltb_lt in Hs.
  rewrite Zlt_Qlt in Hs.
  destruct (Qltb_spec 0 (mapGet fxRates (Currency stock))); [|discriminate].
  unfold positionValue. apply Qle_shift_div_l; [assumption|].
  change (inject_Z 0) with 0 in Hs. nra.
Qed.

(** Every iteration of the second pass adds [v / totalValue * 100] to the
    Kelly utilization when no value is negative. *)
Lemma secondPassStep_kelly (fxRates : gmap string Q) (totalValue : Q)
    (st : Weighted) (stock : Stock) :
  0 < totalValue -> 0 <= valueOf fxRates stock ->
  kellyUtilization
    (secondPassStep totalValue st (valueOf fxRates stock) stock)
  == kellyUtilization st + valueOf fxRates stock / totalValue * 100.
Proof.
  intros HT Hv. unfold secondPassStep.
  destruct (Z.leb_spec (SharesOwned stock) 0) as [Hs|Hs].
  - assert (valueOf fxRates stock = 0) as ->.
    { unfold valueOf, included.
      destruct (Z.ltb_spec 0 (SharesOwned stock)); [lia|reflexivity]. }
    field. lra.
  - destruct (Qltb_spec 0 totalValue); [|easy].
    destruct (Qltb_spec 0 (valueOf fxRates stock)) as [|Hz]; cbn [andb].
    + reflexivity.
    + assert (valueOf fxRates stock == 0) as -> by lra. field. lra.
Qed.

Lemma weightedOf_kelly (fxRates : gmap string Q) (totalValue : Q)
    (stocks : list Stock) :
  0 < totalValue ->
  (forall stock, In stock stocks -> 0 <= valueOf fxRates stock) ->
  forall st,
    kellyUtilization (weightedOf fxRates totalValue st stocks)
    == kellyUtilization st
       + Qsum (map (valueOf fxRates) stocks) / totalValue * 100.
Proof.
  intros HT. unfold weightedOf, Qsum.
  induction stocks as [|stock stocks IH]; intros Hv st; cbn [foldl map foldr].
  - field. lra.
  - rewrite IH by (intros; apply Hv; by right).
    rewrite secondPassStep_kelly by (try assumption; apply Hv; by left).
    field. lra.
Qed.

Lemma excluded_filter (fxRates : gmap string Q) (stocks : list Stock) :
  (forall stock, In stock stocks ->
     (SharesOwned stock <= 0)%Z \/ mapGet fxRates (Currency stock) <= 0) ->
  List.filter (included fxRates) stocks = [].
Proof.
  induction stocks as [|stock stocks IH]; intros H; [reflexivity|].
  cbn [List.filter].
  assert (included fxRates stock = false) as ->.
  { unfold included. destruct (H stock (or_introl eq_refl)) as [Hs|Hr].
    - destruct (Z.ltb_spec 0 (SharesOwned stock)); [lia|reflexivity].
    - destruct (Qltb_spec 0 (mapGet fxRates (Currency stock))); [lra|].
      apply andb_false_r. }
  apply IH. intros. apply H. by right.
Qed.

(** The sector weights in exact arithmetic: they always sum to the Kelly
    utilization; they sum to 100 whenever the total value is positive and no
    counted position has a negative current price; and the empty list, or a
    list in which every position has no shares or no positive rate, gives the
    all-zero summary with an empty sector map. *)
Theorem CalculatePortfolioMetrics_sector_weights (stocks : list Stock)
    (fxRates : gmap string Q) :
  let m := CalculatePortfolioMetrics stocks fxRates in
  sumValues (SectorWeights m) == KellyUtilization m /\
  ((forall stock, In stock stocks -> included fxRates stock = true ->
      0 <= CurrentPrice stock) ->
   0 < TotalValue m ->
   sumValues (SectorWeights m) == 100) /\
  ((forall stock, In stock stocks ->
      (SharesOwned stock <= 0)%Z \/ mapGet fxRates (Currency stock) <= 0) ->
   m = zeroSummary) /\
  CalculatePortfolioMetrics [] fxRates = zeroSummary.
Proof.
  cbv zeta.
  assert (sumValues (SectorWeights (CalculatePortfolioMetrics stocks fxRates))
          == KellyUtilization (CalculatePortfolioMetrics stocks fxRates))
    as Hsum.
  { rewrite CalculatePortfolioMetrics_passes.
    cbn [SectorWeights KellyUtilization summaryOf].
    apply weightedOf_sector_sum. cbn. by rewrite sumValues_empty. }
  split; [exact Hsum|]. split; [|split].
  - intros Hprice Htotal. rewrite Hsum.
    rewrite CalculatePortfolioMetrics_passes in *.
    cbn [TotalValue KellyUtilization summaryOf] in *.
    rewrite weightedOf_kelly; try assumption.
    + cbn [kellyUtilization].
      pose proof (totalOf_values fxRates stocks 0) as Hval.
      assert (Qsum (map (valueOf fxRates) stocks)
              == totalOf fxRates 0 stocks) as -> by lra.
      field. lra.
    + intros stock Hin. apply valueOf_nonneg. by apply Hprice.
  - intros Hex.
    rewrite CalculatePortfolioMetrics_filter.
    by rewrite (excluded_filter fxRates stocks Hex).
  - reflexivity.
Qed.

Lemma CalculatePortfolioMetrics_sector_weights_witness :
  let m := CalculatePortfolioMetrics testStocks testRates in
  0 < TotalValue m /\ sumValues (SectorWeights m) == 100.
Proof.
  cbv zeta.
  assert (0 < TotalValue (CalculatePortfolioMetrics testStocks testRates))
    as Htotal by qclosed.
  split; [exact Htotal|].
  apply (proj1 (proj2
    (CalculatePortfolioMetrics_sector_weights testStocks testRates))).
  - intros stock [<-|[<-|[<-|[]]]] _; qclosed.
  - exact Htotal.
Defined.


(** ** Every division has a positive divisor

    The functions of [Guarded] never fail and return what the plain ones
    return. *)

Lemma Guarded_div_pos (a b : Q) : 0 < b -> Guarded.div a b = Some (a / b).
Proof. intros H. unfold Guarded.div. by destruct (Qltb_spec 0 b). Qed.

Lemma Guarded_step2 (s : Stock) :
  Guarded.step2_upside s = Some (step2_upside s).
Proof.
  unfold Guarded.step2_upside, step2_upside.
  destruct (Qltb_spec 0 (CurrentPrice s)); [|reflexivity].
  destruct (FairValue s >? 0); [|reflexivity]. cbn [andb].
  by rewrite Guarded_div_pos.
Qed.

Lemma Guarded_step4 (s : Stock) :
  Guarded.step4_bratio s = Some (step4_bratio s).
Proof.
  unfold Guarded.step4_bratio, step4_bratio, minDownsideMagnitude. cbv zeta.
  rewrite Guarded_div_pos; [reflexivity|].
  destruct (Qltb_spec (Qabs (DownsideRisk s)) 0.1); lra.
Qed.

Lemma Guarded_step6 (s : Stock) :
  Guarded.step6_kelly s = Some (step6_kelly s).
Proof.
  unfold Guarded.step6_kelly, step6_kelly.
  destruct (Qltb_spec 0 (BRatio s)); [|reflexivity].
  by rewrite Guarded_div_pos.
Qed.

Lemma Guarded_step7 (s : Stock) :
  Guarded.step7_halfKelly s = Some (step7_halfKelly s).
Proof.
  unfold Guarded.step7_halfKelly, step7_halfKelly.
  by rewrite Guarded_div_pos by lra.
Qed.

Lemma Guarded_step9 (s : Stock) :
  Guarded.step9_buyZone s = Some (step9_buyZone s).
Proof.
  unfold Guarded.step9_buyZone, step9_buyZone. cbv zeta.
  destruct (FairValue s >? 0); [|reflexivity].
  destruct (Qltb_spec 0 (ProbabilityPositive s)); [|reflexivity]. cbn [andb].
  rewrite Guarded_div_pos by assumption. cbn [mbind option_bind].
  match goal with
  | |- context [-100 <? ?ru] => destruct (Qltb_spec (-100) ru) as [Hgt|]
  end; [|reflexivity].
  rewrite Guarded_div_pos by lra. cbn [mbind option_bind].
  rewrite Guarded_div_pos by (rewrite Qdiv_100; lra). reflexivity.
Qed.

Lemma Guarded_solve (fv p d ev : Q) :
  Guarded.solvePriceForEVThreshold fv p d ev
  = Some (solvePriceForEVThreshold fv p d ev).
Proof.
  unfold Guarded.solvePriceForEVThreshold, solvePriceForEVThreshold.
  cbv zeta.
  match goal with
  | |- context [?den <=? 0] => destruct (Qleb_spec den 0)
  end; [reflexivity|].
  by rewrite Guarded_div_pos by lra.
Qed.

Lemma Guarded_step10 (s : Stock) :
  Guarded.step10_sellZone s = Some (step10_sellZone s).
Proof.
  unfold Guarded.step10_sellZone, step10_sellZone.
  rewrite !Guarded_solve. cbn [mbind option_bind].
  destruct (solvePriceForEVThreshold _ _ _ 3) as [lo okTrim].
  destruct (solvePriceForEVThreshold _ _ _ 0) as [hi okSell].
  reflexivity.
Qed.

Lemma Guarded_rangeLoop {St A : Type}
    (bodyM : St -> nat -> A -> option St) (body : St -> nat -> A -> St)
    (l : list A) :
  (forall st i x, bodyM st i x = Some (body st i x)) ->
  forall i st, Guarded.rangeLoop bodyM i l st = Some (rangeLoop body i l st).
Proof.
  intros Hbody. induction l as [|x l IH]; intros i st; [reflexivity|].
  cbn [Guarded.rangeLoop rangeLoop]. rewrite Hbody. cbn [mbind option_bind].
  apply IH.
Qed.

Lemma Guarded_firstPassBody (fxRates : gmap string Q) (st : Q * list Q)
    (i : nat) (stock : Stock) :
  Guarded.firstPassBody fxRates st i stock
  = Some (firstPassBody fxRates st i stock).
Proof.
  unfold Guarded.firstPassBody, firstPassBody. destruct st as [t vs].
  destruct (SharesOwned stock <=? 0)%Z; [reflexivity|]. cbv zeta.
  destruct (Qleb_spec (mapGet fxRates (Currency stock)) 0); [reflexivity|].
  by rewrite Guarded_div_pos by lra.
Qed.

Lemma Guarded_secondPassBody (totalValue : Q) (vs : list Q) (st : Weighted)
    (i : nat) (stock : Stock) :
  Guarded.secondPassBody totalValue vs st i stock
  = Some (secondPassBody totalValue vs st i stock).
Proof.
  unfold Guarded.secondPassBody, secondPassBody.
  destruct (SharesOwned stock <=? 0)%Z; [reflexivity|].
  destruct (Qltb_spec 0 totalValue); [|reflexivity].
  destruct (sliceGet vs i >? 0); [|reflexivity]. cbn [andb].
  rewrite Guarded_div_pos by assumption. cbn [mbind option_bind].
  reflexivity.
Qed.

Lemma bind_Some {A B : Type} (x : A) (f : A -> option B) :
  (Some x ≫= f) = f x.
Proof. reflexivity. Qed.

(** C9: with every division required to have a strictly positive divisor,
    [CalculateMetrics] and [CalculatePortfolioMetrics] still return a
    result for every input, and it is the result of the plain functions. *)
Theorem calculations_never_fail :
  (forall stock : Stock,
     Guarded.CalculateMetrics stock = Some (CalculateMetrics stock)) /\
  (forall (stocks : list Stock) (fxRates : gmap string Q),
     Guarded.CalculatePortfolioMetrics stocks fxRates
     = Some (CalculatePortfolioMetrics stocks fxRates)).
Proof.
  split.
  - intros stock. unfold Guarded.CalculateMetrics, CalculateMetrics. cbv zeta.
    rewrite Guarded_step2, bind_Some.
    rewrite Guarded_step4, bind_Some.
    rewrite Guarded_step6, bind_Some.
    rewrite Guarded_step7, bind_Some.
    rewrite Guarded_step9, bind_Some.
    apply Guarded_step10.
  - intros stocks fxRates.
    unfold Guarded.CalculatePortfolioMetrics, CalculatePortfolioMetrics,
      aggregate.
    rewrite (Guarded_rangeLoop _ (firstPassBody fxRates))
      by apply Guarded_firstPassBody.
    rewrite bind_Some.
    destruct (rangeLoop (firstPassBody fxRates) 0 stocks _) as [total vs].
    rewrite (Guarded_rangeLoop _ (secondPassBody total vs))
      by apply Guarded_secondPassBody.
    rewrite bind_Some. cbv zeta.
    match goal with
    | |- context [0 <? ?v] => destruct (Qltb_spec 0 v)
    end; [|reflexivity].
    rewrite Guarded_div_pos by assumption. reflexivity.
Qed.

(** ** The theorems at concrete positions *)

Lemma CalculateMetrics_calibrates_downside_witness :
  (DownsideRisk freshA == 0 /\ 1.0 <= Beta freshA < 1.5 /\
   DownsideRisk (CalculateMetrics freshA) == -25) /\
  (~ DownsideRisk explicitDownside == 0 /\
   DownsideRisk (CalculateMetrics explicitDownside)
   = DownsideRisk explicitDownside).
Proof.
  assert (DownsideRisk freshA == 0) as Hz by qclosed.
  assert (1.0 <= Beta freshA < 1.5) as Hb by (split; qclosed).
  assert (~ DownsideRisk explicitDownside == 0) as Hn by qclosed.
  split.
  - split; [exact Hz|]. split; [exact Hb|].
    exact (proj1 (proj2
      (proj1 (CalculateMetrics_calibrates_downside freshA) Hz)) Hb).
  - split; [exact Hn|].
    exact (proj2 (CalculateMetrics_calibrates_downside explicitDownside) Hn).
Defined.

Lemma CalculateMetrics_kelly_witness :
  let r := CalculateMetrics freshA in
  0 < BRatio r /\
  KellyFraction r
  == Qmax 0 (((BRatio r * ProbabilityPositive r)
              - (1 - ProbabilityPositive r)) / BRatio r * 100) /\
  KellyFraction r / 2 <= 15 /\
  HalfKellySuggested r == KellyFraction r / 2.
Proof.
  cbv zeta.
  assert (0 < BRatio (CalculateMetrics freshA)) as Hb by qclosed.
  assert (KellyFraction (CalculateMetrics freshA) / 2 <= 15) as Hk by qclosed.
  pose proof (CalculateMetrics_kelly freshA) as H. cbv zeta in H.
  destruct H as (Hkelly & _ & _ & _ & _ & Hhalf).
  split; [exact Hb|]. split; [exact (Hkelly Hb)|].
  split; [exact Hk|exact (Hhalf Hk)].
Defined.

Lemma CalculateMetrics_sell_zone_witness :
  let r := CalculateMetrics freshA in
  0 < FairValue freshA /\
  0 < SellZoneLowerBound r /\ SellZoneLowerBound r < SellZoneUpperBound r.
Proof.
  cbv zeta.
  assert (0 < FairValue freshA) as Hfv by qclosed.
  pose proof (CalculateMetrics_sell_zone freshA) as H. cbv zeta in H.
  destruct H as (_ & Hpos & _).
  destruct (Hpos Hfv) as (_ & _ & _ & _ & Hlo & Hlt & _).
  split; [exact Hfv|]. split; [exact Hlo|exact Hlt].
Defined.

(** ** The scenarios of [calculations_test.go] *)

Example test_CalculateMetricsDefaultsAndDerivedValues :
  let r := CalculateMetrics freshA in
  DownsideRisk r == -25 /\ ProbabilityPositive r == 0.65 /\
  UpsidePotential r == 20 /\ BRatio r == 0.8 /\ ExpectedValue r == 4.25 /\
  KellyFraction r == 21.25 /\ HalfKellySuggested r == 10.625 /\
  Assessment r = "Hold" /\
  BuyZoneMax r == 31200 # 323 /\ BuyZoneMin r == 28080 # 323.
Proof. cbv zeta. repeat split; qclosed. Qed.

Example test_CalculateMetricsClampsNegativeKelly :
  let r :=
    CalculateMetrics
      (mkStock "" "" "" 100 102 2.0 0.1 0 0%Z 0 0 0 0 0 0 0 "" 0 0 0 0 "") in
  KellyFraction r == 0 /\ HalfKellySuggested r == 0.
Proof. cbv zeta. repeat split; qclosed. Qed.

Example test_CalculatePortfolioMetrics :
  let m := CalculatePortfolioMetrics testStocks testRates in
  TotalValue m == 1500 /\ OverallEV m == 11 # 3 /\
  WeightedVolatility m == 40 # 3 /\ SharpeRatio m == -0.025 /\
  KellyUtilization m == 100 /\
  (Qred <$> SectorWeights m) !! "Tech" = Some (200 # 3) /\
  (Qred <$> SectorWeights m) !! "Health" = Some (100 # 3) /\
  SectorWeights m !! "Ignored" = None.
Proof. cbv zeta. repeat split; qclosed. Qed.

Example test_CalculateBuyZoneResult_ValidInput :
  let '(result, err) := CalculateBuyZoneResult "UNH" 380 0.65 (-15) 284.37 in
  err = None /\
  BuyZoneCalculationResult.ZoneStatus result = "EV >> 15%" /\
  289.73 < BuyZone.LowerBound (BuyZoneCalculationResult.BuyZone result)
    < 289.74 /\
  319.74 < BuyZone.UpperBound (BuyZoneCalculationResult.BuyZone result)
    < 319.75.
Proof. vm_compute. repeat split; discriminate. Qed.

Example test_CalculateSellZoneResult_ValidInput :
  let '(result, err) := CalculateSellZoneResult "UNH" 380 0.65 (-15) 350 in
  err = None /\
  SellZoneCalculationResult.SellZoneStatus result = "In trim zone" /\
  337.20 < SellZone.LowerBound (SellZoneCalculationResult.SellZone result)
    < 337.21 /\
  351.60 < SellZone.UpperBound (SellZoneCalculationResult.SellZone result)
    < 351.61.
Proof. vm_compute. repeat split; discriminate. Qed.

(** A newly created position, every field zero: the call completes, the
    fields behind a guard keep their zero and the others get their
    defaults. *)
Example CalculateMetrics_zeroStock :
  let r := CalculateMetrics zeroStock in
  DownsideRisk r == -20 /\ ProbabilityPositive r == 0.65 /\
  UpsidePotential r == 0 /\ BRatio r == 0 /\ ExpectedValue r == -7 /\
  KellyFraction r == 0 /\ HalfKellySuggested r == 0 /\
  Assessment r = "Sell" /\ BuyZoneMin r == 0 /\ BuyZoneMax r == 0 /\
  SellZoneLowerBound r == 0 /\ SellZoneUpperBound r == 0 /\
  SellZoneStatus r = "no sell zone".
Proof. cbv zeta. repeat split; qclosed. Qed.

(** * Further properties of the engine *)

(** ** The solver and the forward formula are inverse to each other *)

(** A price lies below the solved price exactly when the expected value at
    that price lies above the threshold. *)
Lemma price_below_threshold_price (fv p d ev price : Q) :
  d <= 0 -> 0 < price -> 0 < ev + 100 * p + (1 - p) * Qabs d ->
  (price < 100 * p * fv / (ev + 100 * p + (1 - p) * Qabs d)
   <-> ev < expectedValueAtPrice fv p d price) /\
  (price <= 100 * p * fv / (ev + 100 * p + (1 - p) * Qabs d)
   <-> ev <= expectedValueAtPrice fv p d price).
Proof.
  intros Hd Hprice Hden.
  assert (Qabs d == - d) as Habs by (by apply Qabs_neg).
  unfold expectedValueAtPrice. destruct (Qleb_spec price 0); [lra|].
  assert (0 < ev + 100 * p + (1 - p) * - d) as Hden' by (by rewrite <- Habs).
  set (den := ev + 100 * p + (1 - p) * Qabs d) in *.
  assert (p * ((fv - price) / price * 100) + (1 - p) * d - ev
          == (100 * p * fv / den - price) * (den / price)) as Hdiff.
  { unfold den. rewrite Habs. field. split; lra. }
  assert (0 < den / price) as Hpos by (apply Qdiv_pos; lra).
  split; split; intros H; nra.
Qed.

(** X1: when the solver succeeds for a downside risk that is not positive,
    the price it returns is positive and the forward formula at that price
    gives the threshold back. *)
Theorem solver_then_forward (fv p d ev : Q) :
  d <= 0 ->
  snd (solvePriceForEVThreshold fv p d ev) = true ->
  0 < fst (solvePriceForEVThreshold fv p d ev) /\
  expectedValueAtPrice fv p d (fst (solvePriceForEVThreshold fv p d ev)) == ev.
Proof.
  intros Hd. unfold solvePriceForEVThreshold, IsNaN, IsInf. cbv zeta.
  set (den := ev + 100 * p + (1 - p) * Qabs d).
  destruct (Qleb_spec den 0) as [|Hden]; [discriminate|]. cbn [orb].
  destruct (Qleb_spec (100 * p * fv / den) 0) as [|Hprice]; [discriminate|].
  intros _. cbn [fst]. split; [lra|].
  assert (0 < den) as Hden' by lra.
  assert (0 < 100 * p * fv / den) as Hprice' by lra.
  destruct (price_below_threshold_price fv p d ev (100 * p * fv / den)
              Hd Hprice' Hden') as [_ [Hle _]].
  destruct (Qlt_le_dec ev
              (expectedValueAtPrice fv p d (100 * p * fv / den)))
    as [Hlt|Hge].
  - apply (proj2 (proj1 (price_below_threshold_price fv p d ev
                           (100 * p * fv / den) Hd Hprice' Hden'))) in Hlt.
    fold den in Hlt. lra.
  - fold den in Hle. apply Qle_antisym; [exact Hge|]. apply Hle. lra.
Qed.

Lemma solver_then_forward_witness :
  -15 <= 0 /\
  snd (solvePriceForEVThreshold 380 0.65 (-15) 7) = true /\
  expectedValueAtPrice 380 0.65 (-15)
    (fst (solvePriceForEVThreshold 380 0.65 (-15) 7)) == 7.
Proof.
  assert (-15 <= 0) as Hd by qclosed.
  assert (snd (solvePriceForEVThreshold 380 0.65 (-15) 7) = true) as Hok
    by reflexivity.
  split; [exact Hd|]. split; [exact Hok|].
  exact (proj2 (solver_then_forward 380 0.65 (-15) 7 Hd Hok)).
Defined.

(** X2: In exact arithmetic (float64 read as a rational number: no rounding,
    overflow, underflow or NaN), for a positive probability, fair value and
    price and a downside risk that is not positive, solving for the expected
    value found at a price succeeds and returns that price. *)
Theorem forward_then_solver (fv p d price : Q) :
  0 < p -> 0 < fv -> 0 < price -> d <= 0 ->
  snd (solvePriceForEVThreshold fv p d (expectedValueAtPrice fv p d price))
  = true /\
  fst (solvePriceForEVThreshold fv p d (expectedValueAtPrice fv p d price))
  == price.
Proof.
  intros Hp Hfv Hprice Hd.
  assert (Qabs d == - d) as Habs by (by apply Qabs_neg).
  assert (expectedValueAtPrice fv p d price + 100 * p + (1 - p) * Qabs d
          == 100 * p * fv / price) as Hden.
  { unfold expectedValueAtPrice. destruct (Qleb_spec price 0); [lra|].
    rewrite Habs. field. lra. }
  assert (0 < 100 * p * fv / price) as Hpos by (apply Qdiv_pos; nra).
  unfold solvePriceForEVThreshold, IsNaN, IsInf. cbv zeta.
  set (den := expectedValueAtPrice fv p d price + 100 * p
              + (1 - p) * Qabs d) in *.
  destruct (Qleb_spec den 0); [lra|]. cbn [orb].
  assert (100 * p * fv / den == price) as Hback.
  { rewrite Hden. field. split; [lra|nra]. }
  destruct (Qleb_spec (100 * p * fv / den) 0); [lra|].
  split; [reflexivity|exact Hback].
Qed.

Lemma forward_then_solver_witness :
  (0 < 0.65 /\ 0 < 380 /\ 0 < 350 /\ -15 <= 0) /\
  fst (solvePriceForEVThreshold 380 0.65 (-15)
         (expectedValueAtPrice 380 0.65 (-15) 350)) == 350.
Proof.
  assert (0 < 0.65) as Hp by qclosed. assert (0 < 380) as Hfv by qclosed.
  assert (0 < 350) as Hprice by qclosed. assert (-15 <= 0) as Hd by qclosed.
  split; [split; [exact Hp|split; [exact Hfv|split; [exact Hprice|exact Hd]]]|].
  exact (proj2 (forward_then_solver 380 0.65 (-15) 350 Hp Hfv Hprice Hd)).
Defined.

(** ** Monotonicity *)

Lemma solver_success (fv p d ev : Q) :
  snd (solvePriceForEVThreshold fv p d ev) = true ->
  0 < ev + 100 * p + (1 - p) * Qabs d /\
  0 < 100 * p * fv /\
  fst (solvePriceForEVThreshold fv p d ev)
  = 100 * p * fv / (ev + 100 * p + (1 - p) * Qabs d).
Proof.
  unfold solvePriceForEVThreshold, IsNaN, IsInf. cbv zeta.
  set (den := ev + 100 * p + (1 - p) * Qabs d).
  destruct (Qleb_spec den 0); [discriminate|]. cbn [orb].
  destruct (Qleb_spec (100 * p * fv / den) 0); [discriminate|].
  intros _. split; [lra|]. split; [|reflexivity].
  apply (Qdiv_pos (100 * p * fv) den); lra.
Qed.

(** X3: In exact arithmetic (float64 read as a rational number: no rounding,
    overflow, underflow or NaN), of two thresholds that
    solvePriceForEVThreshold can both solve for the same fair value,
    probability and downside risk, the higher threshold has the strictly lower
    price. *)
Theorem solver_decreasing_in_threshold (fv p d ev1 ev2 : Q) :
  snd (solvePriceForEVThreshold fv p d ev1) = true ->
  snd (solvePriceForEVThreshold fv p d ev2) = true ->
  ev1 < ev2 ->
  fst (solvePriceForEVThreshold fv p d ev2)
  < fst (solvePriceForEVThreshold fv p d ev1).
Proof.
  intros H1 H2 Hlt.
  destruct (solver_success fv p d ev1 H1) as (Hd1 & Hn & ->).
  destruct (solver_success fv p d ev2 H2) as (Hd2 & _ & ->).
  apply Qdiv_lt_denominator; lra.
Qed.

Lemma solver_decreasing_in_threshold_witness :
  snd (solvePriceForEVThreshold 380 0.65 (-15) 7) = true /\
  snd (solvePriceForEVThreshold 380 0.65 (-15) 15) = true /\
  7 < 15 /\
  fst (solvePriceForEVThreshold 380 0.65 (-15) 15)
  < fst (solvePriceForEVThreshold 380 0.65 (-15) 7).
Proof.
  assert (snd (solvePriceForEVThreshold 380 0.65 (-15) 7) = true) as H1
    by reflexivity.
  assert (snd (solvePriceForEVThreshold 380 0.65 (-15) 15) = true) as H2
    by reflexivity.
  assert (7 < 15) as Hlt by qclosed.
  split; [exact H1|]. split; [exact H2|]. split; [exact Hlt|].
  exact (solver_decreasing_in_threshold 380 0.65 (-15) 7 15 H1 H2 Hlt).
Defined.

(** X4: In exact arithmetic (float64 read as a rational number: no rounding,
    overflow, underflow or NaN), for a positive probability and fair value,
    expectedValueAtPrice strictly decreases as the (positive) price rises. *)
Theorem expectedValueAtPrice_decreasing (fv p d price1 price2 : Q) :
  0 < p -> 0 < fv -> 0 < price1 -> price1 < price2 ->
  expectedValueAtPrice fv p d price2 < expectedValueAtPrice fv p d price1.
Proof.
  intros Hp Hfv H1 H12. unfold expectedValueAtPrice.
  destruct (Qleb_spec price1 0); [lra|].
  destruct (Qleb_spec price2 0); [lra|].
  assert (fv / price2 < fv / price1) as Hdiv
    by (apply Qdiv_lt_denominator; lra).
  assert ((fv - price1) / price1 * 100 == (fv / price1 - 1) * 100) as ->
    by (field; lra).
  assert ((fv - price2) / price2 * 100 == (fv / price2 - 1) * 100) as ->
    by (field; lra).
  nra.
Qed.

Lemma expectedValueAtPrice_decreasing_witness :
  (0 < 0.65 /\ 0 < 380 /\ 0 < 300 /\ 300 < 350) /\
  expectedValueAtPrice 380 0.65 (-15) 350
  < expectedValueAtPrice 380 0.65 (-15) 300.
Proof.
  assert (0 < 0.65) as Hp by qclosed. assert (0 < 380) as Hfv by qclosed.
  assert (0 < 300) as H1 by qclosed. assert (300 < 350) as H12 by qclosed.
  split; [split; [exact Hp|split; [exact Hfv|split; [exact H1|exact H12]]]|].
  exact (expectedValueAtPrice_decreasing 380 0.65 (-15) 300 350 Hp Hfv H1 H12).
Defined.

(** X5: In exact arithmetic (float64 read as a rational number: no rounding,
    overflow, underflow or NaN), for a probability in [0, 1] and a
    non-negative threshold, solvePriceForEVThreshold succeeds exactly when the
    probability and the fair value are both positive; whenever it fails the
    price returned is 0. *)
Theorem solver_feasible_iff (fv p d ev : Q) :
  0 <= p -> p <= 1 -> 0 <= ev ->
  (snd (solvePriceForEVThreshold fv p d ev) = true <-> 0 < p /\ 0 < fv) /\
  (snd (solvePriceForEVThreshold fv p d ev) = false ->
   fst (solvePriceForEVThreshold fv p d ev) = 0).
Proof.
  intros Hp0 Hp1 Hev. split.
  - split.
    + intros Hok. destruct (solver_success fv p d ev Hok) as (_ & Hnum & _).
      assert (0 < p) as Hp.
      { destruct (Qlt_le_dec 0 p) as [|Hle]; [assumption|].
        assert (p == 0) as E by lra. rewrite E in Hnum. lra. }
      split; [exact Hp|].
      destruct (Qlt_le_dec 0 fv) as [|Hle]; [assumption|].
      assert (p * fv <= 0) by nra. lra.
    + intros [Hp Hfv]. rewrite solvePriceForEVThreshold_spec by lra.
      destruct (Qltb_spec 0 fv); [reflexivity|lra].
  - unfold solvePriceForEVThreshold, IsNaN, IsInf. cbv zeta.
    repeat match goal with
           | |- context [if ?c then _ else _] => destruct c
           end; cbn; intros; try reflexivity; discriminate.
Qed.

Lemma solver_feasible_iff_witness :
  (0 <= 0 /\ 0 <= 1 /\ 0 <= 7) /\
  snd (solvePriceForEVThreshold 380 0 (-15) 7) = false /\
  fst (solvePriceForEVThreshold 380 0 (-15) 7) = 0.
Proof.
  assert (0 <= 0) as Hp0 by qclosed. assert (0 <= 1) as Hp1 by qclosed.
  assert (0 <= 7) as Hev by qclosed.
  assert (snd (solvePriceForEVThreshold 380 0 (-15) 7) = false) as Hfail
    by reflexivity.
  split; [split; [exact Hp0|split; [exact Hp1|exact Hev]]|].
  split; [exact Hfail|].
  exact (proj2 (solver_feasible_iff 380 0 (-15) 7 Hp0 Hp1 Hev) Hfail).
Defined.

(** ** The standalone zone queries on valid arguments *)

Lemma CalculateBuyZoneResult_zone (ticker : string) (fv p d cp : Q) :
  0 < p -> p <= 1 -> d < 0 -> 0 < fv ->
  let lower := 100 * p * fv / (15 + 100 * p + (1 - p) * Qabs d) in
  let upper := 100 * p * fv / (7 + 100 * p + (1 - p) * Qabs d) in
  lower < upper /\
  fst (CalculateBuyZoneResult ticker fv p d cp)
  = BuyZoneCalculationResult.mk ticker fv p d (BuyZone.mk lower upper)
      (if cp >? 0 then expectedValueAtPrice fv p d cp else 0)
      (if cp >? 0 then
         if cp <? lower then "EV >> 15%"
         else if cp <=? upper then "within buy zone"
         else "outside buy zone"
       else "").
Proof.
  intros Hp Hp1 Hd Hfv. cbv zeta.
  pose proof (solver_denominator_pos p d 7 Hp Hp1 ltac:(lra)) as Hden.
  assert (100 * p * fv / (15 + 100 * p + (1 - p) * Qabs d)
          < 100 * p * fv / (7 + 100 * p + (1 - p) * Qabs d)) as Hlt
    by (apply Qdiv_lt_denominator; nra).
  split; [exact Hlt|].
  unfold CalculateBuyZoneResult.
  destruct (validation_passes fv p d ltac:(lra) Hd Hfv) as (-> & -> & ->).
  rewrite !solvePriceForEVThreshold_spec by lra.
  destruct (Qltb_spec 0 fv); [|lra]. cbn [negb orb BuyZone.LowerBound
    BuyZone.UpperBound].
  match goal with
  | |- context [?u <? ?l] =>
      match l with
      | context [15] => destruct (Qltb_spec u l); [lra|]
      end
  end.
  repeat match goal with
         | |- context [if ?c then _ else _] => destruct c
         end; reflexivity.
Qed.

(** X6: In exact arithmetic (float64 read as a rational number: no rounding,
    overflow, underflow or NaN), on arguments that pass validation
    (probability in [0, 1], downside risk < 0, fair value > 0),
    CalculateBuyZoneResult has a zone exactly when the probability is
    positive: then the bounds are the prices solved for the thresholds 15 and
    7 with 0 < lower < upper < fair value and the status is not "no buy zone
    available"; with probability 0 the bounds stay 0 and the status is "no buy
    zone available". *)
Theorem CalculateBuyZoneResult_bounds (ticker : string) (fv p d cp : Q) :
  0 <= p -> p <= 1 -> d < 0 -> 0 < fv ->
  let r := fst (CalculateBuyZoneResult ticker fv p d cp) in
  let zone := BuyZoneCalculationResult.BuyZone r in
  (0 < p ->
   BuyZone.LowerBound zone = fst (solvePriceForEVThreshold fv p d 15) /\
   BuyZone.UpperBound zone = fst (solvePriceForEVThreshold fv p d 7) /\
   0 < BuyZone.LowerBound zone /\
   BuyZone.LowerBound zone < BuyZone.UpperBound zone /\
   BuyZone.UpperBound zone < fv /\
   BuyZoneCalculationResult.ZoneStatus r <> "no buy zone available") /\
  (p == 0 ->
   zone = BuyZone.mk 0 0 /\
   BuyZoneCalculationResult.ZoneStatus r = "no buy zone available").
Proof.
  intros Hp0 Hp1 Hd Hfv. cbv zeta. split.
  - intros Hp.
    destruct (CalculateBuyZoneResult_zone ticker fv p d cp Hp Hp1 Hd Hfv)
      as [Hlt ->].
    cbn [BuyZoneCalculationResult.BuyZone BuyZoneCalculationResult.ZoneStatus
         BuyZone.LowerBound BuyZone.UpperBound].
    rewrite !solvePriceForEVThreshold_spec by lra.
    destruct (Qltb_spec 0 fv); [|lra]. cbn [fst].
    pose proof (solver_denominator_pos p d 15 Hp Hp1 ltac:(lra)) as Hd15.
    pose proof (solver_denominator_pos p d 7 Hp Hp1 ltac:(lra)) as Hd7.
    pose proof (solver_denominator_pos p d 0 Hp Hp1 ltac:(lra)) as Hd0.
    split; [reflexivity|]. split; [reflexivity|].
    split; [apply Qdiv_pos; nra|]. split; [exact Hlt|]. split.
    + apply Qlt_shift_div_r; [lra|].
      assert (0 <= (1 - p) * Qabs d) as Hx
        by (apply Qmult_le_0_compat; [lra|apply Qabs_nonneg]).
      set (x := (1 - p) * Qabs d) in *. nra.
    + repeat match goal with
             | |- context [if ?c then _ else _] => destruct c
             end; discriminate.
  - intros Hz.
    assert (snd (solvePriceForEVThreshold fv p d 15) = false) as Hfail.
    { destruct (solvePriceForEVThreshold fv p d 15) as [x ok] eqn:E.
      destruct ok; [|reflexivity].
      assert (snd (solvePriceForEVThreshold fv p d 15) = true) as Hok
        by (by rewrite E).
      apply (solver_feasible_iff fv p d 15) in Hok; lra. }
    split.
    + unfold CalculateBuyZoneResult.
      destruct (validation_passes fv p d ltac:(lra) Hd Hfv) as (-> & -> & ->).
      destruct (solvePriceForEVThreshold fv p d 15) as [lo okLower].
      destruct (solvePriceForEVThreshold fv p d 7) as [hi okUpper].
      cbn [snd] in Hfail. subst okLower. reflexivity.
    + apply CalculateBuyZoneResult_infeasible; try lra. by left.
Qed.

Lemma CalculateBuyZoneResult_bounds_witness :
  (0 <= 0.65 /\ 0.65 <= 1 /\ -15 < 0 /\ 0 < 380 /\ 0 < 0.65) /\
  BuyZone.LowerBound
    (BuyZoneCalculationResult.BuyZone
       (fst (CalculateBuyZoneResult "UNH" 380 0.65 (-15) 284.37)))
  < BuyZone.UpperBound
      (BuyZoneCalculationResult.BuyZone
         (fst (CalculateBuyZoneResult "UNH" 380 0.65 (-15) 284.37))).
Proof.
  assert (0 <= 0.65) as Hp0 by qclosed. assert (0.65 <= 1) as Hp1 by qclosed.
  assert (-15 < 0) as Hd by qclosed. assert (0 < 380) as Hfv by qclosed.
  assert (0 < 0.65) as Hp by qclosed.
  split.
  - split; [exact Hp0|]. split; [exact Hp1|]. split; [exact Hd|].
    split; [exact Hfv|exact Hp].
  - pose proof (CalculateBuyZoneResult_bounds "UNH" 380 0.65 (-15) 284.37
                  Hp0 Hp1 Hd Hfv) as H.
    cbv zeta in H. destruct H as [H _].
    destruct (H Hp) as (_ & _ & _ & Hlt & _). exact Hlt.
Defined.

(** X7: In exact arithmetic (float64 read as a rational number: no rounding,
    overflow, underflow or NaN), for arguments that pass validation with a
    positive probability (probability in (0, 1], downside risk < 0, fair value
    > 0) and a positive current price, the current expected value
    CalculateBuyZoneResult reports is expectedValueAtPrice at the current
    price, and its status (decided by comparing the price with the bounds) is
    "EV >> 15%" exactly when that expected value exceeds 15, "within buy zone"
    exactly when it is between 7 and 15, and "outside buy zone" exactly when
    it is below 7. *)
Theorem CalculateBuyZoneResult_status (ticker : string) (fv p d cp : Q) :
  0 < p -> p <= 1 -> d < 0 -> 0 < fv -> 0 < cp ->
  let r := fst (CalculateBuyZoneResult ticker fv p d cp) in
  let ev := BuyZoneCalculationResult.CurrentExpectedValue r in
  ev = expectedValueAtPrice fv p d cp /\
  (BuyZoneCalculationResult.ZoneStatus r = "EV >> 15%" <-> 15 < ev) /\
  (BuyZoneCalculationResult.ZoneStatus r = "within buy zone"
   <-> 7 <= ev <= 15) /\
  (BuyZoneCalculationResult.ZoneStatus r = "outside buy zone" <-> ev < 7).
Proof.
  intros Hp Hp1 Hd Hfv Hcp. cbv zeta.
  destruct (CalculateBuyZoneResult_zone ticker fv p d cp Hp Hp1 Hd Hfv)
    as [Hlt ->].
  cbn [BuyZoneCalculationResult.CurrentExpectedValue
       BuyZoneCalculationResult.ZoneStatus].
  destruct (Qltb_spec 0 cp); [|lra].
  split; [reflexivity|].
  destruct (price_below_threshold_price fv p d 15 cp ltac:(lra) Hcp
              (solver_denominator_pos p d 15 Hp Hp1 ltac:(lra)))
    as [H15 _].
  destruct (price_below_threshold_price fv p d 7 cp ltac:(lra) Hcp
              (solver_denominator_pos p d 7 Hp Hp1 ltac:(lra)))
    as [_ H7].
  set (ev := expectedValueAtPrice fv p d cp) in *.
  set (lower := 100 * p * fv / (15 + 100 * p + (1 - p) * Qabs d)) in *.
  set (upper := 100 * p * fv / (7 + 100 * p + (1 - p) * Qabs d)) in *.
  destruct (Qltb_spec cp lower) as [Hlo|Hlo];
    [|destruct (Qleb_spec cp upper) as [Hup|Hup]].
  - apply H15 in Hlo.
    repeat split; intros; try discriminate; try lra.
  - assert (~ 15 < ev) by (intros H; apply H15 in H; lra).
    apply H7 in Hup.
    repeat split; intros; try discriminate; try lra.
  - assert (~ 7 <= ev) by (intros H; apply H7 in H; lra).
    repeat split; intros; try discriminate; try lra.
Qed.

Lemma CalculateBuyZoneResult_status_witness :
  (0 < 0.65 /\ 0.65 <= 1 /\ -25 < 0 /\ 0 < 120 /\ 0 < 90) /\
  BuyZoneCalculationResult.ZoneStatus
    (fst (CalculateBuyZoneResult "ABC" 120 0.65 (-25) 90))
  = "within buy zone" /\
  7 <= BuyZoneCalculationResult.CurrentExpectedValue
         (fst (CalculateBuyZoneResult "ABC" 120 0.65 (-25) 90)) <= 15.
Proof.
  assert (0 < 0.65) as Hp by qclosed. assert (0.65 <= 1) as Hp1 by qclosed.
  assert (-25 < 0) as Hd by qclosed. assert (0 < 120) as Hfv by qclosed.
  assert (0 < 90) as Hcp by qclosed.
  assert (BuyZoneCalculationResult.ZoneStatus
            (fst (CalculateBuyZoneResult "ABC" 120 0.65 (-25) 90))
          = "within buy zone") as Hs by reflexivity.
  split.
  - split; [exact Hp|]. split; [exact Hp1|]. split; [exact Hd|].
    split; [exact Hfv|exact Hcp].
  - split; [exact Hs|].
    pose proof (CalculateBuyZoneResult_status "ABC" 120 0.65 (-25) 90
                  Hp Hp1 Hd Hfv Hcp) as H.
    cbv zeta in H. destruct H as (_ & _ & Hwithin & _).
    exact (proj1 Hwithin Hs).
Defined.

Lemma CalculateSellZoneResult_zone (ticker : string) (fv p d cp : Q) :
  0 < p -> p <= 1 -> d < 0 -> 0 < fv ->
  let lower := 100 * p * fv / (3 + 100 * p + (1 - p) * Qabs d) in
  let upper := 100 * p * fv / (0 + 100 * p + (1 - p) * Qabs d) in
  lower < upper /\
  fst (CalculateSellZoneResult ticker fv p d cp)
  = SellZoneCalculationResult.mk ticker fv p d (SellZone.mk lower upper)
      (if cp >? 0 then expectedValueAtPrice fv p d cp else 0)
      (if cp >? 0 then
         if expectedValueAtPrice fv p d cp >? 3 then "Below sell zone"
         else if expectedValueAtPrice fv p d cp >? 0 then "In trim zone"
         else "In sell zone"
       else "").
Proof.
  intros Hp Hp1 Hd Hfv. cbv zeta.
  pose proof (solver_denominator_pos p d 0 Hp Hp1 ltac:(lra)) as Hden.
  assert (100 * p * fv / (3 + 100 * p + (1 - p) * Qabs d)
          < 100 * p * fv / (0 + 100 * p + (1 - p) * Qabs d)) as Hlt.
  { apply Qdiv_lt_denominator; [|lra|lra].
    apply Qmult_lt_0_compat; lra. }
  split; [exact Hlt|].
  unfold CalculateSellZoneResult.
  destruct (validation_passes fv p d ltac:(lra) Hd Hfv) as (-> & -> & ->).
  rewrite !solvePriceForEVThreshold_spec by lra.
  destruct (Qltb_spec 0 fv); [|lra]. cbn [negb orb].
  match goal with
  | |- context [?u <=? ?l] =>
      match l with
      | context [3] => destruct (Qleb_spec u l); [lra|]
      end
  end.
  repeat match goal with
         | |- context [if ?c then _ else _] => destruct c
         end; reflexivity.
Qed.

(** X8: In exact arithmetic (float64 read as a rational number: no rounding,
    overflow, underflow or NaN), for arguments that pass validation with a
    positive probability (probability in (0, 1], downside risk < 0, fair value
    > 0) and a positive current price, CalculateSellZoneResult has 0 < lower <
    upper <= fair value, and its status (decided by comparing the expected
    value with 3 and 0) is "Below sell zone" exactly when the price is below
    the lower bound, "In trim zone" exactly from the lower bound up to the
    upper one, and "In sell zone" exactly from the upper bound on. *)
Theorem CalculateSellZoneResult_status (ticker : string) (fv p d cp : Q) :
  0 < p -> p <= 1 -> d < 0 -> 0 < fv -> 0 < cp ->
  let r := fst (CalculateSellZoneResult ticker fv p d cp) in
  let lower := SellZone.LowerBound (SellZoneCalculationResult.SellZone r) in
  let upper := SellZone.UpperBound (SellZoneCalculationResult.SellZone r) in
  (0 < lower /\ lower < upper /\ upper <= fv) /\
  (SellZoneCalculationResult.SellZoneStatus r = "Below sell zone"
   <-> cp < lower) /\
  (SellZoneCalculationResult.SellZoneStatus r = "In trim zone"
   <-> lower <= cp < upper) /\
  (SellZoneCalculationResult.SellZoneStatus r = "In sell zone"
   <-> upper <= cp).
Proof.
  intros Hp Hp1 Hd Hfv Hcp. cbv zeta.
  destruct (CalculateSellZoneResult_zone ticker fv p d cp Hp Hp1 Hd Hfv)
    as [Hlt ->].
  cbn [SellZoneCalculationResult.SellZone
       SellZoneCalculationResult.SellZoneStatus
       SellZone.LowerBound SellZone.UpperBound].
  destruct (Qltb_spec 0 cp); [|lra].
  pose proof (solver_denominator_pos p d 3 Hp Hp1 ltac:(lra)) as Hd3.
  pose proof (solver_denominator_pos p d 0 Hp Hp1 ltac:(lra)) as Hd0.
  destruct (price_below_threshold_price fv p d 3 cp ltac:(lra) Hcp Hd3)
    as [H3 _].
  destruct (price_below_threshold_price fv p d 0 cp ltac:(lra) Hcp Hd0)
    as [H0 _].
  assert (0 <= (1 - p) * Qabs d) as Hx
    by (apply Qmult_le_0_compat; [lra|apply Qabs_nonneg]).
  assert (0 < 100 * p * fv) as Hnum by (apply Qmult_lt_0_compat; lra).
  split.
  - split; [apply Qdiv_pos; lra|]. split; [exact Hlt|].
    apply Qle_shift_div_r; [lra|].
    set (x := (1 - p) * Qabs d) in *. nra.
  - set (ev := expectedValueAtPrice fv p d cp) in *.
    set (lower := 100 * p * fv / (3 + 100 * p + (1 - p) * Qabs d)) in *.
    set (upper := 100 * p * fv / (0 + 100 * p + (1 - p) * Qabs d)) in *.
    destruct (Qltb_spec 3 ev) as [Hev3|Hev3];
      [|destruct (Qltb_spec 0 ev) as [Hev0|Hev0]].
    + apply H3 in Hev3.
      repeat split; intros; try discriminate; try lra.
    + assert (~ cp < lower) by (intros H; apply H3 in H; lra).
      apply H0 in Hev0.
      repeat split; intros; try discriminate; try lra.
    + assert (~ cp < upper) by (intros H; apply H0 in H; lra).
      repeat split; intros; try discriminate; try lra.
Qed.

Lemma CalculateSellZoneResult_status_witness :
  (0 < 0.65 /\ 0.65 <= 1 /\ -15 < 0 /\ 0 < 380 /\ 0 < 350) /\
  SellZoneCalculationResult.SellZoneStatus
    (fst (CalculateSellZoneResult "UNH" 380 0.65 (-15) 350))
  = "In trim zone" /\
  350 < SellZone.UpperBound
          (SellZoneCalculationResult.SellZone
             (fst (CalculateSellZoneResult "UNH" 380 0.65 (-15) 350))).
Proof.
  assert (0 < 0.65) as Hp by qclosed. assert (0.65 <= 1) as Hp1 by qclosed.
  assert (-15 < 0) as Hd by qclosed. assert (0 < 380) as Hfv by qclosed.
  assert (0 < 350) as Hcp by qclosed.
  assert (SellZoneCalculationResult.SellZoneStatus
            (fst (CalculateSellZoneResult "UNH" 380 0.65 (-15) 350))
          = "In trim zone") as Hs by reflexivity.
  split.
  - split; [exact Hp|]. split; [exact Hp1|]. split; [exact Hd|].
    split; [exact Hfv|exact Hcp].
  - split; [exact Hs|].
    pose proof (CalculateSellZoneResult_status "UNH" 380 0.65 (-15) 350
                  Hp Hp1 Hd Hfv Hcp) as H.
    cbv zeta in H. destruct H as (_ & _ & Htrim & _).
    exact (proj2 (proj1 Htrim Hs)).
Defined.

(** X9: In exact arithmetic (float64 read as a rational number: no rounding,
    overflow, underflow or NaN), for arguments that pass validation with a
    positive probability (probability in (0, 1], downside risk < 0, fair value
    > 0) and a current price that is not positive, both zone queries return a
    positive lower bound but report a current expected value of 0 and an empty
    status. *)
Theorem zone_queries_without_price (ticker : string) (fv p d cp : Q) :
  0 < p -> p <= 1 -> d < 0 -> 0 < fv -> cp <= 0 ->
  let buy := fst (CalculateBuyZoneResult ticker fv p d cp) in
  let sell := fst (CalculateSellZoneResult ticker fv p d cp) in
  BuyZoneCalculationResult.CurrentExpectedValue buy = 0 /\
  BuyZoneCalculationResult.ZoneStatus buy = "" /\
  0 < BuyZone.LowerBound (BuyZoneCalculationResult.BuyZone buy) /\
  SellZoneCalculationResult.CurrentExpectedValue sell = 0 /\
  SellZoneCalculationResult.SellZoneStatus sell = "" /\
  0 < SellZone.LowerBound (SellZoneCalculationResult.SellZone sell).
Proof.
  intros Hp Hp1 Hd Hfv Hcp. cbv zeta.
  destruct (CalculateBuyZoneResult_zone ticker fv p d cp Hp Hp1 Hd Hfv)
    as [_ ->].
  destruct (CalculateSellZoneResult_zone ticker fv p d cp Hp Hp1 Hd Hfv)
    as [_ ->].
  cbn [BuyZoneCalculationResult.CurrentExpectedValue
       BuyZoneCalculationResult.ZoneStatus BuyZoneCalculationResult.BuyZone
       BuyZone.LowerBound SellZoneCalculationResult.CurrentExpectedValue
       SellZoneCalculationResult.SellZoneStatus
       SellZoneCalculationResult.SellZone SellZone.LowerBound].
  destruct (Qltb_spec 0 cp); [lra|].
  assert (0 < 100 * p * fv) as Hnum by (apply Qmult_lt_0_compat; lra).
  pose proof (solver_denominator_pos p d 15 Hp Hp1 ltac:(lra)).
  pose proof (solver_denominator_pos p d 3 Hp Hp1 ltac:(lra)).
  repeat split; apply Qdiv_pos; lra.
Qed.

Lemma zone_queries_without_price_witness :
  (0 < 0.65 /\ 0.65 <= 1 /\ -15 < 0 /\ 0 < 380 /\ 0 <= 0) /\
  BuyZoneCalculationResult.ZoneStatus
    (fst (CalculateBuyZoneResult "UNH" 380 0.65 (-15) 0)) = "" /\
  SellZoneCalculationResult.SellZoneStatus
    (fst (CalculateSellZoneResult "UNH" 380 0.65 (-15) 0)) = "".
Proof.
  assert (0 < 0.65) as Hp by qclosed. assert (0.65 <= 1) as Hp1 by qclosed.
  assert (-15 < 0) as Hd by qclosed. assert (0 < 380) as Hfv by qclosed.
  assert (0 <= 0) as Hcp by qclosed.
  pose proof (zone_queries_without_price "UNH" 380 0.65 (-15) 0
                Hp Hp1 Hd Hfv Hcp) as H.
  cbv zeta in H. destruct H as (_ & Hb & _ & _ & Hs & _).
  split.
  - split; [exact Hp|]. split; [exact Hp1|]. split; [exact Hd|].
    split; [exact Hfv|exact Hcp].
  - split; [exact Hb|exact Hs].
Defined.

(** ** [CalculateMetrics] applied again *)

Lemma downsideAfter_nonzero (s : Stock) : ~ downsideAfter s == 0.
Proof.
  unfold downsideAfter, calibrateDownsideRisk.
  destruct (Qeqb_spec (DownsideRisk s) 0); [|assumption].
  repeat match goal with
         | |- context [if ?c then _ else _] => destruct c
         end; intros H; vm_compute in H; discriminate.
Qed.

Lemma downsideAfter_again (s : Stock) :
  downsideAfter (fieldsAfter s) = downsideAfter s.
Proof.
  unfold downsideAfter at 1. cbn [fieldsAfter DownsideRisk Beta].
  pose proof (downsideAfter_nonzero s).
  destruct (Qeqb_spec (downsideAfter s) 0); [contradiction|reflexivity].
Qed.

Lemma upsideAfter_again (s : Stock) :
  upsideAfter (fieldsAfter s) = upsideAfter s.
Proof.
  unfold upsideAfter at 1.
  cbn [fieldsAfter CurrentPrice FairValue UpsidePotential].
  unfold upsideAfter.
  destruct ((CurrentPrice s >? 0) && (FairValue s >? 0)); reflexivity.
Qed.

Lemma probabilityAfter_again (s : Stock) :
  probabilityAfter (fieldsAfter s) = probabilityAfter s.
Proof.
  unfold probabilityAfter at 1. cbn [fieldsAfter ProbabilityPositive].
  destruct (probabilityAfter_range s) as [Hp Hp1].
  destruct (Qleb_spec (probabilityAfter s) 0); [lra|].
  destruct (Qltb_spec 1 (probabilityAfter s)); [lra|]. reflexivity.
Qed.

Lemma fieldsAfter_again (s : Stock) : fieldsAfter (fieldsAfter s) = fieldsAfter s.
Proof.
  pose proof (downsideAfter_again s) as Ed.
  pose proof (upsideAfter_again s) as Eu.
  pose proof (probabilityAfter_again s) as Ep.
  assert (bratioAfter (fieldsAfter s) = bratioAfter s) as Eb
    by (unfold bratioAfter, magnitudeAfter; by rewrite Ed, Eu).
  assert (evAfter (fieldsAfter s) = evAfter s) as Ee
    by (unfold evAfter; by rewrite Ed, Eu, Ep).
  assert (kellyAfter (fieldsAfter s) = kellyAfter s) as Ek
    by (unfold kellyAfter, rawKelly; by rewrite Eb, Ep).
  assert (halfKellyAfter (fieldsAfter s) = halfKellyAfter s) as Eh
    by (unfold halfKellyAfter; by rewrite Ek).
  assert (assessmentAfter (fieldsAfter s) = assessmentAfter s) as Ea
    by (unfold assessmentAfter; by rewrite Ee).
  assert (requiredUpside (fieldsAfter s) = requiredUpside s) as Er
    by (unfold requiredUpside; by rewrite Ed, Ep).
  assert (buyZoneGuard (fieldsAfter s) = buyZoneGuard s) as Eg
    by (unfold buyZoneGuard; by rewrite Ep).
  assert (buyMaxAfter (fieldsAfter s) = buyMaxAfter s) as Emax.
  { unfold buyMaxAfter at 1. rewrite Eg, Er.
    cbn [fieldsAfter FairValue CurrentPrice BuyZoneMax].
    unfold buyMaxAfter. destruct (buyZoneGuard s); reflexivity. }
  assert (buyMinAfter (fieldsAfter s) = buyMinAfter s) as Emin.
  { unfold buyMinAfter at 1. rewrite Eg, Er.
    cbn [fieldsAfter FairValue CurrentPrice BuyZoneMin].
    unfold buyMinAfter. destruct (buyZoneGuard s); reflexivity. }
  assert (forall ev, solveAfter (fieldsAfter s) ev = solveAfter s ev) as Es
    by (intros ev; unfold solveAfter; by rewrite Ed, Ep).
  assert (sellZoneGuard (fieldsAfter s) = sellZoneGuard s) as Esg
    by (unfold sellZoneGuard; by rewrite !Es).
  assert (sellLowerAfter (fieldsAfter s) = sellLowerAfter s) as El
    by (unfold sellLowerAfter; by rewrite Esg, Es).
  assert (sellUpperAfter (fieldsAfter s) = sellUpperAfter s) as Esu
    by (unfold sellUpperAfter; by rewrite Esg, Es).
  assert (sellStatusAfter (fieldsAfter s) = sellStatusAfter s) as Est
    by (unfold sellStatusAfter; by rewrite Esg, Ee).
  unfold fieldsAfter at 1.
  rewrite Ep, Ed, Eu, Eb, Ee, Ek, Eh, Ea, Emin, Emax, El, Esu, Est.
  reflexivity.
Qed.

(** X10: [CalculateMetrics] is idempotent: a second call on its own result
    changes no field. *)
Theorem CalculateMetrics_idempotent (s : Stock) :
  CalculateMetrics (CalculateMetrics s) = CalculateMetrics s.
Proof.
  rewrite !CalculateMetrics_fields. apply fieldsAfter_again.
Qed.

(** ** Kelly fraction, expected value and the zones of a position *)

(** X11: In exact arithmetic (float64 read as a rational number: no rounding,
    overflow, underflow or NaN), when the resulting upside potential is
    positive and the resulting downside risk is at most -0.1, the Kelly
    fraction written by CalculateMetrics equals max(0, 100 * ExpectedValue /
    UpsidePotential), so it is positive exactly when the expected value is. *)
Theorem CalculateMetrics_kelly_is_edge_over_upside (s : Stock) :
  let r := CalculateMetrics s in
  0 < UpsidePotential r -> DownsideRisk r <= -0.1 ->
  KellyFraction r == Qmax 0 (ExpectedValue r / UpsidePotential r * 100) /\
  (0 < KellyFraction r <-> 0 < ExpectedValue r).
Proof.
  cbv zeta.
  rewrite CalculateMetrics_UpsidePotential, CalculateMetrics_DownsideRisk,
    CalculateMetrics_KellyFraction, CalculateMetrics_ExpectedValue.
  intros Hu Hd.
  unfold kellyAfter, rawKelly, bratioAfter, magnitudeAfter, evAfter,
    minDownsideMagnitude.
  assert (Qabs (downsideAfter s) == - downsideAfter s) as Habs
    by (apply Qabs_neg; lra).
  set (u := upsideAfter s) in *. set (d := downsideAfter s) in *.
  set (p := probabilityAfter s).
  destruct (Qltb_spec (Qabs d) 0.1); [lra|].
  assert (0 < u / Qabs d) as Hb by (apply Qdiv_pos; lra).
  destruct (Qltb_spec 0 (u / Qabs d)); [|lra].
  assert ((u / Qabs d * p - (1 - p)) / (u / Qabs d) * 100
          == (p * u + (1 - p) * d) / u * 100) as Hraw.
  { rewrite Habs. field. repeat split; lra. }
  set (raw := (u / Qabs d * p - (1 - p)) / (u / Qabs d) * 100) in *.
  set (e := p * u + (1 - p) * d) in *.
  assert (0 < e / u * 100 <-> 0 < e) as Hsign.
  { split; intros H.
    - assert (0 < e / u) as H' by lra. by apply Qdiv_pos in H'.
    - assert (0 < e / u) by (by apply Qdiv_pos). lra. }
  destruct (Q.max_spec 0 (e / u * 100)) as [[? ->]|[? ->]];
    destruct (Qltb_spec raw 0); split; try lra;
    split; intros; try lra; apply Hsign; lra.
Qed.

Lemma CalculateMetrics_kelly_is_edge_over_upside_witness :
  let r := CalculateMetrics freshA in
  (0 < UpsidePotential r /\ DownsideRisk r <= -0.1) /\
  KellyFraction r == Qmax 0 (ExpectedValue r / UpsidePotential r * 100).
Proof.
  cbv zeta.
  assert (0 < UpsidePotential (CalculateMetrics freshA)) as Hu by qclosed.
  assert (DownsideRisk (CalculateMetrics freshA) <= -0.1) as Hd by qclosed.
  split; [split; [exact Hu|exact Hd]|].
  exact (proj1 (CalculateMetrics_kelly_is_edge_over_upside freshA Hu Hd)).
Defined.

(** X12: In exact arithmetic (float64 read as a rational number: no rounding,
    overflow, underflow or NaN), after CalculateMetrics the expected value
    lies between the downside risk and the upside potential of the result. *)
Theorem CalculateMetrics_ev_between (s : Stock) :
  let r := CalculateMetrics s in
  Qmin (DownsideRisk r) (UpsidePotential r) <= ExpectedValue r /\
  ExpectedValue r <= Qmax (DownsideRisk r) (UpsidePotential r).
Proof.
  cbv zeta.
  rewrite CalculateMetrics_UpsidePotential, CalculateMetrics_DownsideRisk,
    CalculateMetrics_ExpectedValue.
  unfold evAfter. destruct (probabilityAfter_range s) as [Hp Hp1].
  set (u := upsideAfter s). set (d := downsideAfter s).
  set (p := probabilityAfter s) in *.
  destruct (Q.min_spec d u) as [[? ->]|[? ->]];
    destruct (Q.max_spec d u) as [[? ->]|[? ->]]; split; nra.
Qed.

(** X13: In exact arithmetic (float64 read as a rational number: no rounding,
    overflow, underflow or NaN), for a positive fair value and a resulting
    downside risk that is not positive, the buy zone written by
    CalculateMetrics satisfies 0 < BuyZoneMin < BuyZoneMax < FairValue with
    BuyZoneMin equal to 0.9 * BuyZoneMax. *)
Theorem CalculateMetrics_buy_zone_below_fair_value (s : Stock) :
  let r := CalculateMetrics s in
  0 < FairValue s -> DownsideRisk r <= 0 ->
  0 < BuyZoneMin r /\ BuyZoneMin r < BuyZoneMax r /\
  BuyZoneMax r < FairValue s /\
  BuyZoneMin r == BuyZoneMax r * 0.9.
Proof.
  cbv zeta. intros Hfv.
  rewrite CalculateMetrics_DownsideRisk, CalculateMetrics_BuyZoneMin,
    CalculateMetrics_BuyZoneMax.
  intros Hd. destruct (probabilityAfter_range s) as [Hp Hp1].
  unfold buyMinAfter, buyMaxAfter. rewrite (buyZoneGuard_true s Hfv).
  assert (requiredUpside s * probabilityAfter s
          == 7 - (1 - probabilityAfter s) * downsideAfter s) as Hru
    by (unfold requiredUpside; field; lra).
  set (p := probabilityAfter s) in *. set (d := downsideAfter s) in *.
  set (ru := requiredUpside s) in *.
  assert (0 < ru) as Hpos by nra.
  destruct (Qltb_spec (-100) ru); [|lra].
  assert (1 < 1 + ru / 100) as Hden by (rewrite Qdiv_100; lra).
  assert (0 < FairValue s / (1 + ru / 100)) as Hmax
    by (apply Qdiv_pos; lra).
  assert (FairValue s / (1 + ru / 100) < FairValue s) as Hlt.
  { apply Qlt_shift_div_r; [lra|]. nra. }
  repeat split; try lra.
Qed.

Lemma CalculateMetrics_buy_zone_below_fair_value_witness :
  let r := CalculateMetrics freshA in
  (0 < FairValue freshA /\ DownsideRisk r <= 0) /\
  BuyZoneMin r < BuyZoneMax r /\ BuyZoneMax r < FairValue freshA.
Proof.
  cbv zeta.
  assert (0 < FairValue freshA) as Hfv by qclosed.
  assert (DownsideRisk (CalculateMetrics freshA) <= 0) as Hd by qclosed.
  split; [split; [exact Hfv|exact Hd]|].
  pose proof (CalculateMetrics_buy_zone_below_fair_value freshA) as H.
  cbv zeta in H. destruct (H Hfv Hd) as (_ & H1 & H2 & _).
  split; [exact H1|exact H2].
Defined.

Lemma evAfter_forward (s : Stock) :
  0 < CurrentPrice s -> 0 < FairValue s ->
  evAfter s
  = expectedValueAtPrice (FairValue s) (probabilityAfter s) (downsideAfter s)
      (CurrentPrice s).
Proof.
  intros Hcp Hfv. unfold evAfter, upsideAfter, expectedValueAtPrice.
  destruct (Qltb_spec 0 (CurrentPrice s)); [|lra].
  destruct (Qltb_spec 0 (FairValue s)); [|lra].
  destruct (Qleb_spec (CurrentPrice s) 0); [lra|]. reflexivity.
Qed.

Lemma buyMaxAfter_formula (s : Stock) :
  0 < FairValue s -> downsideAfter s <= 0 ->
  buyMaxAfter s
  == 100 * probabilityAfter s * FairValue s
     / (7 + 100 * probabilityAfter s
        + (1 - probabilityAfter s) * Qabs (downsideAfter s)).
Proof.
  intros Hfv Hd. destruct (probabilityAfter_range s) as [Hp Hp1].
  unfold buyMaxAfter. rewrite (buyZoneGuard_true s Hfv).
  assert (Qabs (downsideAfter s) == - downsideAfter s) as Habs
    by (by apply Qabs_neg).
  assert (requiredUpside s * probabilityAfter s
          == 7 - (1 - probabilityAfter s) * downsideAfter s) as Hru
    by (unfold requiredUpside; field; lra).
  assert (-100 < requiredUpside s) as Hgt by nra.
  destruct (Qltb_spec (-100) (requiredUpside s)); [|lra].
  unfold requiredUpside. rewrite Habs. field. split; [nra|lra].
Qed.

Lemma sellBounds_formula (s : Stock) :
  0 < FairValue s ->
  sellZoneGuard s = true /\
  sellLowerAfter s
  = 100 * probabilityAfter s * FairValue s
    / (3 + 100 * probabilityAfter s
       + (1 - probabilityAfter s) * Qabs (downsideAfter s)) /\
  sellUpperAfter s
  = 100 * probabilityAfter s * FairValue s
    / (0 + 100 * probabilityAfter s
       + (1 - probabilityAfter s) * Qabs (downsideAfter s)).
Proof.
  intros Hfv. destruct (probabilityAfter_range s) as [Hp Hp1].
  unfold sellLowerAfter, sellUpperAfter, sellZoneGuard, solveAfter.
  rewrite !solvePriceForEVThreshold_spec by lra.
  destruct (Qltb_spec 0 (FairValue s)); [|lra]. cbn [fst snd andb].
  pose proof (solver_denominator_pos (probabilityAfter s) (downsideAfter s)
                0 Hp Hp1 ltac:(lra)) as Hden.
  assert (0 < 100 * probabilityAfter s * FairValue s) as Hnum
    by (apply Qmult_lt_0_compat; lra).
  match goal with
  | |- context [?x / ?y <? ?z] =>
      destruct (Qltb_spec (x / y) z) as [_|Hn]
  end.
  - repeat split.
  - exfalso. apply Hn. apply Qdiv_lt_denominator; lra.
Qed.

(** X14: In exact arithmetic (float64 read as a rational number: no rounding,
    overflow, underflow or NaN), for a position with positive price and fair
    value and a resulting downside risk that is not positive, the labels
    written by CalculateMetrics follow the price: "Add" exactly below
    BuyZoneMax, "Below sell zone" exactly below the sell-zone lower bound, "In
    trim zone" exactly from the lower sell bound up to the upper one, "In sell
    zone" exactly from the upper bound on, and "Sell" exactly above the upper
    bound. *)
Theorem CalculateMetrics_labels_follow_price (s : Stock) :
  let r := CalculateMetrics s in
  0 < CurrentPrice s -> 0 < FairValue s -> DownsideRisk r <= 0 ->
  (Assessment r = "Add" <-> CurrentPrice s < BuyZoneMax r) /\
  (SellZoneStatus r = "Below sell zone"
   <-> CurrentPrice s < SellZoneLowerBound r) /\
  (SellZoneStatus r = "In trim zone"
   <-> SellZoneLowerBound r <= CurrentPrice s < SellZoneUpperBound r) /\
  (SellZoneStatus r = "In sell zone"
   <-> SellZoneUpperBound r <= CurrentPrice s) /\
  (Assessment r = "Sell" <-> SellZoneUpperBound r < CurrentPrice s).
Proof.
  cbv zeta. intros Hcp Hfv.
  rewrite CalculateMetrics_DownsideRisk, CalculateMetrics_Assessment,
    CalculateMetrics_BuyZoneMax, CalculateMetrics_SellZoneStatus,
    CalculateMetrics_SellZoneLowerBound, CalculateMetrics_SellZoneUpperBound.
  intros Hd. destruct (probabilityAfter_range s) as [Hp Hp1].
  rewrite (buyMaxAfter_formula s Hfv Hd).
  destruct (sellBounds_formula s Hfv) as (Hg & -> & ->).
  unfold assessmentAfter, sellStatusAfter. rewrite Hg.
  rewrite (evAfter_forward s Hcp Hfv).
  set (p := probabilityAfter s) in *. set (d := downsideAfter s) in *.
  destruct (price_below_threshold_price (FairValue s) p d 7
              (CurrentPrice s) Hd Hcp
              (solver_denominator_pos p d 7 Hp Hp1 ltac:(lra))) as [H7 _].
  destruct (price_below_threshold_price (FairValue s) p d 3
              (CurrentPrice s) Hd Hcp
              (solver_denominator_pos p d 3 Hp Hp1 ltac:(lra))) as [H3 _].
  destruct (price_below_threshold_price (FairValue s) p d 0
              (CurrentPrice s) Hd Hcp
              (solver_denominator_pos p d 0 Hp Hp1 ltac:(lra))) as [H0 H0'].
  set (ev := expectedValueAtPrice (FairValue s) p d (CurrentPrice s)) in *.
  set (b7 := 100 * p * FairValue s / (7 + 100 * p + (1 - p) * Qabs d)) in *.
  set (b3 := 100 * p * FairValue s / (3 + 100 * p + (1 - p) * Qabs d)) in *.
  set (b0 := 100 * p * FairValue s / (0 + 100 * p + (1 - p) * Qabs d)) in *.
  assert (CurrentPrice s < b7 <-> 7 < ev) as E7 by exact H7.
  assert (CurrentPrice s < b3 <-> 3 < ev) as E3 by exact H3.
  assert (CurrentPrice s < b0 <-> 0 < ev) as E0 by exact H0.
  assert (CurrentPrice s <= b0 <-> 0 <= ev) as E0' by exact H0'.
  clear H7 H3 H0 H0'.
  assert (b0 < CurrentPrice s <-> ev < 0) as Eneg.
  { split; intros H.
    - destruct (Qlt_le_dec ev 0); [assumption|].
      assert (CurrentPrice s <= b0) by (by apply E0'). lra.
    - destruct (Qlt_le_dec b0 (CurrentPrice s)) as [|Hle]; [assumption|].
      apply E0' in Hle. lra. }
  assert (b3 <= CurrentPrice s <-> ev <= 3) as E3'.
  { split; intros H.
    - destruct (Qlt_le_dec 3 ev) as [Hlt|]; [|assumption].
      apply E3 in Hlt. lra.
    - destruct (Qlt_le_dec (CurrentPrice s) b3) as [Hlt|]; [|assumption].
      apply E3 in Hlt. lra. }
  assert (b0 <= CurrentPrice s <-> ev <= 0) as E0''.
  { split; intros H.
    - destruct (Qlt_le_dec 0 ev) as [Hlt|]; [|assumption].
      apply E0 in Hlt. lra.
    - destruct (Qlt_le_dec (CurrentPrice s) b0) as [Hlt|]; [|assumption].
      apply E0 in Hlt. lra. }
  rewrite E7, E3, E3', E0, E0'', Eneg.
  qcases; cbn [andb]; repeat split; intros; try discriminate; try lra;
    reflexivity.
Qed.

Lemma CalculateMetrics_labels_follow_price_witness :
  let r := CalculateMetrics freshA in
  (0 < CurrentPrice freshA /\ 0 < FairValue freshA /\ DownsideRisk r <= 0) /\
  SellZoneStatus r = "Below sell zone" /\
  CurrentPrice freshA < SellZoneLowerBound r.
Proof.
  cbv zeta.
  assert (0 < CurrentPrice freshA) as Hcp by qclosed.
  assert (0 < FairValue freshA) as Hfv by qclosed.
  assert (DownsideRisk (CalculateMetrics freshA) <= 0) as Hd by qclosed.
  assert (SellZoneStatus (CalculateMetrics freshA) = "Below sell zone")
    as Hs by reflexivity.
  split; [split; [exact Hcp|split; [exact Hfv|exact Hd]]|].
  split; [exact Hs|].
  pose proof (CalculateMetrics_labels_follow_price freshA) as H.
  cbv zeta in H. destruct (H Hcp Hfv Hd) as (_ & Hbelow & _).
  exact (proj1 Hbelow Hs).
Defined.

(** X15: In exact arithmetic (float64 read as a rational number: no rounding,
    overflow, underflow or NaN), for a position with positive price and fair
    value and a negative resulting downside risk, the sell zone written by
    CalculateMetrics is the one CalculateSellZoneResult returns for the
    position's fair value, sanitised probability, downside risk and price:
    same bounds, status and expected value, with a nil error. *)
Theorem CalculateMetrics_sell_zone_is_query (s : Stock) :
  let r := CalculateMetrics s in
  let q :=
    CalculateSellZoneResult (Ticker s) (FairValue r) (ProbabilityPositive r)
      (DownsideRisk r) (CurrentPrice r) in
  0 < CurrentPrice s -> 0 < FairValue s -> DownsideRisk r < 0 ->
  snd q = None /\
  SellZone.LowerBound (SellZoneCalculationResult.SellZone (fst q))
  = SellZoneLowerBound r /\
  SellZone.UpperBound (SellZoneCalculationResult.SellZone (fst q))
  = SellZoneUpperBound r /\
  SellZoneCalculationResult.SellZoneStatus (fst q) = SellZoneStatus r /\
  SellZoneCalculationResult.CurrentExpectedValue (fst q) = ExpectedValue r.
Proof.
  cbv zeta. intros Hcp Hfv.
  rewrite CalculateMetrics_DownsideRisk, CalculateMetrics_FairValue,
    CalculateMetrics_ProbabilityPositive, CalculateMetrics_SellZoneStatus,
    CalculateMetrics_SellZoneLowerBound, CalculateMetrics_SellZoneUpperBound,
    CalculateMetrics_ExpectedValue.
  assert (CurrentPrice (CalculateMetrics s) = CurrentPrice s) as ->
    by (by rewrite CalculateMetrics_fields).
  intros Hd. destruct (probabilityAfter_range s) as [Hp Hp1].
  split.
  - rewrite CalculateSellZoneResult_error.
    apply validationError_spec. lra.
  - destruct (CalculateSellZoneResult_zone (Ticker s) (FairValue s)
                (probabilityAfter s) (downsideAfter s) (CurrentPrice s)
                Hp Hp1 Hd Hfv) as [_ ->].
    destruct (sellBounds_formula s Hfv) as (Hg & -> & ->).
    unfold sellStatusAfter. rewrite Hg, (evAfter_forward s Hcp Hfv).
    cbn [SellZoneCalculationResult.SellZone
         SellZoneCalculationResult.SellZoneStatus
         SellZoneCalculationResult.CurrentExpectedValue
         SellZone.LowerBound SellZone.UpperBound].
    destruct (Qltb_spec 0 (CurrentPrice s)); [|lra].
    repeat split.
Qed.

Lemma CalculateMetrics_sell_zone_is_query_witness :
  let r := CalculateMetrics freshA in
  let q :=
    CalculateSellZoneResult (Ticker freshA) (FairValue r)
      (ProbabilityPositive r) (DownsideRisk r) (CurrentPrice r) in
  (0 < CurrentPrice freshA /\ 0 < FairValue freshA /\ DownsideRisk r < 0) /\
  SellZoneCalculationResult.SellZoneStatus (fst q) = SellZoneStatus r.
Proof.
  cbv zeta.
  assert (0 < CurrentPrice freshA) as Hcp by qclosed.
  assert (0 < FairValue freshA) as Hfv by qclosed.
  assert (DownsideRisk (CalculateMetrics freshA) < 0) as Hd by qclosed.
  split; [split; [exact Hcp|split; [exact Hfv|exact Hd]]|].
  pose proof (CalculateMetrics_sell_zone_is_query freshA) as H.
  cbv zeta in H. destruct (H Hcp Hfv Hd) as (_ & _ & _ & Hs & _).
  exact Hs.
Defined.

(** X16: In exact arithmetic (float64 read as a rational number: no rounding,
    overflow, underflow or NaN), for a positive fair value the Assessment and
    the SellZoneStatus written by CalculateMetrics agree except on the
    boundaries: Add goes with "Below sell zone"; Hold goes with "Below sell
    zone", except for an expected value of exactly 3, which is Hold but "In
    trim zone"; Trim goes with "In trim zone", except for an expected value of
    exactly 0, which is Trim but "In sell zone"; and Sell goes with "In sell
    zone". *)
Theorem CalculateMetrics_assessment_and_status (s : Stock) :
  let r := CalculateMetrics s in
  0 < FairValue s ->
  (Assessment r = "Add" -> SellZoneStatus r = "Below sell zone") /\
  (Assessment r = "Hold" ->
   SellZoneStatus r = "Below sell zone" \/
   (ExpectedValue r == 3 /\ SellZoneStatus r = "In trim zone")) /\
  (Assessment r = "Trim" ->
   SellZoneStatus r = "In trim zone" \/
   (ExpectedValue r == 0 /\ SellZoneStatus r = "In sell zone")) /\
  (Assessment r = "Sell" -> SellZoneStatus r = "In sell zone").
Proof.
  cbv zeta. intros Hfv.
  rewrite CalculateMetrics_Assessment, CalculateMetrics_SellZoneStatus,
    CalculateMetrics_ExpectedValue.
  destruct (sellBounds_formula s Hfv) as (Hg & _ & _).
  unfold assessmentAfter, sellStatusAfter. rewrite Hg.
  generalize (evAfter s) as ev. intros ev.
  qcases; cbn [andb]; repeat split; intros; try discriminate; try lra;
    try (left; reflexivity); try reflexivity;
    right; split; try reflexivity; lra.
Qed.

Lemma CalculateMetrics_assessment_and_status_witness :
  let r := CalculateMetrics freshA in
  0 < FairValue freshA /\ Assessment r = "Hold" /\
  (SellZoneStatus r = "Below sell zone" \/
   (ExpectedValue r == 3 /\ SellZoneStatus r = "In trim zone")).
Proof.
  cbv zeta.
  assert (0 < FairValue freshA) as Hfv by qclosed.
  assert (Assessment (CalculateMetrics freshA) = "Hold") as Ha
    by reflexivity.
  split; [exact Hfv|]. split; [exact Ha|].
  pose proof (CalculateMetrics_assessment_and_status freshA) as H.
  cbv zeta in H. destruct (H Hfv) as (_ & Hhold & _).
  exact (Hhold Ha).
Defined.

(** ** The aggregator: the two variants, weights and order *)

Lemma rangeLoop_ext_in {St A : Type} (body1 body2 : St -> nat -> A -> St)
    (l : list A) :
  (forall x, In x l -> forall st i, body1 st i x = body2 st i x) ->
  forall i st, rangeLoop body1 i l st = rangeLoop body2 i l st.
Proof.
  induction l as [|x l IH]; intros Hbody i st; [reflexivity|].
  cbn [rangeLoop]. rewrite (Hbody x (or_introl eq_refl)).
  apply IH. intros y Hy. apply Hbody. by right.
Qed.

(** X17: the aggregators of [pkg/services] and of [internal/services]
    return the same summary whenever every position with shares owned has
    a positive rate for its currency. *)
Theorem aggregators_agree_on_rated_positions (stocks : list Stock)
    (fxRates : gmap string Q) :
  (forall stock, In stock stocks -> (0 < SharesOwned stock)%Z ->
     0 < mapGet fxRates (Currency stock)) ->
  Internal.CalculatePortfolioMetrics stocks fxRates
  = CalculatePortfolioMetrics stocks fxRates.
Proof.
  intros Hrated.
  unfold Internal.CalculatePortfolioMetrics, CalculatePortfolioMetrics.
  f_equal. apply rangeLoop_ext_in.
  intros stock Hin [t vs] i.
  unfold Internal.firstPassBody, firstPassBody.
  destruct (Z.leb_spec (SharesOwned stock) 0) as [|Hs]; [reflexivity|].
  specialize (Hrated stock Hin Hs). cbv zeta.
  destruct (Qeqb_spec (mapGet fxRates (Currency stock)) 0); [lra|].
  destruct (Qleb_spec (mapGet fxRates (Currency stock)) 0); [lra|].
  reflexivity.
Qed.

Lemma aggregators_agree_on_rated_positions_witness :
  (forall stock, In stock testStocks -> (0 < SharesOwned stock)%Z ->
     0 < mapGet testRates (Currency stock)) /\
  Internal.CalculatePortfolioMetrics testStocks testRates
  = CalculatePortfolioMetrics testStocks testRates.
Proof.
  assert (forall stock, In stock testStocks -> (0 < SharesOwned stock)%Z ->
            0 < mapGet testRates (Currency stock)) as Hrated.
  { intros stock [<-|[<-|[<-|[]]]] Hs; qclosed. }
  split; [exact Hrated|].
  exact (aggregators_agree_on_rated_positions testStocks testRates Hrated).
Defined.

Lemma secondPassStep_weighted (fxRates : gmap string Q) (totalValue : Q)
    (st : Weighted) (stock : Stock) :
  secondPassStep totalValue st (valueOf fxRates stock) stock
  = if weighted fxRates totalValue stock then
      mkWeighted
        (weightedEV st + ExpectedValue stock * weightOf fxRates totalValue stock)
        (weightedVolatility st
         + Volatility stock * weightOf fxRates totalValue stock)
        (<[Sector stock :=
             mapGet (sectorWeights st) (Sector stock)
             + weightOf fxRates totalValue stock * 100]> (sectorWeights st))
        (kellyUtilization st + weightOf fxRates totalValue stock * 100)
    else st.
Proof.
  unfold secondPassStep, weighted, weightOf.
  destruct (Z.leb_spec (SharesOwned stock) 0) as [Hs|Hs]; [|reflexivity].
  assert (valueOf fxRates stock = 0) as ->.
  { unfold valueOf, included.
    destruct (Z.ltb_spec 0 (SharesOwned stock)); [lia|reflexivity]. }
  by rewrite andb_false_r.
Qed.

Lemma Qsum_app (l k : list Q) : Qsum (l ++ k) == Qsum l + Qsum k.
Proof.
  unfold Qsum. induction l as [|x l IH]; cbn [app foldr]; [lra|].
  rewrite IH. lra.
Qed.

(** What the second pass adds to its three sums. *)
Lemma weightedOf_sums (fxRates : gmap string Q) (totalValue : Q)
    (stocks : list Stock) :
  forall st,
    let counted := List.filter (weighted fxRates totalValue) stocks in
    let r := weightedOf fxRates totalValue st stocks in
    weightedEV r
    == weightedEV st
       + Qsum (map (fun stock =>
                      ExpectedValue stock * weightOf fxRates totalValue stock)
                 counted) /\
    weightedVolatility r
    == weightedVolatility st
       + Qsum (map (fun stock =>
                      Volatility stock * weightOf fxRates totalValue stock)
                 counted) /\
    kellyUtilization r
    == kellyUtilization st
       + Qsum (map (fun stock => weightOf fxRates totalValue stock * 100)
                 counted).
Proof.
  unfold weightedOf, Qsum. cbv zeta.
  induction stocks as [|stock stocks IH]; intros st;
    cbn [foldl List.filter].
  - cbn. repeat split; lra.
  - destruct (IH (secondPassStep totalValue st (valueOf fxRates stock) stock))
      as (Hev & Hvol & Hk).
    rewrite Hev, Hvol, Hk, secondPassStep_weighted.
    destruct (weighted fxRates totalValue stock); cbn; repeat split; lra.
Qed.

Lemma mapGet_add (m : gmap string Q) (sector k : string) (x : Q) :
  mapGet (<[sector := mapGet m sector + x]> m) k
  = if bool_decide (sector = k) then mapGet m k + x else mapGet m k.
Proof.
  unfold mapGet at 1. case_bool_decide as Hk.
  - subst k. by rewrite lookup_insert_eq.
  - by rewrite lookup_insert_ne.
Qed.

(** What the second pass adds to a sector, and which sectors it creates. *)
Lemma weightedOf_sector (fxRates : gmap string Q) (totalValue : Q)
    (sector : string) (stocks : list Stock) :
  forall st,
    let counted :=
      List.filter (weightedIn fxRates totalValue sector) stocks in
    let r := weightedOf fxRates totalValue st stocks in
    mapGet (sectorWeights r) sector
    == mapGet (sectorWeights st) sector
       + Qsum (map (fun stock => weightOf fxRates totalValue stock * 100)
                 counted) /\
    (sectorWeights r !! sector = None <->
     sectorWeights st !! sector = None /\ counted = []).
Proof.
  unfold weightedOf, Qsum, weightedIn. cbv zeta.
  induction stocks as [|stock stocks IH]; intros st;
    cbn [foldl List.filter].
  - cbn. split; [lra|]. split; [by intros ?|by intros [? _]].
  - destruct (IH (secondPassStep totalValue st (valueOf fxRates stock) stock))
      as [Hget Hnone].
    rewrite Hget, Hnone, secondPassStep_weighted.
    destruct (weighted fxRates totalValue stock); cbn [andb];
      [|split; [lra|reflexivity]].
    cbn [sectorWeights]. rewrite mapGet_add.
    case_bool_decide as Hk; cbn [map foldr].
    + split; [lra|]. subst sector. rewrite lookup_insert_eq.
      split; [intros [? _]; discriminate|intros [_ ?]; discriminate].
    + split; [lra|]. by rewrite lookup_insert_ne.
Qed.

Lemma weighted_spec (fxRates : gmap string Q) (totalValue : Q)
    (stock : Stock) :
  weighted fxRates totalValue stock = true
  <-> 0 < totalValue /\ 0 < valueOf fxRates stock.
Proof.
  unfold weighted. rewrite andb_true_iff.
  destruct (Qltb_spec 0 totalValue), (Qltb_spec 0 (valueOf fxRates stock));
    split; intros [? ?]; try discriminate; try lra; by split.
Qed.

Lemma filter_nil_iff {A : Type} (f : A -> bool) (l : list A) :
  List.filter f l = [] <-> forall x, In x l -> f x = false.
Proof.
  induction l as [|x l IH]; cbn [List.filter].
  - split; [intros _ ? []|reflexivity].
  - destruct (f x) eqn:E; split.
    + discriminate.
    + intros H. specialize (H x (or_introl eq_refl)). congruence.
    + intros H y [<-|Hy]; [exact E|]. by apply IH.
    + intros H. apply IH. intros y Hy. apply H. by right.
Qed.

Lemma some_true_of_not_all_false {A : Type} (f : A -> bool) (l : list A) :
  ~ (forall x, In x l -> f x = false) ->
  exists x, In x l /\ f x = true.
Proof.
  induction l as [|x l IH]; intros H.
  - exfalso. apply H. intros ? [].
  - destruct (f x) eqn:E.
    + exists x. split; [by left|exact E].
    + destruct IH as (y & Hy & Hfy).
      * intros Hall. apply H. intros z [<-|Hz]; [exact E|by apply Hall].
      * exists y. split; [by right|exact Hfy].
Qed.

(** X18: the weight of a sector in the summary is the sum of
    100 * value / total over the positions of that sector that have a
    positive value, and a sector is a key of the map exactly when the total
    is positive and some position of the sector has a positive value; so a
    position without shares, without a positive rate or without a positive
    price never creates its sector. *)
Theorem CalculatePortfolioMetrics_sector (stocks : list Stock)
    (fxRates : gmap string Q) (sector : string) :
  let m := CalculatePortfolioMetrics stocks fxRates in
  mapGet (SectorWeights m) sector
  == Qsum (map (fun stock => valueOf fxRates stock / TotalValue m * 100)
             (List.filter (weightedIn fxRates (TotalValue m) sector) stocks)) /\
  (is_Some (SectorWeights m !! sector) <->
   0 < TotalValue m /\
   exists stock, In stock stocks /\ Sector stock = sector /\
                 0 < valueOf fxRates stock).
Proof.
  cbv zeta. rewrite CalculatePortfolioMetrics_passes.
  cbn [SectorWeights TotalValue summaryOf].
  set (total := totalOf fxRates 0 stocks).
  destruct (weightedOf_sector fxRates total sector stocks
              (mkWeighted 0 0 ∅ 0)) as [Hget Hnone].
  cbv zeta in Hget, Hnone. cbn [sectorWeights] in Hget, Hnone.
  split.
  - rewrite Hget. unfold mapGet at 1. rewrite lookup_empty.
    cbn [default from_option]. unfold weightOf. lra.
  - rewrite <- not_eq_None_Some, Hnone, lookup_empty, filter_nil_iff.
    split.
    + intros H.
      destruct (some_true_of_not_all_false
                  (weightedIn fxRates total sector) stocks)
        as (stock & Hin & Hw).
      { intros Hall. apply H. by split. }
      unfold weightedIn in Hw. apply andb_true_iff in Hw as [Hw Hs].
      apply weighted_spec in Hw as [HT Hv].
      apply bool_decide_eq_true in Hs.
      split; [exact HT|]. exists stock. by repeat split.
    + intros [HT (stock & Hin & Hs & Hv)] [_ Hall].
      specialize (Hall stock Hin). unfold weightedIn in Hall.
      assert (weighted fxRates total stock = true) as Hw
        by (by apply weighted_spec).
      rewrite Hw, bool_decide_eq_true_2 in Hall by exact Hs.
      discriminate.
Qed.

Lemma weighted_average_bounds (e w : Stock -> Q) (lo hi : Q)
    (l : list Stock) :
  (forall stock, In stock l -> 0 <= w stock /\ lo <= e stock <= hi) ->
  lo * Qsum (map (fun stock => w stock * 100) l)
  <= 100 * Qsum (map (fun stock => e stock * w stock) l) /\
  100 * Qsum (map (fun stock => e stock * w stock) l)
  <= hi * Qsum (map (fun stock => w stock * 100) l).
Proof.
  unfold Qsum. induction l as [|x l IH]; intros H; cbn [map foldr].
  - lra.
  - destruct (H x (or_introl eq_refl)) as (Hw & Hlo & Hhi).
    destruct IH as [IHlo IHhi]; [intros; apply H; by right|].
    split; nra.
Qed.

(** X19: In exact arithmetic (float64 read as a rational number: no rounding,
    overflow, underflow or NaN), when the total value is positive and no
    counted position has a negative price, OverallEV and WeightedVolatility
    are weighted averages: any bounds that hold for the expected value (or
    volatility) of every position of positive value hold for the portfolio
    figure. *)
Theorem CalculatePortfolioMetrics_averages (stocks : list Stock)
    (fxRates : gmap string Q) (lo hi : Q) :
  let m := CalculatePortfolioMetrics stocks fxRates in
  (forall stock, In stock stocks -> included fxRates stock = true ->
     0 <= CurrentPrice stock) ->
  0 < TotalValue m ->
  ((forall stock, In stock stocks -> 0 < valueOf fxRates stock ->
      lo <= ExpectedValue stock <= hi) ->
   lo <= OverallEV m <= hi) /\
  ((forall stock, In stock stocks -> 0 < valueOf fxRates stock ->
      lo <= Volatility stock <= hi) ->
   lo <= WeightedVolatility m <= hi).
Proof.
  cbv zeta. rewrite CalculatePortfolioMetrics_passes.
  cbn [TotalValue OverallEV WeightedVolatility summaryOf].
  set (total := totalOf fxRates 0 stocks). intros Hprice HT.
  destruct (weightedOf_sums fxRates total stocks (mkWeighted 0 0 ∅ 0))
    as (Hev & Hvol & Hk).
  cbv zeta in Hev, Hvol, Hk.
  cbn [weightedEV weightedVolatility kellyUtilization] in Hev, Hvol, Hk.
  assert (kellyUtilization
            (weightedOf fxRates total (mkWeighted 0 0 ∅ 0) stocks) == 100)
    as H100.
  { rewrite weightedOf_kelly; [|exact HT|].
    - cbn [kellyUtilization].
      pose proof (totalOf_values fxRates stocks 0) as Hval. fold total in Hval.
      assert (Qsum (map (valueOf fxRates) stocks) == total) as -> by lra.
      field. lra.
    - intros stock Hin. apply valueOf_nonneg. by apply Hprice. }
  rewrite H100 in Hk.
  assert (forall e : Stock -> Q,
            (forall stock, In stock stocks -> 0 < valueOf fxRates stock ->
               lo <= e stock <= hi) ->
            forall stock,
              In stock (List.filter (weighted fxRates total) stocks) ->
              0 <= weightOf fxRates total stock /\ lo <= e stock <= hi)
    as Hall.
  { intros e He stock Hin. apply filter_In in Hin as [Hin Hw].
    apply weighted_spec in Hw as [_ Hv].
    split; [|by apply He].
    apply Qlt_le_weak. apply Qdiv_pos; assumption. }
  assert (Qsum (map (fun stock => weightOf fxRates total stock * 100)
                  (List.filter (weighted fxRates total) stocks)) == 100)
    as Hw by lra.
  split; intros Hbound.
  - destruct (weighted_average_bounds ExpectedValue (weightOf fxRates total)
                lo hi _ (Hall _ Hbound)) as [Hlo Hhi].
    rewrite Hw in Hlo, Hhi. rewrite Hev. lra.
  - destruct (weighted_average_bounds Volatility (weightOf fxRates total)
                lo hi _ (Hall _ Hbound)) as [Hlo Hhi].
    rewrite Hw in Hlo, Hhi. rewrite Hvol. lra.
Qed.

Lemma CalculatePortfolioMetrics_averages_witness :
  let m := CalculatePortfolioMetrics testStocks testRates in
  0 < TotalValue m /\ 1 <= OverallEV m <= 5.
Proof.
  cbv zeta.
  assert (0 < TotalValue (CalculatePortfolioMetrics testStocks testRates))
    as HT by qclosed.
  split; [exact HT|].
  pose proof (CalculatePortfolioMetrics_averages testStocks testRates 1 5)
    as H.
  cbv zeta in H.
  apply H.
  - intros stock [<-|[<-|[<-|[]]]] _; qclosed.
  - exact HT.
  - intros stock [<-|[<-|[<-|[]]]] Hv; [split; qclosed..|].
    vm_compute in Hv. discriminate.
Defined.

(** ** The order of the positions does not matter *)

Lemma Qsum_map_filter_perm (f : Stock -> Q) (g : Stock -> bool)
    (l l' : list Stock) :
  Permutation l l' ->
  Qsum (map f (List.filter g l)) == Qsum (map f (List.filter g l')).
Proof.
  unfold Qsum. induction 1 as [|x l l' _ IH|x y l|l l' l'' _ IH1 _ IH2];
    cbn [List.filter].
  - reflexivity.
  - destruct (g x); cbn [map foldr]; rewrite IH; reflexivity.
  - destruct (g x), (g y); cbn [map foldr]; lra.
  - by rewrite IH1.
Qed.

Lemma Qsum_map_perm (f : Stock -> Q) (l l' : list Stock) :
  Permutation l l' -> Qsum (map f l) == Qsum (map f l').
Proof.
  unfold Qsum. induction 1 as [|x l l' _ IH|x y l|l l' l'' _ IH1 _ IH2];
    cbn [map foldr]; lra.
Qed.

Lemma Qsum_map_ext (f g : Stock -> Q) (l : list Stock) :
  (forall x, f x == g x) -> Qsum (map f l) == Qsum (map g l).
Proof.
  intros H. unfold Qsum. induction l as [|x l IH]; cbn [map foldr];
    [reflexivity|]. by rewrite IH, H.
Qed.

Lemma filter_nil_perm (g : Stock -> bool) (l l' : list Stock) :
  Permutation l l' -> (List.filter g l = [] <-> List.filter g l' = []).
Proof.
  intros Hperm. rewrite !filter_nil_iff. split; intros H x Hx; apply H.
  - by apply (Permutation_in _ (Permutation_sym Hperm)).
  - by apply (Permutation_in _ Hperm).
Qed.

Lemma Qltb_Qeq (x y y' : Q) : y == y' -> (x <? y) = (x <? y').
Proof.
  intros H. destruct (Qltb_spec x y), (Qltb_spec x y'); try reflexivity; lra.
Qed.

Lemma weighted_Qeq (fxRates : gmap string Q) (t t' : Q) (stock : Stock) :
  t == t' -> weighted fxRates t stock = weighted fxRates t' stock.
Proof. intros H. unfold weighted. by rewrite (Qltb_Qeq 0 t t' H). Qed.

Lemma weightedIn_Qeq (fxRates : gmap string Q) (t t' : Q) (sector : string)
    (stock : Stock) :
  t == t' ->
  weightedIn fxRates t sector stock = weightedIn fxRates t' sector stock.
Proof. intros H. unfold weightedIn. by rewrite (weighted_Qeq _ t t' _ H). Qed.

Lemma weightOf_Qeq (fxRates : gmap string Q) (t t' : Q) (stock : Stock) :
  t == t' -> weightOf fxRates t stock == weightOf fxRates t' stock.
Proof. intros H. unfold weightOf. by rewrite H. Qed.

(** The summary in closed form: every number is a sum over the list that
    does not depend on the order of the list. *)
Lemma CalculatePortfolioMetrics_closed_form (stocks : list Stock)
    (fxRates : gmap string Q) :
  let m := CalculatePortfolioMetrics stocks fxRates in
  let total := Qsum (map (valueOf fxRates) stocks) in
  let counted := List.filter (weighted fxRates total) stocks in
  TotalValue m == total /\
  OverallEV m
  == Qsum (map (fun stock =>
                  ExpectedValue stock * weightOf fxRates total stock)
             counted) /\
  WeightedVolatility m
  == Qsum (map (fun stock =>
                  Volatility stock * weightOf fxRates total stock) counted) /\
  KellyUtilization m
  == Qsum (map (fun stock => weightOf fxRates total stock * 100) counted) /\
  (forall sector,
     mapGet (SectorWeights m) sector
     == Qsum (map (fun stock => weightOf fxRates total stock * 100)
                (List.filter (weightedIn fxRates total sector) stocks)) /\
     (SectorWeights m !! sector = None <->
      List.filter (weightedIn fxRates total sector) stocks = [])).
Proof.
  cbv zeta. rewrite CalculatePortfolioMetrics_passes.
  cbn [TotalValue OverallEV WeightedVolatility KellyUtilization SectorWeights
       summaryOf].
  pose proof (totalOf_values fxRates stocks 0) as Hval.
  set (t := totalOf fxRates 0 stocks) in *.
  set (t' := Qsum (map (valueOf fxRates) stocks)) in *.
  assert (t == t') as Ht by lra.
  destruct (weightedOf_sums fxRates t stocks (mkWeighted 0 0 ∅ 0))
    as (Hev & Hvol & Hk).
  cbv zeta in Hev, Hvol, Hk.
  cbn [weightedEV weightedVolatility kellyUtilization] in Hev, Hvol, Hk.
  assert (List.filter (weighted fxRates t) stocks
          = List.filter (weighted fxRates t') stocks) as Hf
    by (apply filter_ext; intros; by apply weighted_Qeq).
  rewrite Hf in Hev, Hvol, Hk.
  split; [exact Ht|]. split; [|split; [|split]].
  - rewrite Hev, Qplus_0_l. apply Qsum_map_ext.
    intros x. by rewrite (weightOf_Qeq _ t t' _ Ht).
  - rewrite Hvol, Qplus_0_l. apply Qsum_map_ext.
    intros x. by rewrite (weightOf_Qeq _ t t' _ Ht).
  - rewrite Hk, Qplus_0_l. apply Qsum_map_ext.
    intros x. by rewrite (weightOf_Qeq _ t t' _ Ht).
  - intros sector.
    destruct (weightedOf_sector fxRates t sector stocks (mkWeighted 0 0 ∅ 0))
      as [Hget Hnone].
    cbv zeta in Hget, Hnone. cbn [sectorWeights] in Hget, Hnone.
    assert (List.filter (weightedIn fxRates t sector) stocks
            = List.filter (weightedIn fxRates t' sector) stocks) as Hfs
      by (apply filter_ext; intros; by apply weightedIn_Qeq).
    rewrite Hfs in Hget, Hnone. split.
    + rewrite Hget. unfold mapGet at 1. rewrite lookup_empty.
      cbn [default from_option]. rewrite Qplus_0_l. apply Qsum_map_ext.
      intros x. by rewrite (weightOf_Qeq _ t t' _ Ht).
    + rewrite Hnone, lookup_empty. split; [by intros [_ ?]|by split].
Qed.

(** X20: In exact arithmetic (float64 read as a rational number: no rounding,
    overflow, underflow or NaN), the summary of CalculatePortfolioMetrics does
    not depend on the order of the positions: for a permutation of the list
    every number is the same, every sector has the same weight and the sector
    maps have the same keys. *)
Theorem CalculatePortfolioMetrics_permutation (stocks stocks' : list Stock)
    (fxRates : gmap string Q) :
  Permutation stocks stocks' ->
  let m := CalculatePortfolioMetrics stocks fxRates in
  let m' := CalculatePortfolioMetrics stocks' fxRates in
  TotalValue m == TotalValue m' /\
  OverallEV m == OverallEV m' /\
  WeightedVolatility m == WeightedVolatility m' /\
  SharpeRatio m == SharpeRatio m' /\
  KellyUtilization m == KellyUtilization m' /\
  (forall sector,
     mapGet (SectorWeights m) sector == mapGet (SectorWeights m') sector /\
     (SectorWeights m !! sector = None <->
      SectorWeights m' !! sector = None)).
Proof.
  intros Hperm. cbv zeta.
  destruct (CalculatePortfolioMetrics_closed_form stocks fxRates)
    as (HT & Hev & Hvol & Hk & Hsec).
  destruct (CalculatePortfolioMetrics_closed_form stocks' fxRates)
    as (HT' & Hev' & Hvol' & Hk' & Hsec').
  cbv zeta in *.
  pose proof (Qsum_map_perm (valueOf fxRates) _ _ Hperm) as Ht.
  set (t := Qsum (map (valueOf fxRates) stocks)) in *.
  set (t' := Qsum (map (valueOf fxRates) stocks')) in *.
  assert (List.filter (weighted fxRates t') stocks'
          = List.filter (weighted fxRates t) stocks') as Hf
    by (apply filter_ext; intros; apply weighted_Qeq; lra).
  assert (forall (e : Stock -> Q),
            Qsum (map (fun stock => e stock * weightOf fxRates t' stock)
                    (List.filter (weighted fxRates t') stocks'))
            == Qsum (map (fun stock => e stock * weightOf fxRates t stock)
                       (List.filter (weighted fxRates t) stocks))) as Hsum.
  { intros e. rewrite Hf.
    transitivity
      (Qsum (map (fun stock => e stock * weightOf fxRates t stock)
               (List.filter (weighted fxRates t) stocks'))).
    - apply Qsum_map_ext. intros x.
      rewrite (weightOf_Qeq _ t' t x); [reflexivity|lra].
    - symmetry. by apply Qsum_map_filter_perm. }
  assert (OverallEV (CalculatePortfolioMetrics stocks fxRates)
          == OverallEV (CalculatePortfolioMetrics stocks' fxRates)) as Eev
    by (by rewrite Hev, Hev', Hsum).
  assert (WeightedVolatility (CalculatePortfolioMetrics stocks fxRates)
          == WeightedVolatility (CalculatePortfolioMetrics stocks' fxRates))
    as Evol by (by rewrite Hvol, Hvol', Hsum).
  split; [lra|]. split; [exact Eev|]. split; [exact Evol|].
  split; [|split].
  - rewrite !CalculatePortfolioMetrics_passes in *.
    cbn [SharpeRatio OverallEV WeightedVolatility summaryOf] in *.
    rewrite (Qltb_Qeq 0 _ _ Evol).
    match goal with
    | |- context [0 <? ?v] => destruct (Qltb_spec 0 v)
    end; [|reflexivity].
    by rewrite Eev, Evol.
  - rewrite Hk, Hk', Hf.
    transitivity
      (Qsum (map (fun stock => weightOf fxRates t stock * 100)
               (List.filter (weighted fxRates t) stocks'))).
    + by apply Qsum_map_filter_perm.
    + apply Qsum_map_ext. intros x. by rewrite (weightOf_Qeq _ t t' x).
  - intros sector. destruct (Hsec sector) as [Hget Hnone].
    destruct (Hsec' sector) as [Hget' Hnone'].
    assert (List.filter (weightedIn fxRates t' sector) stocks'
            = List.filter (weightedIn fxRates t sector) stocks') as Hfs
      by (apply filter_ext; intros; apply weightedIn_Qeq; lra).
    rewrite Hfs in Hget', Hnone'. split.
    + rewrite Hget, Hget'.
      transitivity
        (Qsum (map (fun stock => weightOf fxRates t stock * 100)
                 (List.filter (weightedIn fxRates t sector) stocks'))).
      * by apply Qsum_map_filter_perm.
      * apply Qsum_map_ext. intros x. by rewrite (weightOf_Qeq _ t t' x).
    + rewrite Hnone, Hnone'. by apply filter_nil_perm.
Qed.

Lemma CalculatePortfolioMetrics_permutation_witness :
  Permutation testStocks (rev testStocks) /\
  OverallEV (CalculatePortfolioMetrics testStocks testRates)
  == OverallEV (CalculatePortfolioMetrics (rev testStocks) testRates).
Proof.
  assert (Permutation testStocks (rev testStocks)) as Hperm
    by apply Permutation_rev.
  split; [exact Hperm|].
  pose proof (CalculatePortfolioMetrics_permutation testStocks
                (rev testStocks) testRates Hperm) as H.
  cbv zeta in H. exact (proj1 (proj2 H)).
Defined.

(** * The older engines *)

(** ** The engine of [internal/services] *)

(** The functions of [fieldsAfter] read no sell-zone field. *)
Lemma fieldsAfter_sell_zone (s : Stock) (lo hi : Q) (status : string) :
  fieldsAfter
    (set_SellZoneStatus status
       (set_SellZoneUpperBound hi (set_SellZoneLowerBound lo s)))
  = fieldsAfter s.
Proof. destruct s. reflexivity. Qed.

(** Steps 1 to 9 compute the values of [fieldsAfter] and leave the sell
    zone as it was. *)
Lemma Internal_CalculateMetrics_fields (s : Stock) :
  Internal.CalculateMetrics s
  = set_SellZoneStatus (SellZoneStatus s)
      (set_SellZoneUpperBound (SellZoneUpperBound s)
         (set_SellZoneLowerBound (SellZoneLowerBound s) (fieldsAfter s))).
Proof.
  unfold Internal.CalculateMetrics. cbv zeta. destruct s.
  rewrite step1_assign; after_assign.
  match goal with |- context [downsideAfter ?r] => set (d := downsideAfter r) end.
  rewrite step2_assign; after_assign.
  match goal with |- context [upsideAfter ?r] => set (u := upsideAfter r) end.
  rewrite step3_assign; after_assign.
  match goal with |- context [probabilityAfter ?r] => set (p := probabilityAfter r) end.
  unfold step4_bratio; after_assign.
  match goal with |- context [set_BRatio ?r] => set (b := r) end.
  unfold step5_ev; after_assign.
  match goal with |- context [set_ExpectedValue ?r] => set (e := r) end.
  rewrite step6_assign; after_assign.
  match goal with |- context [set_KellyFraction ?r] => set (k := r) end.
  rewrite step7_assign; after_assign.
  match goal with |- context [set_HalfKellySuggested ?r] => set (h := r) end.
  rewrite step8_assign; after_assign.
  match goal with |- context [set_Assessment ?r] => set (a := r) end.
  rewrite step9_assign; cbv zeta; after_assign.
  reflexivity.
Qed.

(** X21: the engine of [internal/services] writes the values the current
    engine writes in every field except the sell zone, which it never
    touches; so running the current engine on its result, or the older
    engine on a result of the current one, gives the result of the current
    engine. *)
Theorem Internal_CalculateMetrics_leaves_sell_zone (s : Stock) :
  let old := Internal.CalculateMetrics s in
  let new := CalculateMetrics s in
  (SellZoneLowerBound old = SellZoneLowerBound s /\
   SellZoneUpperBound old = SellZoneUpperBound s /\
   SellZoneStatus old = SellZoneStatus s) /\
  (DownsideRisk old = DownsideRisk new /\
   ProbabilityPositive old = ProbabilityPositive new /\
   UpsidePotential old = UpsidePotential new /\
   BRatio old = BRatio new /\
   ExpectedValue old = ExpectedValue new /\
   KellyFraction old = KellyFraction new /\
   HalfKellySuggested old = HalfKellySuggested new /\
   Assessment old = Assessment new /\
   BuyZoneMin old = BuyZoneMin new /\
   BuyZoneMax old = BuyZoneMax new) /\
  CalculateMetrics old = new /\
  Internal.CalculateMetrics new = new.
Proof.
  cbv zeta.
  rewrite Internal_CalculateMetrics_fields.
  split; [by split_and!|].
  split; [rewrite CalculateMetrics_fields; by split_and!|].
  split.
  - rewrite !CalculateMetrics_fields, fieldsAfter_sell_zone.
    apply fieldsAfter_again.
  - rewrite Internal_CalculateMetrics_fields, !CalculateMetrics_fields.
    rewrite fieldsAfter_again. reflexivity.
Qed.

(** ** The first version of [CalculateMetrics] *)

Lemma Legacy_step_downside_assign (s : Stock) :
  Legacy.step_downside s = set_DownsideRisk (legacyDownside s) s.
Proof. destruct s. unfold Legacy.step_downside, legacyDownside. cbn. step_cases. Qed.

Lemma Legacy_step_upside_assign (s : Stock) :
  Legacy.step_upside s = set_UpsidePotential (legacyUpside s) s.
Proof. destruct s. unfold Legacy.step_upside, legacyUpside. cbn. step_cases. Qed.

Lemma Legacy_step_bratio_assign (s : Stock) :
  Legacy.step_bratio s =
  set_BRatio
    (if negb (DownsideRisk s =? 0) then
       UpsidePotential s / Qabs (DownsideRisk s)
     else BRatio s) s.
Proof. destruct s. unfold Legacy.step_bratio. cbn. step_cases. Qed.

Lemma Legacy_step_kelly_assign (s : Stock) :
  Legacy.step_kelly s =
  set_KellyFraction
    (if BRatio s >? 0 then
       ((BRatio s * ProbabilityPositive s) - (1 - ProbabilityPositive s))
       / BRatio s * 100
     else KellyFraction s) s.
Proof. destruct s. unfold Legacy.step_kelly. cbn. step_cases. Qed.

Lemma Legacy_step_assessment_assign (s : Stock) :
  Legacy.step_assessment s =
  set_Assessment
    (if ExpectedValue s >? 7 then "Add"
     else if ExpectedValue s >=? 3 then "Hold"
     else if ExpectedValue s >=? 0 then "Trim"
     else "Sell") s.
Proof. destruct s. unfold Legacy.step_assessment. cbn. step_cases. Qed.

Lemma Legacy_CalculateMetrics_fields (s : Stock) :
  Legacy.CalculateMetrics s = legacyFieldsAfter s.
Proof.
  unfold Legacy.CalculateMetrics. cbv zeta. destruct s.
  rewrite Legacy_step_downside_assign; after_assign.
  match goal with |- context [legacyDownside ?r] => set (d := legacyDownside r) end.
  rewrite Legacy_step_upside_assign; after_assign.
  match goal with |- context [legacyUpside ?r] => set (u := legacyUpside r) end.
  unfold Legacy.step_ev; after_assign.
  match goal with |- context [set_ExpectedValue ?r] => set (e := r) end.
  rewrite Legacy_step_bratio_assign; after_assign.
  match goal with |- context [set_BRatio ?r] => set (b := r) end.
  rewrite Legacy_step_kelly_assign; after_assign.
  match goal with |- context [set_KellyFraction ?r] => set (k := r) end.
  rewrite step7_assign; after_assign.
  match goal with |- context [set_HalfKellySuggested ?r] => set (h := r) end.
  rewrite Legacy_step_assessment_assign; after_assign.
  match goal with |- context [set_Assessment ?r] => set (a := r) end.
  rewrite step9_assign; cbv zeta; after_assign.
  reflexivity.
Qed.

Lemma legacyDownside_values (s : Stock) :
  legacyDownside s = -15.0 \/ legacyDownside s = -20.0 \/
  legacyDownside s = -25.0 \/ legacyDownside s = -30.0.
Proof.
  unfold legacyDownside.
  repeat match goal with
         | |- context [if ?c then _ else _] => destruct c
         end; auto.
Qed.

Lemma legacyDownside_magnitude (s : Stock) :
  0 < Qabs (legacyDownside s) /\
  (if Qabs (legacyDownside s) <? minDownsideMagnitude
   then minDownsideMagnitude else Qabs (legacyDownside s))
  = Qabs (legacyDownside s) /\
  (legacyDownside s =? 0) = false.
Proof.
  destruct (legacyDownside_values s) as [E|[E|[E|E]]]; rewrite E;
    (split; [reflexivity|split; reflexivity]).
Qed.

Lemma legacyDownside_calibrated (s : Stock) :
  DownsideRisk s == 0 -> 0 < Beta s -> downsideAfter s = legacyDownside s.
Proof.
  intros Hd Hb. unfold downsideAfter, legacyDownside, calibrateDownsideRisk.
  destruct (Qeqb_spec (DownsideRisk s) 0); [|contradiction].
  destruct (Qltb_spec 0 (Beta s)); [|lra].
  qcases; cbn [andb]; first [reflexivity | lra].
Qed.

Lemma upside_sign (fv price : Q) :
  0 < price -> (0 < (fv - price) / price * 100 <-> price < fv).
Proof.
  intros Hp.
  assert ((fv - price) / price * 100 == (100 * (fv - price)) / price) as E
    by (field; lra).
  rewrite E, (Qdiv_pos _ _ Hp). split; intros; lra.
Qed.

(** X22: on a position whose downside risk is not set, with a positive
    beta, a probability in (0, 1] and positive price and fair value, the
    first version of [CalculateMetrics] and the current one write the same
    downside risk, upside potential, b ratio, expected value, assessment
    and buy zone.  They differ in the Kelly fraction: the current one is the
    first one's clamped at 0 when the price is below the fair value, and
    otherwise the current one is 0 while the first version leaves the
    field as it was. *)
Theorem Legacy_CalculateMetrics_agrees (s : Stock) :
  DownsideRisk s == 0 -> 0 < Beta s ->
  0 < ProbabilityPositive s -> ProbabilityPositive s <= 1 ->
  0 < FairValue s -> 0 < CurrentPrice s ->
  let old := Legacy.CalculateMetrics s in
  let new := CalculateMetrics s in
  (DownsideRisk old = DownsideRisk new /\
   ProbabilityPositive old = ProbabilityPositive new /\
   UpsidePotential old = UpsidePotential new /\
   BRatio old = BRatio new /\
   ExpectedValue old = ExpectedValue new /\
   Assessment old = Assessment new /\
   BuyZoneMin old = BuyZoneMin new /\
   BuyZoneMax old = BuyZoneMax new) /\
  (CurrentPrice s < FairValue s ->
   KellyFraction new == Qmax 0 (KellyFraction old)) /\
  (FairValue s <= CurrentPrice s ->
   KellyFraction new = 0 /\ KellyFraction old = KellyFraction s).
Proof.
  intros Hd Hb Hp Hp1 Hfv Hcp. cbv zeta.
  rewrite Legacy_CalculateMetrics_fields, CalculateMetrics_fields.
  cbn [legacyFieldsAfter fieldsAfter DownsideRisk ProbabilityPositive
       UpsidePotential BRatio ExpectedValue Assessment BuyZoneMin BuyZoneMax
       KellyFraction].
  pose proof (legacyDownside_calibrated s Hd Hb) as Ed.
  destruct (legacyDownside_magnitude s) as (Hmag & Em & Enz).
  assert (probabilityAfter s = ProbabilityPositive s) as Ep.
  { unfold probabilityAfter.
    destruct (Qleb_spec (ProbabilityPositive s) 0); [lra|].
    destruct (Qltb_spec 1 (ProbabilityPositive s)); [lra|]. reflexivity. }
  assert (upsideAfter s = legacyUpside s) as Eu.
  { unfold upsideAfter, legacyUpside.
    destruct (Qltb_spec 0 (CurrentPrice s)); [|lra].
    destruct (Qltb_spec 0 (FairValue s)); [|lra]. reflexivity. }
  assert (bratioAfter s = legacyBRatio s) as Eb.
  { unfold bratioAfter, magnitudeAfter, legacyBRatio.
    rewrite Ed, Eu, Em, Enz. reflexivity. }
  assert (evAfter s = legacyEV s) as Ee
    by (unfold evAfter, legacyEV; by rewrite Ed, Eu, Ep).
  assert (assessmentAfter s = legacyAssessment s) as Ea.
  { unfold assessmentAfter, legacyAssessment. rewrite Ee.
    qcases; cbn [andb]; first [reflexivity | lra]. }
  assert (requiredUpside s = legacyRequiredUpside s) as Er
    by (unfold requiredUpside, legacyRequiredUpside; by rewrite Ed, Ep).
  assert (buyZoneGuard s = legacyBuyZoneGuard s) as Eg
    by (unfold buyZoneGuard, legacyBuyZoneGuard; by rewrite Ep).
  assert (legacyUpside s
          = (FairValue s - CurrentPrice s) / CurrentPrice s * 100) as Elu.
  { unfold legacyUpside.
    destruct (Qltb_spec 0 (CurrentPrice s)); [reflexivity|lra]. }
  assert (legacyBRatio s = legacyUpside s / Qabs (legacyDownside s)) as Elb
    by (unfold legacyBRatio; by rewrite Enz).
  assert (0 < legacyBRatio s <-> CurrentPrice s < FairValue s) as Hsign.
  { rewrite Elb, (Qdiv_pos _ _ Hmag), Elu. by apply upside_sign. }
  split.
  { split_and!; try reflexivity; try (symmetry; assumption).
    - unfold buyMinAfter, legacyBuyMin. by rewrite Eg, Er.
    - unfold buyMaxAfter, legacyBuyMax. by rewrite Eg, Er. }
  unfold kellyAfter, rawKelly, legacyKelly. rewrite Eb, Ep.
  split.
  - intros Hlt. apply Hsign in Hlt.
    destruct (Qltb_spec 0 (legacyBRatio s)); [|lra].
    match goal with
    | |- context [?k <? 0] => destruct (Qltb_spec k 0)
    end.
    + symmetry. apply Q.max_l. lra.
    + symmetry. apply Q.max_r. lra.
  - intros Hle.
    destruct (Qltb_spec 0 (legacyBRatio s)) as [Hb'|Hb'].
    + apply Hsign in Hb'. lra.
    + split; reflexivity.
Qed.

Lemma Legacy_CalculateMetrics_agrees_witness :
  let s := legacyDerived in
  KellyFraction (CalculateMetrics s)
  == Qmax 0 (KellyFraction (Legacy.CalculateMetrics s)).
Proof.
  apply (Legacy_CalculateMetrics_agrees legacyDerived);
    first [reflexivity | discriminate].
Defined.

(** [TestCalculateMetricsDerivedValues] and
    [TestCalculateMetricsNegativeEVAssessment]. *)
Example test_legacy_CalculateMetricsDerivedValues :
  let r := Legacy.CalculateMetrics legacyDerived in
  DownsideRisk r == -25 /\ UpsidePotential r == 20 /\ BRatio r == 0.8 /\
  ExpectedValue r == 4.25 /\ KellyFraction r == 21.25 /\
  HalfKellySuggested r == 10.625 /\ Assessment r = "Hold" /\
  Qabs (BuyZoneMax r - 96.6003) <= 0.01 /\
  Qabs (BuyZoneMin r - 86.9403) <= 0.02.
Proof. cbv zeta. split_and!; qclosed. Qed.

Example test_legacy_CalculateMetricsNegativeEVAssessment :
  Assessment (Legacy.CalculateMetrics legacyNegativeEV) = "Sell".
Proof. qclosed. Qed.

(** ** The first version of the aggregator *)

Lemma Legacy_loop_total (fxRates : gmap string Q) (stocks : list Stock) :
  forall st,
    Legacy.totalValue (foldl (Legacy.loopBody fxRates) st stocks)
    == Legacy.totalValue st + Qsum (map (Legacy.valueUSD fxRates) stocks).
Proof.
  induction stocks as [|stock stocks IH]; intros st; cbn [foldl map Qsum foldr].
  - lra.
  - rewrite IH. cbn [Legacy.loopBody Legacy.totalValue].
    fold (Qsum (map (Legacy.valueUSD fxRates) stocks)). lra.
Qed.

Lemma Legacy_kelly_loop (fxRates : gmap string Q) (total : Q)
    (stocks : list Stock) :
  forall k,
    foldl (Legacy.kellyBody fxRates total) k stocks
    == k + Qsum (map (Legacy.valueUSD fxRates) stocks) / total * 100.
Proof.
  induction stocks as [|stock stocks IH]; intros k; cbn [foldl map Qsum foldr].
  - unfold Qdiv. lra.
  - rewrite IH. unfold Legacy.kellyBody.
    fold (Qsum (map (Legacy.valueUSD fxRates) stocks)).
    unfold Qdiv. lra.
Qed.

Lemma Qsum_nonneg (f : Stock -> Q) (l : list Stock) :
  (forall x, In x l -> 0 < f x) -> 0 <= Qsum (map f l).
Proof.
  induction l as [|x l IH]; intros H; cbn [map Qsum foldr]; [lra|].
  fold (Qsum (map f l)).
  pose proof (H x (or_introl eq_refl)).
  assert (0 <= Qsum (map f l)) by (apply IH; intros; apply H; by right).
  lra.
Qed.

(** The sum of the sector weights grows by 100 * value / running total at
    every position; measured against the final total it is at least the
    share of the positions added. *)
Lemma Legacy_loop_sectors (fxRates : gmap string Q) (stocks : list Stock) :
  (forall stock, In stock stocks -> 0 < Legacy.valueUSD fxRates stock) ->
  forall st,
    0 <= Legacy.totalValue st ->
    let added := Qsum (map (Legacy.valueUSD fxRates) stocks) in
    let final := foldl (Legacy.loopBody fxRates) st stocks in
    100 * added
    <= (sumValues (Legacy.sectorWeights final)
        - sumValues (Legacy.sectorWeights st))
       * (Legacy.totalValue st + added).
Proof.
  induction stocks as [|stock stocks IH]; intros Hpos st Ht;
    cbn [foldl map Qsum foldr].
  - cbv zeta. lra.
  - cbv zeta. fold (Qsum (map (Legacy.valueUSD fxRates) stocks)).
    set (v := Legacy.valueUSD fxRates stock).
    set (S' := Qsum (map (Legacy.valueUSD fxRates) stocks)).
    set (t := Legacy.totalValue st) in *.
    assert (0 < v) as Hv by (apply Hpos; by left).
    assert (0 <= S') as HS
      by (apply Qsum_nonneg; intros; apply Hpos; by right).
    set (st1 := Legacy.loopBody fxRates st stock).
    assert (Legacy.totalValue st1 == t + v) as Et by reflexivity.
    assert (sumValues (Legacy.sectorWeights st1)
            == sumValues (Legacy.sectorWeights st) + v / (t + v) * 100) as EG.
    { unfold st1, Legacy.loopBody. cbn [Legacy.sectorWeights].
      apply sumValues_add. }
    specialize (IH (fun x H => Hpos x (or_intror H)) st1).
    cbv zeta in IH. fold S' in IH.
    assert (0 <= Legacy.totalValue st1) as Ht1 by (rewrite Et; lra).
    specialize (IH Ht1). rewrite Et in IH.
    set (Gf := sumValues (Legacy.sectorWeights (foldl (Legacy.loopBody fxRates) st1 stocks))) in *.
    set (G1 := sumValues (Legacy.sectorWeights st1)) in *.
    set (G := sumValues (Legacy.sectorWeights st)) in *.
    set (a := v / (t + v) * 100) in *.
    assert (a * (t + v) == 100 * v) as Ea by (unfold a; field; lra).
    assert (0 <= a) as Ha.
    { unfold a. assert (0 < v / (t + v)) by (apply Qdiv_pos; lra). lra. }
    assert (0 <= a * S') as HaS by (by apply Qmult_le_0_compat).
    assert ((Gf - G) * (t + (v + S'))
            == (Gf - G1) * (t + v + S') + a * (t + v) + a * S') as E.
    { rewrite EG. ring. }
    rewrite E, Ea. lra.
Qed.

(** With a second position the bound is strict. *)
Lemma Legacy_loop_sectors_strict (fxRates : gmap string Q)
    (first second : Stock) (stocks : list Stock) :
  (forall stock, In stock (first :: second :: stocks) ->
     0 < Legacy.valueUSD fxRates stock) ->
  let l := first :: second :: stocks in
  let total := Qsum (map (Legacy.valueUSD fxRates) l) in
  let final :=
    foldl (Legacy.loopBody fxRates) (Legacy.mkRunning 0 0 0 ∅) l in
  100 * total < sumValues (Legacy.sectorWeights final) * total.
Proof.
  intros Hpos. cbv zeta. cbn [foldl map Qsum foldr].
  fold (Qsum (map (Legacy.valueUSD fxRates) stocks)).
  set (st0 := Legacy.mkRunning 0 0 0 ∅).
  set (st1 := Legacy.loopBody fxRates st0 first).
  set (v1 := Legacy.valueUSD fxRates first).
  set (v2 := Legacy.valueUSD fxRates second).
  set (S' := Qsum (map (Legacy.valueUSD fxRates) stocks)).
  assert (0 < v1) as Hv1 by (apply Hpos; by left).
  assert (0 < v2) as Hv2 by (apply Hpos; right; by left).
  assert (0 <= S') as HS
    by (apply Qsum_nonneg; intros; apply Hpos; right; by right).
  assert (Legacy.totalValue st1 == v1) as Et.
  { unfold st1, Legacy.loopBody. cbn [Legacy.totalValue].
    change (Legacy.totalValue st0) with 0. fold v1. lra. }
  assert (sumValues (Legacy.sectorWeights st1) == 100) as EG.
  { unfold st1, Legacy.loopBody. cbn [Legacy.sectorWeights st0].
    rewrite sumValues_add, sumValues_empty. fold v1.
    change (Legacy.totalValue st0) with 0. field. lra. }
  pose proof (Legacy_loop_sectors fxRates (second :: stocks)
                (fun x H => Hpos x (or_intror H)) st1) as H.
  cbv zeta in H. cbn [foldl map Qsum foldr] in H.
  fold (Qsum (map (Legacy.valueUSD fxRates) stocks)) in H.
  fold v2 S' in H.
  assert (0 <= Legacy.totalValue st1) as Ht1 by (rewrite Et; lra).
  specialize (H Ht1). rewrite Et, EG in H.
  set (Gf := sumValues (Legacy.sectorWeights (foldl _ _ _))) in *.
  assert (Gf * (v1 + (v2 + S'))
          == 100 * (v1 + (v2 + S')) + (Gf - 100) * (v1 + (v2 + S'))) as E
    by ring.
  rewrite E. lra.
Qed.

Lemma Qsum_pos (f : Stock -> Q) (l : list Stock) :
  l <> [] -> (forall x, In x l -> 0 < f x) -> 0 < Qsum (map f l).
Proof.
  destruct l as [|x l]; [done|]. intros _ H. cbn [map Qsum foldr].
  fold (Qsum (map f l)).
  pose proof (H x (or_introl eq_refl)).
  assert (0 <= Qsum (map f l))
    by (apply Qsum_nonneg; intros; apply H; by right).
  lra.
Qed.

(** X23: In exact arithmetic (float64 read as a rational number: no rounding,
    overflow, underflow or NaN), the first version of
    CalculatePortfolioMetrics, on a non-empty portfolio whose positions all
    have a positive value, gives a TotalValue equal to the sum of the values
    and a KellyUtilization of 100, but takes the sector weights against the
    running total, so that they sum to at least 100 and to more than 100 as
    soon as there are two positions. *)
Theorem Legacy_CalculatePortfolioMetrics_running_total (stocks : list Stock)
    (fxRates : gmap string Q) :
  stocks <> [] ->
  (forall stock, In stock stocks -> 0 < Legacy.valueUSD fxRates stock) ->
  let m := Legacy.CalculatePortfolioMetrics stocks fxRates in
  TotalValue m == Qsum (map (Legacy.valueUSD fxRates) stocks) /\
  KellyUtilization m == 100 /\
  100 <= sumValues (SectorWeights m) /\
  ((1 < length stocks)%nat -> 100 < sumValues (SectorWeights m)).
Proof.
  intros Hne Hpos. cbv zeta.
  unfold Legacy.CalculatePortfolioMetrics. cbv zeta.
  cbn [TotalValue KellyUtilization SectorWeights].
  set (st0 := Legacy.mkRunning 0 0 0 ∅).
  set (total := Qsum (map (Legacy.valueUSD fxRates) stocks)).
  assert (0 < total) as HT by (by apply Qsum_pos).
  assert (Legacy.totalValue (foldl (Legacy.loopBody fxRates) st0 stocks)
          == total) as ET.
  { rewrite Legacy_loop_total. change (Legacy.totalValue st0) with 0.
    fold total. lra. }
  split; [exact ET|].
  split.
  { rewrite Legacy_kelly_loop. fold total. rewrite ET. field. lra. }
  split.
  - pose proof (Legacy_loop_sectors fxRates stocks Hpos st0) as H.
    cbv zeta in H. fold total in H.
    change (Legacy.totalValue st0) with 0 in H.
    change (sumValues (Legacy.sectorWeights st0)) with (sumValues ∅) in H.
    rewrite sumValues_empty in H.
    specialize (H ltac:(lra)).
    apply (Qmult_le_r _ _ total HT). lra.
  - intros Hlen.
    destruct stocks as [|first [|second rest]];
      [cbn in Hlen; lia|cbn in Hlen; lia|].
    pose proof (Legacy_loop_sectors_strict fxRates first second rest Hpos)
      as H.
    cbv zeta in H. fold total st0 in H.
    apply (Qmult_lt_r _ _ total HT). exact H.
Qed.

Lemma Legacy_CalculatePortfolioMetrics_running_total_witness :
  let m := Legacy.CalculatePortfolioMetrics legacyTestStocks testRates in
  KellyUtilization m == 100 /\ 100 < sumValues (SectorWeights m).
Proof.
  cbv zeta.
  pose proof (Legacy_CalculatePortfolioMetrics_running_total
                legacyTestStocks testRates) as H.
  cbv zeta in H.
  destruct H as (_ & HK & _ & HS).
  - discriminate.
  - intros stock [<-|[<-|[]]]; qclosed.
  - split; [exact HK|]. apply HS. cbn. lia.
Defined.

(** [TestCalculatePortfolioMetrics] of
    [internal/services/calculations_test.go]. *)
Example test_legacy_CalculatePortfolioMetrics :
  let m := Legacy.CalculatePortfolioMetrics legacyTestStocks testRates in
  TotalValue m == 3000 /\
  Qabs (OverallEV m - 5.6667) <= 0.01 /\
  Qabs (WeightedVolatility m - 23.3333) <= 0.01 /\
  Qabs (SharpeRatio m - 0.243) <= 0.01 /\
  KellyUtilization m == 100 /\
  mapGet (SectorWeights m) "Tech" == 100 /\
  Qabs (mapGet (SectorWeights m) "Health" - 66.6667) <= 0.05.
Proof. cbv zeta. split_and!; qclosed. Qed.

(** * The callers of the engine *)

(** ** Conversion to and from the base currency *)

Lemma ConvertToEUR_cases (db : string -> queryResult) (amount : Q)
    (currency : string) :
  ConvertToEUR db amount currency =
  if bool_decide (currency = "EUR") then (amount, None)
  else
    match db currency with
    | Found rate =>
        if rate =? 0 then
          (0, Some ("invalid exchange rate for " +:+ currency))
        else (amount / rate, None)
    | RecordNotFound => (amount / 1.0, None)
    | QueryError err => (0, Some err)
    end.
Proof.
  unfold ConvertToEUR, GetRate.
  destruct (bool_decide (currency = "EUR")); [reflexivity|].
  destruct (db currency); reflexivity.
Qed.

Lemma ConvertFromEUR_cases (db : string -> queryResult) (amount : Q)
    (currency : string) :
  ConvertFromEUR db amount currency =
  if bool_decide (currency = "EUR") then (amount, None)
  else
    match db currency with
    | Found rate => (amount * rate, None)
    | RecordNotFound => (amount * 1.0, None)
    | QueryError err => (0, Some err)
    end.
Proof.
  unfold ConvertFromEUR, GetRate.
  destruct (bool_decide (currency = "EUR")); [reflexivity|].
  destruct (db currency); reflexivity.
Qed.

(** X24: whenever [ConvertToEUR] succeeds for a currency, so does
    [ConvertFromEUR], and the two are inverse to each other in both
    directions: an amount converted to EUR and back, or from EUR and back,
    is the amount again. *)
Theorem conversion_round_trip (db : string -> queryResult) (amount : Q)
    (currency : string) :
  snd (ConvertToEUR db amount currency) = None ->
  let there := fst (ConvertToEUR db amount currency) in
  let back := fst (ConvertFromEUR db amount currency) in
  (snd (ConvertFromEUR db there currency) = None /\
   fst (ConvertFromEUR db there currency) == amount) /\
  (snd (ConvertFromEUR db amount currency) = None /\
   snd (ConvertToEUR db back currency) = None /\
   fst (ConvertToEUR db back currency) == amount).
Proof.
  cbv zeta. rewrite !ConvertToEUR_cases, !ConvertFromEUR_cases.
  destruct (bool_decide (currency = "EUR")).
  { intros _. cbn [fst snd]. split_and!; reflexivity. }
  destruct (db currency) as [rate| |err].
  - destruct (Qeqb_spec rate 0) as [|Hr]; [discriminate|].
    intros _. cbn [fst snd]. split_and!; try reflexivity; field; exact Hr.
  - intros _. cbn [fst snd]. split_and!; try reflexivity; field.
  - discriminate.
Qed.

Lemma conversion_round_trip_witness :
  let db := fun _ : string => Found 2 in
  fst (ConvertFromEUR db (fst (ConvertToEUR db 10 "USD")) "USD") == 10.
Proof.
  cbv zeta.
  apply (conversion_round_trip (fun _ => Found 2) 10 "USD"). reflexivity.
Defined.

(** X25: when the conversions fail.  [ConvertToEUR] fails exactly when the
    currency is not EUR and its query fails or finds a rate of zero;
    [ConvertFromEUR] fails only when the query fails, so a rate of zero,
    refused on the way to EUR, turns every amount into 0 on the way back.
    A currency without a row is converted at par in both directions. *)
Theorem conversion_failures (db : string -> queryResult) (amount : Q)
    (currency : string) :
  (snd (ConvertToEUR db amount currency) <> None <->
   currency <> "EUR" /\
   ((exists err, db currency = QueryError err) \/
    (exists rate, db currency = Found rate /\ rate == 0))) /\
  (snd (ConvertFromEUR db amount currency) <> None <->
   currency <> "EUR" /\ exists err, db currency = QueryError err) /\
  (forall rate, currency <> "EUR" -> db currency = Found rate -> rate == 0 ->
     snd (ConvertFromEUR db amount currency) = None /\
     fst (ConvertFromEUR db amount currency) == 0) /\
  (db currency = RecordNotFound ->
   snd (ConvertToEUR db amount currency) = None /\
   fst (ConvertToEUR db amount currency) == amount /\
   snd (ConvertFromEUR db amount currency) = None /\
   fst (ConvertFromEUR db amount currency) == amount).
Proof.
  rewrite ConvertToEUR_cases, ConvertFromEUR_cases.
  destruct (bool_decide_reflect (currency = "EUR")) as [HE|HE].
  { cbn [fst snd]. split_and!.
    - split; [done|]. by intros [? _].
    - split; [done|]. by intros [? _].
    - done.
    - intros _. split_and!; reflexivity. }
  destruct (db currency) as [rate| |err] eqn:Edb.
  - destruct (Qeqb_spec rate 0) as [Hr|Hr]; cbn [fst snd].
    + split_and!.
      * split; [intros _|done]. split; [done|]. right. by exists rate.
      * split; [done|]. by intros [_ [? ?]].
      * intros r _ [= <-] _. split; [done|]. rewrite Hr. ring.
      * done.
    + split_and!.
      * split; [done|]. intros [_ [[? ?]|(r & [= <-] & ?)]]; done.
      * split; [done|]. by intros [_ [? ?]].
      * intros r _ [= <-] Hz. done.
      * done.
  - cbn [fst snd]. split_and!.
    + split; [done|]. intros [_ [[? ?]|(r & ? & ?)]]; done.
    + split; [done|]. by intros [_ [? ?]].
    + done.
    + intros _. split_and!; try reflexivity; field.
  - cbn [fst snd]. split_and!.
    + split; [intros _|done]. split; [done|]. left. by exists err.
    + split; [intros _|done]. split; [done|]. by exists err.
    + done.
    + done.
Qed.

(** ** The weights stored by the portfolio summary *)

Lemma updateWeight_engineFields (fxRates : gmap string Q)
    (metrics : PortfolioMetrics) (row : StockRow) :
  engineFields (updateWeight fxRates metrics row) = engineFields row.
Proof.
  unfold updateWeight. cbv zeta.
  repeat match goal with
         | |- context [if ?c then _ else _] => destruct c
         end; reflexivity.
Qed.

Lemma updateWeight_rows (fxRates : gmap string Q) (metrics : PortfolioMetrics)
    (rows : list StockRow) :
  map engineFields (map (updateWeight fxRates metrics) rows)
  = map engineFields rows.
Proof.
  induction rows as [|row rows IH]; cbn [map]; [reflexivity|].
  by rewrite updateWeight_engineFields, IH.
Qed.

(** The weight written for a position with shares, when the total is
    positive. *)
Lemma updateWeight_owned (fxRates : gmap string Q) (metrics : PortfolioMetrics)
    (row : StockRow) :
  0 < TotalValue metrics ->
  ownedRow row = true ->
  Weight (updateWeight fxRates metrics row)
  = inject_Z (SharesOwned (engineFields row))
    * CurrentPrice (engineFields row)
    / internalRate fxRates (engineFields row)
    / TotalValue metrics * 100.
Proof.
  intros HT Ho. unfold ownedRow, owned in Ho. apply Z.ltb_lt in Ho.
  unfold updateWeight, internalRate. cbv zeta.
  destruct (Z.leb_spec (SharesOwned (engineFields row)) 0); [lia|].
  destruct (Qltb_spec 0 (TotalValue metrics)); [|lra].
  reflexivity.
Qed.

Lemma valueOf_rated (fxRates : gmap string Q) (stock : Stock) :
  owned stock = true -> 0 < mapGet fxRates (Currency stock) ->
  valueOf fxRates stock
  = inject_Z (SharesOwned stock) * CurrentPrice stock
    / internalRate fxRates stock.
Proof.
  intros Ho Hr. unfold valueOf, included, positionValue, internalRate.
  unfold owned in Ho. rewrite Ho.
  destruct (Qltb_spec 0 (mapGet fxRates (Currency stock))); [|lra].
  destruct (Qeqb_spec (mapGet fxRates (Currency stock)) 0); [lra|].
  reflexivity.
Qed.

Lemma valueOf_not_owned (fxRates : gmap string Q) (stock : Stock) :
  owned stock = false -> valueOf fxRates stock = 0.
Proof.
  intros Ho. unfold valueOf, included. unfold owned in Ho. by rewrite Ho.
Qed.

(** Two filters give the same sum when the second keeps less and what it
    drops adds nothing. *)
Lemma Qsum_filter_sub {A : Type} (g : A -> Q) (f1 f2 : A -> bool)
    (l : list A) :
  (forall x, In x l -> f2 x = true -> f1 x = true) ->
  (forall x, In x l -> f1 x = true -> f2 x = false -> g x == 0) ->
  Qsum (map g (List.filter f1 l)) == Qsum (map g (List.filter f2 l)).
Proof.
  unfold Qsum. induction l as [|x l IH]; intros Hsub Hzero; [reflexivity|].
  assert (foldr Qplus 0 (map g (List.filter f1 l))
          == foldr Qplus 0 (map g (List.filter f2 l))) as E.
  { apply IH; intros; [apply Hsub|apply Hzero]; auto; by right. }
  cbn [List.filter].
  destruct (f1 x) eqn:E1, (f2 x) eqn:E2; cbn [map foldr].
  - by rewrite E.
  - rewrite (Hzero x (or_introl eq_refl) E1 E2), E. lra.
  - rewrite (Hsub x (or_introl eq_refl) E2) in E1. discriminate.
  - exact E.
Qed.

Lemma filter_all {A : Type} (l : list A) : List.filter (fun _ => true) l = l.
Proof. induction l as [|x l IH]; cbn; [reflexivity|by rewrite IH]. Qed.

Lemma Qsum_scale (f : Stock -> Q) (c : Q) (l : list Stock) :
  Qsum (map (fun x => f x / c * 100) l) == Qsum (map f l) / c * 100.
Proof.
  unfold Qsum. induction l as [|x l IH]; cbn [map foldr].
  - unfold Qdiv. ring.
  - rewrite IH. unfold Qdiv. ring.
Qed.

Lemma Qsum_pos_exists (f : Stock -> Q) (l : list Stock) :
  (forall x, In x l -> 0 <= f x) ->
  (exists x, In x l /\ 0 < f x) ->
  0 < Qsum (map f l).
Proof.
  unfold Qsum. induction l as [|x l IH]; intros Hnn (y & Hin & Hy).
  - destruct Hin.
  - cbn [map foldr].
    assert (0 <= foldr Qplus 0 (map f l)) as Hrest.
    { clear -Hnn. induction l as [|z l IH]; cbn [map foldr]; [lra|].
      pose proof (Hnn z (or_intror (or_introl eq_refl))).
      assert (0 <= foldr Qplus 0 (map f l)).
      { apply IH. intros w [<-|Hw]; apply Hnn; [by left|right; by right]. }
      lra. }
    destruct Hin as [<-|Hin]; [lra|].
    pose proof (Hnn x (or_introl eq_refl)).
    assert (0 < foldr Qplus 0 (map f l)).
    { apply IH; [intros; apply Hnn; by right|by exists y]. }
    lra.
Qed.

(** The weights written for the rows kept by a filter, as a sum over
    their positions. *)
Lemma updateWeight_sum (fxRates : gmap string Q) (metrics : PortfolioMetrics)
    (P : Stock -> bool) (rows : list StockRow) :
  0 < TotalValue metrics ->
  (forall row, In row rows -> ownedRow row = true ->
     0 < mapGet fxRates (Currency (engineFields row))) ->
  Qsum (map Weight
          (List.filter (fun row => ownedRow row && P (engineFields row))
             (map (updateWeight fxRates metrics) rows)))
  == Qsum (map (fun stock => valueOf fxRates stock / TotalValue metrics * 100)
             (List.filter (fun stock => owned stock && P stock)
                (map engineFields rows))).
Proof.
  intros HT. unfold Qsum.
  induction rows as [|row rows IH]; intros Hr; [reflexivity|].
  cbn [map List.filter].
  unfold ownedRow at 1. rewrite updateWeight_engineFields.
  specialize (IH (fun r H => Hr r (or_intror H))).
  destruct (owned (engineFields row) && P (engineFields row)) eqn:E;
    [|exact IH].
  cbn [map foldr]. rewrite IH.
  apply andb_true_iff in E as [Ho _].
  assert (0 < mapGet fxRates (Currency (engineFields row))) as Hrate
    by (apply Hr; [by left|exact Ho]).
  rewrite (updateWeight_owned _ _ _ HT Ho), (valueOf_rated _ _ Ho Hrate).
  reflexivity.
Qed.

(** X26: In exact arithmetic (float64 read as a rational number: no rounding,
    overflow, underflow or NaN), when every position with shares has a
    positive rate and no negative price and some position has a positive
    value, GetPortfolioSummary answers with the aggregator's summary and rows
    whose engine fields are unchanged, in which the weights of the positions
    with shares sum to 100 and, sector by sector, to the sector weight of the
    summary (also when the fallback rates are used). *)
Theorem GetPortfolioSummary_weights (rows : list StockRow)
    (rates : gmap string Q * error) :
  let fxRates := ratesUsed rates in
  (forall row, In row rows -> ownedRow row = true ->
     0 < mapGet fxRates (Currency (engineFields row)) /\
     0 <= CurrentPrice (engineFields row)) ->
  (exists row, In row rows /\ 0 < valueOf fxRates (engineFields row)) ->
  exists summary rows',
    GetPortfolioSummary (rows, None) rates = StatusOK summary rows' /\
    summary = CalculatePortfolioMetrics (map engineFields rows) fxRates /\
    map engineFields rows' = map engineFields rows /\
    Qsum (map Weight (List.filter ownedRow rows')) == 100 /\
    (forall sector,
       Qsum (map Weight (List.filter (ownedRowIn sector) rows'))
       == mapGet (SectorWeights summary) sector).
Proof.
  cbv zeta. intros Hrows (row0 & Hin0 & Hv0).
  set (fxRates := ratesUsed rates) in *.
  set (stocks := map engineFields rows).
  set (m := CalculatePortfolioMetrics stocks fxRates).
  exists m, (map (updateWeight fxRates m) rows).
  assert (forall stock, In stock stocks -> 0 <= valueOf fxRates stock) as Hnn.
  { intros stock Hin. apply in_map_iff in Hin as (row & <- & Hin).
    apply valueOf_nonneg. intros Hi.
    apply Hrows; [exact Hin|].
    unfold ownedRow, owned. apply included_spec in Hi as [Hs _].
    by apply Z.ltb_lt. }
  assert (TotalValue m == Qsum (map (valueOf fxRates) stocks)) as ET.
  { unfold m. rewrite CalculatePortfolioMetrics_passes.
    cbn [TotalValue summaryOf]. rewrite totalOf_values. lra. }
  assert (0 < TotalValue m) as HT.
  { rewrite ET. apply Qsum_pos_exists; [exact Hnn|].
    exists (engineFields row0). split; [|exact Hv0].
    apply in_map_iff. by exists row0. }
  split.
  { unfold GetPortfolioSummary. fold (ratesUsed rates). reflexivity. }
  split; [reflexivity|].
  split; [apply updateWeight_rows|].
  assert (forall stock, valueOf fxRates stock == 0 ->
            valueOf fxRates stock / TotalValue m * 100 == 0) as Hzero.
  { intros stock E. rewrite E. unfold Qdiv. ring. }
  split.
  - pose proof (updateWeight_sum fxRates m (fun _ => true) rows HT
                  (fun r Hin Ho => proj1 (Hrows r Hin Ho))) as E.
    assert (forall l : list StockRow,
              List.filter (fun row => ownedRow row && true) l
              = List.filter ownedRow l) as Ef.
    { intros l. apply filter_ext. intros r. apply andb_true_r. }
    rewrite Ef in E. rewrite E. fold stocks.
    rewrite <- (Qsum_filter_sub _ (fun _ => true) _ stocks).
    + rewrite filter_all, Qsum_scale, <- ET. field. lra.
    + reflexivity.
    + intros x _ _ Ho. apply Hzero.
      rewrite andb_true_r in Ho. by rewrite valueOf_not_owned.
  - intros sector.
    pose proof (updateWeight_sum fxRates m
                  (fun stock => bool_decide (Sector stock = sector)) rows HT
                  (fun r Hin Ho => proj1 (Hrows r Hin Ho))) as E.
    unfold ownedRowIn, ownedRow. rewrite E. fold stocks.
    unfold m at 2. rewrite CalculatePortfolioMetrics_passes.
    cbn [SectorWeights summaryOf].
    destruct (weightedOf_sector fxRates (totalOf fxRates 0 stocks) sector
                stocks (mkWeighted 0 0 ∅ 0)) as [Hget _].
    cbv zeta in Hget. cbn [sectorWeights] in Hget.
    rewrite Hget. unfold mapGet. rewrite lookup_empty.
    cbn [default from_option].
    assert (TotalValue m = totalOf fxRates 0 stocks) as ET'
      by (unfold m; by rewrite CalculatePortfolioMetrics_passes).
    rewrite <- ET'. unfold weightOf.
    rewrite (Qsum_filter_sub _ _ (weightedIn fxRates (TotalValue m) sector)
               stocks).
    + lra.
    + intros x _ Hw. unfold weightedIn in Hw.
      apply andb_true_iff in Hw as [Hw Hs]. rewrite Hs, andb_true_r.
      apply weighted_spec in Hw as [_ Hv].
      destruct (owned x) eqn:Ho; [reflexivity|].
      rewrite valueOf_not_owned in Hv by exact Ho. lra.
    + intros x Hin Hf Hw. apply Hzero.
      apply andb_true_iff in Hf as [Ho Hs].
      unfold weightedIn in Hw. rewrite Hs, andb_true_r in Hw.
      pose proof (Hnn x Hin) as Hx.
      destruct (Qlt_le_dec 0 (valueOf fxRates x)) as [Hpos|Hle]; [|lra].
      assert (weighted fxRates (TotalValue m) x = true) as Hw'
        by (by apply weighted_spec).
      congruence.
Qed.

Lemma GetPortfolioSummary_weights_witness :
  exists summary rows',
    GetPortfolioSummary (testRows, None) (testRates, None)
    = StatusOK summary rows' /\
    Qsum (map Weight (List.filter ownedRow rows')) == 100.
Proof.
  destruct (GetPortfolioSummary_weights testRows (testRates, None))
    as (summary & rows' & Hok & _ & _ & Hsum & _).
  - intros row Hin Ho. cbn in Hin.
    destruct Hin as [<-|[<-|[<-|[]]]]; [split; qclosed..|].
    vm_compute in Ho. discriminate.
  - eexists. split; [left; reflexivity|]. qclosed.
  - exists summary, rows'. split; assumption.
Defined.

(** X27: In exact arithmetic (float64 read as a rational number: no rounding,
    overflow, underflow or NaN), a position with shares whose currency has no
    (or a zero) rate is left out of the aggregator's total, yet
    GetPortfolioSummary computes its weight with the rate 1 against that
    total: with a positive price and a positive total the row is stored with
    the weight shares * price / total * 100, which is positive. *)
Theorem GetPortfolioSummary_unrated_position (rows : list StockRow)
    (rates : gmap string Q * error) (row : StockRow) :
  let fxRates := ratesUsed rates in
  let stock := engineFields row in
  let summary := CalculatePortfolioMetrics (map engineFields rows) fxRates in
  In row rows -> ownedRow row = true ->
  mapGet fxRates (Currency stock) == 0 ->
  0 < CurrentPrice stock ->
  0 < TotalValue summary ->
  valueOf fxRates stock = 0 /\
  exists rows' row',
    GetPortfolioSummary (rows, None) rates = StatusOK summary rows' /\
    In row' rows' /\ engineFields row' = stock /\
    Weight row'
    == inject_Z (SharesOwned stock) * CurrentPrice stock
       / TotalValue summary * 100 /\
    0 < Weight row'.
Proof.
  cbv zeta. intros Hin Ho Hrate Hprice HT.
  set (fxRates := ratesUsed rates) in *.
  set (m := CalculatePortfolioMetrics (map engineFields rows) fxRates) in *.
  set (stock := engineFields row) in *.
  split.
  { unfold valueOf, included.
    destruct (Qltb_spec 0 (mapGet fxRates (Currency stock))); [lra|].
    by rewrite andb_false_r. }
  exists (map (updateWeight fxRates m) rows), (updateWeight fxRates m row).
  split.
  { unfold GetPortfolioSummary. fold (ratesUsed rates). reflexivity. }
  split; [by apply in_map|].
  split; [apply updateWeight_engineFields|].
  rewrite (updateWeight_owned _ _ _ HT Ho). fold stock.
  assert (internalRate fxRates stock = 1.0) as Er.
  { unfold internalRate.
    destruct (Qeqb_spec (mapGet fxRates (Currency stock)) 0);
      [reflexivity|contradiction]. }
  rewrite Er.
  assert (0 < inject_Z (SharesOwned stock)) as Hs.
  { unfold ownedRow, owned in Ho. apply Z.ltb_lt in Ho. fold stock in Ho.
    change 0 with (inject_Z 0). rewrite <- Zlt_Qlt. exact Ho. }
  assert (0 < inject_Z (SharesOwned stock) * CurrentPrice stock) as Hv
    by (by apply Qmult_lt_0_compat).
  split; [field; lra|].
  assert (0 < inject_Z (SharesOwned stock) * CurrentPrice stock / 1.0
              / TotalValue m) as Hw.
  { apply Qdiv_pos; [exact HT|]. apply Qdiv_pos; [reflexivity|exact Hv]. }
  lra.
Qed.

Lemma GetPortfolioSummary_unrated_position_witness :
  exists rows' row',
    GetPortfolioSummary (testRowsUnrated, None) (testRates, None)
    = StatusOK
        (CalculatePortfolioMetrics (map engineFields testRowsUnrated)
           testRates) rows' /\
    In row' rows' /\ 0 < Weight row'.
Proof.
  destruct (GetPortfolioSummary_unrated_position testRowsUnrated
              (testRates, None) unratedRow)
    as (_ & rows' & row' & Hok & Hin & _ & _ & Hw).
  - cbn. auto.
  - reflexivity.
  - reflexivity.
  - reflexivity.
  - qclosed.
  - exists rows', row'. split_and!; assumption.
Defined.

(** ** The scheduled update of a position *)

(** What a successful update has done. *)
Lemma updateStock_Updated
    (FetchStockPrice : string -> Q * error)
    (FetchGrokCalculations : Stock -> Stock * error)
    (db : string -> queryResult) (Save : StockRow -> error)
    (settings : PortfolioSettings) (formatFloat : Q -> string)
    (row saved : StockRow) (alerts : list Alert) :
  updateStock FetchStockPrice FetchGrokCalculations db Save settings
    formatFloat row = Updated saved alerts ->
  exists price fetched valueEUR costEUR usdRate,
    let oldEV := ExpectedValue (engineFields row) in
    let stock := CalculateMetrics fetched in
    FetchStockPrice (Ticker (engineFields row)) = (price, None) /\
    FetchGrokCalculations (set_CurrentPrice price (engineFields row))
    = (fetched, None) /\
    ConvertToEUR db (inject_Z (SharesOwned stock) * CurrentPrice stock)
      (Currency stock) = (valueEUR, None) /\
    ConvertToEUR db (inject_Z (SharesOwned stock) * AvgPriceLocal stock)
      (Currency stock) = (costEUR, None) /\
    GetRate db "USD" = (usdRate, None) /\ 0 < usdRate /\
    saved = mkStockRow stock (Weight row) (valueEUR * usdRate)
              ((valueEUR - costEUR) * usdRate) /\
    Save saved = None /\
    alerts
    = (if AlertsEnabled settings
          && ((ExpectedValue stock - oldEV >? AlertThresholdEV settings)
              || (ExpectedValue stock - oldEV <? - AlertThresholdEV settings))
       then
         [mkAlert (Ticker stock) "ev_change"
            ("EV changed from " +:+ formatFloat oldEV +:+ "% to "
             +:+ formatFloat (ExpectedValue stock) +:+ "%")
            false]
       else [])
      ++ (if (CurrentPrice stock >=? BuyZoneMin stock)
             && (CurrentPrice stock <=? BuyZoneMax stock)
          then
            [mkAlert (Ticker stock) "buy_zone"
               (Ticker stock +:+ " is in buy zone at "
                +:+ formatFloat (CurrentPrice stock))
               false]
          else []).
Proof.
  unfold updateStock. cbv zeta. unfold orReturn.
  destruct (FetchStockPrice _) as [price [e|]] eqn:Ep; [discriminate|].
  destruct (FetchGrokCalculations _) as [fetched [e|]] eqn:Ef;
    [discriminate|].
  remember (CalculateMetrics fetched) as stock eqn:Estock.
  destruct (ConvertToEUR db (_ * CurrentPrice stock) _)
    as [valueEUR [e|]] eqn:Ev; [discriminate|].
  destruct (ConvertToEUR db (_ * AvgPriceLocal stock) _)
    as [costEUR [e|]] eqn:Ec; [discriminate|].
  destruct (GetRate db "USD") as [usdRate err] eqn:Eu.
  destruct err as [e|]; cbn [orb bool_decide].
  { rewrite bool_decide_eq_true_2 by done. discriminate. }
  rewrite bool_decide_eq_false_2 by (intros H; by apply H).
  cbn [orb].
  destruct (Qleb_spec usdRate 0) as [|Hu]; [discriminate|].
  destruct (Save _) as [e|] eqn:Es; [discriminate|].
  intros [= <- <-].
  exists price, fetched, valueEUR, costEUR, usdRate. cbv zeta.
  rewrite <- Estock.
  split_and!;
    [first [exact Ep|reflexivity]|first [exact Ef|reflexivity]|exact Ev
    |exact Ec|first [exact Eu|reflexivity]|lra|reflexivity|exact Es|].
  destruct (AlertsEnabled settings && _), (_ && _); reflexivity.
Qed.

(** The price stands at or below the buy-zone maximum exactly when the
    expected value is at least 7. *)
Lemma buy_zone_and_ev (s : Stock) :
  let r := CalculateMetrics s in
  0 < CurrentPrice r -> 0 < FairValue r -> DownsideRisk r <= 0 ->
  (CurrentPrice r <= BuyZoneMax r <-> 7 <= ExpectedValue r) /\
  (CurrentPrice r < BuyZoneMax r <-> 7 < ExpectedValue r) /\
  BuyZoneMin r == BuyZoneMax r * 0.9.
Proof.
  cbv zeta. rewrite CalculateMetrics_fields.
  cbn [fieldsAfter CurrentPrice FairValue DownsideRisk BuyZoneMax BuyZoneMin
       ExpectedValue].
  intros Hcp Hfv Hd. destruct (probabilityAfter_range s) as [Hp Hp1].
  assert (buyMinAfter s == buyMaxAfter s * 0.9) as Emin.
  { unfold buyMinAfter, buyMaxAfter. rewrite (buyZoneGuard_true s Hfv).
    assert (requiredUpside s * probabilityAfter s
            == 7 - (1 - probabilityAfter s) * downsideAfter s) as Hru
      by (unfold requiredUpside; field; lra).
    assert (-100 < requiredUpside s) as Hgt by nra.
    destruct (Qltb_spec (-100) (requiredUpside s)); [|lra].
    set (x := FairValue s / _). lra. }
  rewrite Emin, (buyMaxAfter_formula s Hfv Hd), (evAfter_forward s Hcp Hfv).
  destruct (price_below_threshold_price (FairValue s) (probabilityAfter s)
              (downsideAfter s) 7 (CurrentPrice s) Hd Hcp
              (solver_denominator_pos _ _ 7 Hp Hp1 ltac:(lra))) as [Hlt Hle].
  split; [exact Hle|]. split; [exact Hlt|]. reflexivity.
Qed.

Lemma raised_app (type : string) (l k : list Alert) :
  raised type (l ++ k) <-> raised type l \/ raised type k.
Proof.
  unfold raised. split.
  - intros (a & Hin & Ha). apply in_app_or in Hin as [Hin|Hin];
      [left|right]; by exists a.
  - intros [(a & Hin & Ha)|(a & Hin & Ha)]; exists a;
      (split; [apply in_or_app; auto|exact Ha]).
Qed.

Lemma raised_one (type : string) (c : bool) (alert : Alert) :
  raised type (if c then [alert] else [])
  <-> c = true /\ AlertType alert = type.
Proof.
  unfold raised. destruct c.
  - split.
    + intros (a & [<-|[]] & Ha). by split.
    + intros [_ Ha]. exists alert. split; [by left|exact Ha].
  - split; [intros (a & [] & _)|intros [? _]; discriminate].
Qed.

Lemma threshold_exceeded (x t : Q) :
  (t <? x) || (x <? - t) = true <-> t < Qabs x.
Proof.
  rewrite orb_true_iff.
  destruct (Qltb_spec t x), (Qltb_spec x (- t)); apply Qabs_case; intros;
    split; intros; try lra; try (left; reflexivity); try (right; reflexivity);
    try (destruct H as [H|H]; discriminate); auto.
Qed.

(** X28: In a successful updateStock an ev_change alert is created exactly
    when alerts are enabled and the expected value moved by more than the
    threshold, and a buy_zone alert exactly when BuyZoneMin <= price <=
    BuyZoneMax, whatever the settings. In exact arithmetic (float64 read as a
    rational number: no rounding, overflow, underflow or NaN), for positive
    price and fair value and a downside risk that is not positive, a buy_zone
    alert implies an expected value of at least 7 and the assessment Add or
    Hold, and a position assessed Add without the alert has a price below
    BuyZoneMin. *)
Theorem updateStock_alerts
    (FetchStockPrice : string -> Q * error)
    (FetchGrokCalculations : Stock -> Stock * error)
    (db : string -> queryResult) (Save : StockRow -> error)
    (settings : PortfolioSettings) (formatFloat : Q -> string)
    (row saved : StockRow) (alerts : list Alert) :
  updateStock FetchStockPrice FetchGrokCalculations db Save settings
    formatFloat row = Updated saved alerts ->
  let stock := engineFields saved in
  (raised "ev_change" alerts <->
   AlertsEnabled settings = true /\
   AlertThresholdEV settings
   < Qabs (ExpectedValue stock - ExpectedValue (engineFields row))) /\
  (raised "buy_zone" alerts <->
   BuyZoneMin stock <= CurrentPrice stock <= BuyZoneMax stock) /\
  (0 < CurrentPrice stock -> 0 < FairValue stock -> DownsideRisk stock <= 0 ->
   (raised "buy_zone" alerts ->
    7 <= ExpectedValue stock /\
    (Assessment stock = "Add" \/ Assessment stock = "Hold")) /\
   (Assessment stock = "Add" -> ~ raised "buy_zone" alerts ->
    CurrentPrice stock < BuyZoneMin stock)).
Proof.
  intros Hup.
  apply updateStock_Updated in Hup
    as (price & fetched & valueEUR & costEUR & usdRate & H).
  cbv zeta in H.
  destruct H as (_ & _ & _ & _ & _ & _ & -> & _ & ->).
  cbv zeta. cbn [engineFields].
  set (stock := CalculateMetrics fetched).
  match goal with
  | |- (?R <-> ?C) /\ _ => assert (R <-> C) as Hev; [|split; [exact Hev|]]
  end.
  { rewrite raised_app, !raised_one. cbn [AlertType].
    rewrite andb_true_iff, threshold_exceeded.
    split; [intros [[? _]|[_ ?]]; [assumption|discriminate]|].
    intros ?. left. by split. }
  match goal with
  | |- (?R <-> _) /\ _ => assert (R <->
        BuyZoneMin stock <= CurrentPrice stock <= BuyZoneMax stock) as Hbuy
  end.
  { rewrite raised_app, !raised_one. cbn [AlertType].
    rewrite !andb_true_iff.
    rewrite <- !(reflect_iff _ _ (Qleb_spec _ _)).
    split; [intros [[_ ?]|[? _]]; [discriminate|assumption]|].
    intros ?. right. by split. }
  split; [exact Hbuy|].
  intros Hcp Hfv Hd.
  destruct (buy_zone_and_ev fetched Hcp Hfv Hd) as (Hle & Hlt & Emin).
  fold stock in Hle, Hlt, Emin.
  assert (Assessment stock = "Add" <-> 7 < ExpectedValue stock) as HAdd.
  { unfold stock. rewrite CalculateMetrics_Assessment,
      CalculateMetrics_ExpectedValue. unfold assessmentAfter.
    qcases; cbn [andb]; split; intros; try discriminate; try lra;
      reflexivity. }
  assert (7 <= ExpectedValue stock ->
          Assessment stock = "Add" \/ Assessment stock = "Hold") as HHold.
  { unfold stock. rewrite CalculateMetrics_Assessment,
      CalculateMetrics_ExpectedValue. unfold assessmentAfter.
    qcases; cbn [andb]; intros; try lra; auto. }
  split.
  - intros Hr. apply Hbuy in Hr as [_ Hmax]. apply Hle in Hmax.
    split; [exact Hmax|by apply HHold].
  - intros HA Hno. apply HAdd, Hlt in HA.
    destruct (Qlt_le_dec (CurrentPrice stock) (BuyZoneMin stock)) as [|Hge];
      [assumption|].
    exfalso. apply Hno, Hbuy. split; lra.
Qed.

Lemma updateStock_alerts_witness :
  exists saved alerts,
    updateStock priceFetched estimatesKept noRates saveSucceeds
      alertSettings noFormat scheduledRow = Updated saved alerts /\
    raised "buy_zone" alerts /\
    7 <= ExpectedValue (engineFields saved).
Proof.
  assert (exists saved alerts,
            updateStock priceFetched estimatesKept noRates saveSucceeds
      alertSettings noFormat scheduledRow = Updated saved alerts /\
            (BuyZoneMin (engineFields saved) <= CurrentPrice (engineFields saved)
             <= BuyZoneMax (engineFields saved)) /\
            0 < CurrentPrice (engineFields saved) /\
            0 < FairValue (engineFields saved) /\
            DownsideRisk (engineFields saved) <= 0)
    as (saved & alerts & E & Hin & Hcp & Hfv & Hd).
  { eexists _, _. split; [vm_compute; reflexivity|].
    split; [split; qclosed|]. split_and!; qclosed. }
  exists saved, alerts. split; [exact E|].
  destruct (updateStock_alerts _ _ _ _ _ _ _ _ _ E) as (_ & Hbuy & Hzone).
  apply Hbuy in Hin. split; [exact Hin|].
  by apply Hzone.
Defined.

(** A successful conversion divides by a rate that is not zero; it is
    positive when the table holds no negative rate for the currency. *)
Lemma ConvertToEUR_rate (db : string -> queryResult) (currency : string)
    (amount value : Q) :
  ConvertToEUR db amount currency = (value, None) ->
  (forall rate, db currency = Found rate -> 0 <= rate) ->
  exists rate,
    0 < rate /\
    forall amount' value',
      ConvertToEUR db amount' currency = (value', None) ->
      value' == amount' / rate.
Proof.
  rewrite ConvertToEUR_cases. intros H Hnn.
  destruct (bool_decide (currency = "EUR")) eqn:HE.
  - exists 1. split; [reflexivity|]. intros a v.
    rewrite ConvertToEUR_cases, HE. intros [= <-]. field.
  - destruct (db currency) as [rate| |err] eqn:Edb; [| |discriminate].
    + destruct (Qeqb_spec rate 0) as [|Hr]; [discriminate|].
      exists rate. split; [specialize (Hnn rate eq_refl); lra|].
      intros a v. rewrite ConvertToEUR_cases, HE, Edb.
      destruct (Qeqb_spec rate 0); [contradiction|]. intros [= <-].
      reflexivity.
    + exists 1. split; [reflexivity|]. intros a v.
      rewrite ConvertToEUR_cases, HE, Edb. intros [= <-]. field.
Qed.

Lemma Qmult_pos_sign (k x : Q) :
  0 < k -> (0 < k * x <-> 0 < x) /\ (k * x < 0 <-> x < 0).
Proof. intros Hk. split; split; intros H; nra. Qed.

(** Signs of the value and of the profit of a position with shares,
    converted at a positive rate. *)
Lemma value_and_profit_signs (shares rate usdRate price cost valueEUR costEUR : Q) :
  0 < shares -> 0 < rate -> 0 < usdRate ->
  valueEUR == shares * price / rate ->
  costEUR == shares * cost / rate ->
  (0 < valueEUR * usdRate <-> 0 < price) /\
  (0 < (valueEUR - costEUR) * usdRate <-> cost < price) /\
  ((valueEUR - costEUR) * usdRate < 0 <-> price < cost).
Proof.
  intros HS Hr Hu Ev Ec. rewrite Ev, Ec.
  assert (0 < shares / rate * usdRate) as Hk.
  { apply Qmult_lt_0_compat; [|exact Hu]. by apply Qdiv_pos. }
  assert (shares * price / rate * usdRate
          == shares / rate * usdRate * price) as E1 by (field; lra).
  assert ((shares * price / rate - shares * cost / rate) * usdRate
          == shares / rate * usdRate * (price - cost)) as E2 by (field; lra).
  rewrite E1, E2.
  destruct (Qmult_pos_sign _ price Hk) as [Hp _].
  destruct (Qmult_pos_sign _ (price - cost) Hk) as [Hpos Hneg].
  rewrite Hp, Hpos, Hneg. split_and!; split; intros; lra.
Qed.

(** X29: The row a successful updateStock saves has engine fields that
    CalculateMetrics leaves unchanged, and keeps its weight. In exact
    arithmetic (float64 read as a rational number: no rounding, overflow,
    underflow or NaN), for a position with shares whose currency has no
    negative rate, CurrentValueUSD is positive exactly when the price is, and
    UnrealizedPnL is positive exactly when the price is above the average cost
    and negative exactly when it is below. *)
Theorem updateStock_saved_row
    (FetchStockPrice : string -> Q * error)
    (FetchGrokCalculations : Stock -> Stock * error)
    (db : string -> queryResult) (Save : StockRow -> error)
    (settings : PortfolioSettings) (formatFloat : Q -> string)
    (row saved : StockRow) (alerts : list Alert) :
  updateStock FetchStockPrice FetchGrokCalculations db Save settings
    formatFloat row = Updated saved alerts ->
  let stock := engineFields saved in
  (CalculateMetrics stock = stock /\ Weight saved = Weight row) /\
  ((0 < SharesOwned stock)%Z ->
   (forall rate, db (Currency stock) = Found rate -> 0 <= rate) ->
   (0 < CurrentValueUSD saved <-> 0 < CurrentPrice stock) /\
   (0 < UnrealizedPnL saved <-> AvgPriceLocal stock < CurrentPrice stock) /\
   (UnrealizedPnL saved < 0 <-> CurrentPrice stock < AvgPriceLocal stock)).
Proof.
  intros Hup.
  apply updateStock_Updated in Hup
    as (price & fetched & valueEUR & costEUR & usdRate & H).
  cbv zeta in H.
  destruct H as (_ & _ & Hv & Hc & _ & Hu & -> & _ & _).
  cbv zeta. cbn [engineFields Weight CurrentValueUSD UnrealizedPnL].
  split.
  { split; [|reflexivity].
    rewrite !CalculateMetrics_fields. apply fieldsAfter_again. }
  intros Hs Hnn.
  destruct (ConvertToEUR_rate _ _ _ _ Hv Hnn) as (rate & Hr & Hconv).
  apply (value_and_profit_signs
           (inject_Z (SharesOwned (CalculateMetrics fetched))) rate).
  - change 0 with (inject_Z 0). by rewrite <- Zlt_Qlt.
  - exact Hr.
  - exact Hu.
  - exact (Hconv _ _ Hv).
  - exact (Hconv _ _ Hc).
Qed.

Lemma updateStock_saved_row_witness :
  exists saved alerts,
    updateStock priceFetched estimatesKept noRates saveSucceeds
      alertSettings noFormat scheduledRow = Updated saved alerts /\
    CalculateMetrics (engineFields saved) = engineFields saved /\
    0 < UnrealizedPnL saved.
Proof.
  assert (exists saved alerts,
            updateStock priceFetched estimatesKept noRates saveSucceeds
              alertSettings noFormat scheduledRow = Updated saved alerts /\
            (0 < SharesOwned (engineFields saved))%Z /\
            AvgPriceLocal (engineFields saved)
            < CurrentPrice (engineFields saved))
    as (saved & alerts & E & Hs & Hlt).
  { eexists _, _. split; [vm_compute; reflexivity|]. split; qclosed. }
  exists saved, alerts. split; [exact E|].
  destruct (updateStock_saved_row _ _ _ _ _ _ _ _ _ E) as ([Hfix _] & Hval).
  split; [exact Hfix|].
  apply Hval; [exact Hs|discriminate|exact Hlt].
Defined.

(** ** The base currency of the rates *)

Lemma mapGet_scale (fxRates : gmap string Q) (k : Q) (currency : string) :
  mapGet ((fun rate => rate * k) <$> fxRates) currency
  == mapGet fxRates currency * k.
Proof.
  unfold mapGet. rewrite lookup_fmap.
  destruct (fxRates !! currency); cbn [fmap option_fmap option_map default
                                       from_option id]; lra.
Qed.

Lemma Qltb_scale (x k : Q) : 0 < k -> (0 <? x * k) = (0 <? x).
Proof.
  intros Hk. destruct (Qltb_spec 0 (x * k)), (Qltb_spec 0 x);
    try reflexivity; exfalso; nra.
Qed.

Lemma Qltb_unscale (x k : Q) : 0 < k -> (0 <? x / k) = (0 <? x).
Proof.
  intros Hk. pose proof (Qdiv_pos x k Hk) as H.
  destruct (Qltb_spec 0 (x / k)), (Qltb_spec 0 x); try reflexivity;
    exfalso; tauto.
Qed.

Lemma included_scale (fxRates : gmap string Q) (k : Q) (stock : Stock) :
  0 < k ->
  included ((fun rate => rate * k) <$> fxRates) stock
  = included fxRates stock.
Proof.
  intros Hk. unfold included.
  rewrite (Qltb_Qeq 0 _ _ (mapGet_scale fxRates k (Currency stock))).
  by rewrite Qltb_scale.
Qed.

Lemma valueOf_scale (fxRates : gmap string Q) (k : Q) (stock : Stock) :
  0 < k ->
  valueOf ((fun rate => rate * k) <$> fxRates) stock
  == valueOf fxRates stock / k.
Proof.
  intros Hk. unfold valueOf. rewrite included_scale by exact Hk.
  destruct (included fxRates stock) eqn:E; [|unfold Qdiv; ring].
  unfold positionValue. rewrite mapGet_scale.
  apply andb_true_iff in E as [_ E].
  destruct (Qltb_spec 0 (mapGet fxRates (Currency stock))); [|discriminate].
  field. split; lra.
Qed.

Lemma Qsum_map_eq (f g : Stock -> Q) (c : Q) (l : list Stock) :
  (forall x, f x == g x / c) ->
  Qsum (map f l) == Qsum (map g l) / c.
Proof.
  intros H. unfold Qsum. induction l as [|x l IH]; cbn [map foldr].
  - unfold Qdiv. ring.
  - rewrite IH, H. unfold Qdiv. ring.
Qed.

Lemma Qdiv_zero (v t : Q) : t == 0 -> v / t == 0.
Proof. intros H. unfold Qdiv. rewrite H. change (/ 0) with 0. ring. Qed.

Lemma weighted_scale (fxRates : gmap string Q) (k t t' : Q) (stock : Stock) :
  0 < k -> t' == t / k ->
  weighted ((fun rate => rate * k) <$> fxRates) t' stock
  = weighted fxRates t stock.
Proof.
  intros Hk Ht. unfold weighted.
  rewrite (Qltb_Qeq 0 _ _ Ht), (Qltb_Qeq 0 _ _ (valueOf_scale _ k stock Hk)).
  by rewrite !Qltb_unscale.
Qed.

Lemma weightOf_scale (fxRates : gmap string Q) (k t t' : Q) (stock : Stock) :
  0 < k -> t' == t / k ->
  weightOf ((fun rate => rate * k) <$> fxRates) t' stock
  == weightOf fxRates t stock.
Proof.
  intros Hk Ht. unfold weightOf.
  rewrite Ht, (valueOf_scale _ k stock Hk).
  destruct (Qeq_dec t 0) as [Hz|Hz].
  - rewrite (Qdiv_zero (valueOf fxRates stock) t Hz).
    apply Qdiv_zero. rewrite Hz. unfold Qdiv. ring.
  - field. split; [exact Hz|lra].
Qed.

(** X30: In exact arithmetic (float64 read as a rational number: no rounding,
    overflow, underflow or NaN), the summary of CalculatePortfolioMetrics does
    not depend on the currency the rates are quoted against: multiplying every
    rate by the same positive factor divides TotalValue by that factor and
    leaves OverallEV, WeightedVolatility, SharpeRatio, KellyUtilization and
    every sector weight (and the keys of SectorWeights) unchanged. *)
Theorem CalculatePortfolioMetrics_base_currency (stocks : list Stock)
    (fxRates : gmap string Q) (k : Q) :
  0 < k ->
  let m := CalculatePortfolioMetrics stocks fxRates in
  let m' :=
    CalculatePortfolioMetrics stocks ((fun rate => rate * k) <$> fxRates) in
  TotalValue m' == TotalValue m / k /\
  OverallEV m' == OverallEV m /\
  WeightedVolatility m' == WeightedVolatility m /\
  SharpeRatio m' == SharpeRatio m /\
  KellyUtilization m' == KellyUtilization m /\
  (forall sector,
     mapGet (SectorWeights m') sector == mapGet (SectorWeights m) sector /\
     (SectorWeights m' !! sector = None <->
      SectorWeights m !! sector = None)).
Proof.
  intros Hk. cbv zeta.
  set (fxRates' := (fun rate => rate * k) <$> fxRates).
  destruct (CalculatePortfolioMetrics_closed_form stocks fxRates)
    as (HT & Hev & Hvol & Hkelly & Hsec).
  destruct (CalculatePortfolioMetrics_closed_form stocks fxRates')
    as (HT' & Hev' & Hvol' & Hkelly' & Hsec').
  cbv zeta in *.
  set (t := Qsum (map (valueOf fxRates) stocks)) in *.
  set (t' := Qsum (map (valueOf fxRates') stocks)) in *.
  assert (t' == t / k) as Ht
    by (apply Qsum_map_eq; intros; by apply valueOf_scale).
  assert (forall stock, weighted fxRates' t' stock = weighted fxRates t stock)
    as Hw by (intros; by apply weighted_scale).
  assert (forall stock, weightOf fxRates' t' stock == weightOf fxRates t stock)
    as Hwo by (intros; by apply weightOf_scale).
  assert (List.filter (weighted fxRates' t') stocks
          = List.filter (weighted fxRates t) stocks) as Hf
    by (apply filter_ext; exact Hw).
  rewrite Hf in Hev', Hvol', Hkelly'.
  assert (OverallEV (CalculatePortfolioMetrics stocks fxRates')
          == OverallEV (CalculatePortfolioMetrics stocks fxRates)) as Eev.
  { rewrite Hev, Hev'. apply Qsum_map_ext. intros x. by rewrite Hwo. }
  assert (WeightedVolatility (CalculatePortfolioMetrics stocks fxRates')
          == WeightedVolatility (CalculatePortfolioMetrics stocks fxRates))
    as Evol.
  { rewrite Hvol, Hvol'. apply Qsum_map_ext. intros x. by rewrite Hwo. }
  split; [by rewrite HT, HT'|]. split; [exact Eev|]. split; [exact Evol|].
  split; [|split].
  - rewrite !CalculatePortfolioMetrics_passes in *.
    cbn [SharpeRatio OverallEV WeightedVolatility summaryOf] in *.
    rewrite (Qltb_Qeq 0 _ _ Evol).
    match goal with
    | |- context [0 <? ?v] => destruct (Qltb_spec 0 v)
    end; [|reflexivity].
    by rewrite Eev, Evol.
  - rewrite Hkelly, Hkelly'. apply Qsum_map_ext. intros x. by rewrite Hwo.
  - intros sector. destruct (Hsec sector) as [Hget Hnone].
    destruct (Hsec' sector) as [Hget' Hnone'].
    assert (List.filter (weightedIn fxRates' t' sector) stocks
            = List.filter (weightedIn fxRates t sector) stocks) as Hfs.
    { apply filter_ext. intros x. unfold weightedIn. by rewrite Hw. }
    rewrite Hfs in Hget', Hnone'. split.
    + rewrite Hget, Hget'. apply Qsum_map_ext. intros x. by rewrite Hwo.
    + by rewrite Hnone, Hnone'.
Qed.

Lemma CalculatePortfolioMetrics_base_currency_witness :
  TotalValue
    (CalculatePortfolioMetrics testStocks
       ((fun rate => rate * 2) <$> testRates))
  == TotalValue (CalculatePortfolioMetrics testStocks testRates) / 2.
Proof.
  apply (CalculatePortfolioMetrics_base_currency testStocks testRates 2).
  reflexivity.
Defined.

(** * Properties of the engine in binary64 *)

(** ** Comparisons of binary64 numbers

    The comparisons of the processor are specified on [spec_float], the
    sign, mantissa and exponent of a number; NaN compares with nothing. *)
Section Binary64Comparisons.
Import PrimFloat SpecFloat FloatOps FloatAxioms.
Local Open Scope float_scope.

Lemma SFcompare_swap (x y : spec_float) :
  SFcompare y x = option_map CompOpp (SFcompare x y).
Proof.
  destruct x as [sx|sx| |sx mx ex], y as [sy|sy| |sy my ey]; cbn;
    try reflexivity;
    try (destruct sx; reflexivity); try (destruct sy; reflexivity);
    try (destruct sx, sy; reflexivity).
  destruct sx, sy; cbn; try reflexivity; f_equal;
    rewrite (Z.compare_antisym ex ey);
    destruct (ex ?= ey)%Z; cbn; try reflexivity;
    rewrite (Pos.compare_cont_antisym mx my Eq); cbn;
    destruct (Pos.compare_cont Eq my mx); reflexivity.
Qed.

Lemma is_nan_spec (x : float) :
  is_nan x = true <-> Prim2SF x = S754_nan.
Proof.
  unfold is_nan. rewrite eqb_spec. unfold SFeqb.
  destruct (Prim2SF x) as [s|s| |s m e]; cbn.
  - split; discriminate.
  - destruct s; split; discriminate.
  - split; reflexivity.
  - destruct s; rewrite Z.compare_refl, Pos.compare_cont_refl; cbn;
      split; discriminate.
Qed.

(** [x <= y] excludes [y < x]. *)
Lemma leb_not_gtb (x y : float) : (x <=? y) = true -> (y <? x) = false.
Proof.
  rewrite leb_spec, ltb_spec. unfold SFleb, SFltb.
  rewrite (SFcompare_swap (Prim2SF x) (Prim2SF y)).
  destruct (SFcompare (Prim2SF x) (Prim2SF y)) as [[ | | ]|]; cbn;
    first [reflexivity | discriminate].
Qed.

(** When [x < y] is false, [y <= x] or one of the two is NaN. *)
Lemma ltb_false (x y : float) :
  (x <? y) = false ->
  (y <=? x) = true \/ is_nan x = true \/ is_nan y = true.
Proof.
  rewrite leb_spec, ltb_spec, !is_nan_spec. unfold SFleb, SFltb.
  rewrite (SFcompare_swap (Prim2SF x) (Prim2SF y)).
  destruct (SFcompare (Prim2SF x) (Prim2SF y)) as [[ | | ]|] eqn:E; cbn;
    intros H; try discriminate; auto.
  right. destruct (Prim2SF x), (Prim2SF y); cbn in E; auto; discriminate.
Qed.


(** ** Signs of binary64 numbers *)

Lemma leb_zero_notPositive (x : float) :
  (x <=? 0) = true -> notPositive (Prim2SF x).
Proof.
  rewrite leb_spec. change (Prim2SF 0) with (S754_zero false).
  unfold SFleb. destruct (Prim2SF x) as [s|s| |s m e]; cbn; auto;
    destruct s; auto; discriminate.
Qed.







End Binary64Comparisons.

(** ** The ten steps in binary64

    The proofs of the exact model go through unchanged: they only follow
    the branches. *)
Section Binary64Steps.
Import PrimFloat Binary64 Binary64Fields.
Local Open Scope float_scope.
Local Set Warnings "-inexact-float".

Lemma step1_assign64 (s : Stock) :
  step1_calibrate s = set_DownsideRisk (downsideAfter s) s.
Proof. destruct s. unfold step1_calibrate, downsideAfter. cbn. step_cases. Qed.

Lemma step2_assign64 (s : Stock) :
  step2_upside s = set_UpsidePotential (upsideAfter s) s.
Proof. destruct s. unfold step2_upside, upsideAfter. cbn. step_cases. Qed.

Lemma step3_assign64 (s : Stock) :
  step3_probability s = set_ProbabilityPositive (probabilityAfter s) s.
Proof. destruct s. unfold step3_probability, probabilityAfter. cbn. step_cases. Qed.

Lemma step6_assign64 (s : Stock) :
  step6_kelly s =
  set_KellyFraction
    (if BRatio s >? 0 then
       let k := ((BRatio s * ProbabilityPositive s)
                 - (1 - ProbabilityPositive s)) / BRatio s * 100 in
       if k <? 0 then 0 else k
     else 0) s.
Proof. destruct s. unfold step6_kelly. cbn. step_cases. Qed.

Lemma step7_assign64 (s : Stock) :
  step7_halfKelly s =
  set_HalfKellySuggested
    (if KellyFraction s / 2 >? 15 then 15 else KellyFraction s / 2) s.
Proof. destruct s. unfold step7_halfKelly. cbn. step_cases. Qed.

Lemma step8_assign64 (s : Stock) :
  step8_assessment s =
  set_Assessment
    (if ExpectedValue s >? 7 then "Add"
     else if (ExpectedValue s >=? 3) && (ExpectedValue s <=? 7) then "Hold"
     else if (ExpectedValue s >=? 0) && (ExpectedValue s <? 3) then "Trim"
     else "Sell") s.
Proof. destruct s. unfold step8_assessment. cbn. step_cases. Qed.

Lemma step9_assign64 (s : Stock) :
  step9_buyZone s =
  let guard := (FairValue s >? 0) && (ProbabilityPositive s >? 0) in
  let required :=
    (7.0 - (1 - ProbabilityPositive s) * DownsideRisk s)
    / ProbabilityPositive s in
  set_BuyZoneMin
    (if guard then
       if required >? -100 then FairValue s / (1 + required / 100) * 0.90
       else CurrentPrice s * 0.85
     else BuyZoneMin s)
    (set_BuyZoneMax
       (if guard then
          if required >? -100 then FairValue s / (1 + required / 100)
          else CurrentPrice s * 0.95
        else BuyZoneMax s) s).
Proof. destruct s. unfold step9_buyZone. cbn. step_cases. Qed.

Lemma step10_assign64 (s : Stock) :
  step10_sellZone s =
  let trim :=
    solvePriceForEVThreshold (FairValue s) (ProbabilityPositive s)
      (DownsideRisk s) 3 in
  let sell :=
    solvePriceForEVThreshold (FairValue s) (ProbabilityPositive s)
      (DownsideRisk s) 0 in
  let guard := snd trim && snd sell && (fst trim <? fst sell) in
  set_SellZoneStatus
    (if guard then
       if ExpectedValue s >? 3 then "Below sell zone"
       else if ExpectedValue s >? 0 then "In trim zone"
       else "In sell zone"
     else "no sell zone")
    (set_SellZoneUpperBound (if guard then fst sell else 0)
       (set_SellZoneLowerBound (if guard then fst trim else 0) s)).
Proof.
  destruct s. unfold step10_sellZone. cbn [FairValue ProbabilityPositive DownsideRisk ExpectedValue].
  destruct (solvePriceForEVThreshold _ _ _ 3) as [lo okTrim].
  destruct (solvePriceForEVThreshold _ _ _ 0) as [hi okSell].
  cbn. step_cases.
Qed.

Local Ltac after_assign64 :=
  cbn [set_DownsideRisk set_ProbabilityPositive set_UpsidePotential set_BRatio
       set_ExpectedValue set_KellyFraction set_HalfKellySuggested
       set_Assessment set_BuyZoneMin set_BuyZoneMax set_SellZoneLowerBound
       set_SellZoneUpperBound set_SellZoneStatus
       Ticker Sector Currency CurrentPrice FairValue Beta ProbabilityPositive
       DownsideRisk SharesOwned AvgPriceLocal Volatility UpsidePotential
       BRatio ExpectedValue KellyFraction HalfKellySuggested Assessment
       BuyZoneMin BuyZoneMax SellZoneLowerBound SellZoneUpperBound
       SellZoneStatus].

Theorem CalculateMetrics_fields64 (s : Stock) :
  CalculateMetrics s = fieldsAfter s.
Proof.
  unfold CalculateMetrics. cbv zeta. destruct s.
  rewrite step1_assign64; after_assign64.
  match goal with |- context [downsideAfter ?r] => set (d := downsideAfter r) end.
  rewrite step2_assign64; after_assign64.
  match goal with |- context [upsideAfter ?r] => set (u := upsideAfter r) end.
  rewrite step3_assign64; after_assign64.
  match goal with |- context [probabilityAfter ?r] => set (p := probabilityAfter r) end.
  unfold step4_bratio; after_assign64.
  match goal with |- context [set_BRatio ?r] => set (b := r) end.
  unfold step5_ev; after_assign64.
  match goal with |- context [set_ExpectedValue ?r] => set (e := r) end.
  rewrite step6_assign64; after_assign64.
  match goal with |- context [set_KellyFraction ?r] => set (k := r) end.
  rewrite step7_assign64; after_assign64.
  match goal with |- context [set_HalfKellySuggested ?r] => set (h := r) end.
  rewrite step8_assign64; after_assign64.
  match goal with |- context [set_Assessment ?r] => set (a := r) end.
  rewrite step9_assign64; cbv zeta; after_assign64.
  rewrite step10_assign64; cbv zeta; after_assign64.
  reflexivity.
Qed.

End Binary64Steps.

(** ** The clamps of the Kelly fraction in binary64 *)

Section Binary64Claims.
Import PrimFloat SpecFloat FloatOps FloatAxioms.
Local Open Scope float_scope.
Local Set Warnings "-inexact-float".

(** C5, as the code has it.  In binary64, with b the computed b-ratio and
    p the sanitised probability, the Kelly fraction is
    ((b*p) - (1-p))/b*100 clamped below at 0 when b > 0, and 0 when b <= 0
    and whenever b > 0 is false; so it is never below 0, and it is at least
    0 unless it is NaN.  The half-Kelly weight is Kelly/2 capped at 15; so
    it is never above 15, it is at most 15 unless it is NaN, and it equals
    Kelly/2 whenever that is at most 15.  In exact arithmetic the Kelly
    fraction is at least 0 and the half-Kelly weight at most 15 for every
    input. *)
Theorem CalculateMetrics_kelly_float64 :
  (forall s : Binary64.Stock,
     let r := Binary64.CalculateMetrics s in
     let b := Binary64.BRatio r in
     let p := Binary64.ProbabilityPositive r in
     let kelly := Binary64.KellyFraction r in
     let half := Binary64.HalfKellySuggested r in
     let raw := ((b * p) - (1 - p)) / b * 100 in
     ((0 <? b) = true -> kelly = if raw <? 0 then 0 else raw) /\
     ((b <=? 0) = true -> kelly = 0) /\
     ((0 <? b) = false -> kelly = 0) /\
     (kelly <? 0) = false /\
     ((0 <=? kelly) = true \/ is_nan kelly = true) /\
     half = (if 15 <? kelly / 2 then 15 else kelly / 2) /\
     (15 <? half) = false /\
     ((half <=? 15) = true \/ is_nan half = true) /\
     ((kelly / 2 <=? 15) = true -> half = kelly / 2)) /\
  (forall s : Stock,
     let r := CalculateMetrics s in
     let b := BRatio r in
     let p := ProbabilityPositive r in
     ((0 < b)%Q ->
      (KellyFraction r == Qmax 0 (((b * p) - (1 - p)) / b * 100))%Q) /\
     ((b <= 0)%Q -> (KellyFraction r == 0)%Q) /\
     (0 <= KellyFraction r)%Q /\
     (HalfKellySuggested r == Qmin (KellyFraction r / 2) 15)%Q /\
     (HalfKellySuggested r <= 15)%Q /\
     ((KellyFraction r / 2 <= 15)%Q ->
      (HalfKellySuggested r == KellyFraction r / 2)%Q)).
Proof.
  split; [|exact CalculateMetrics_kelly].
  intros s. cbv zeta. rewrite CalculateMetrics_fields64.
  cbn [Binary64Fields.fieldsAfter Binary64.BRatio Binary64.KellyFraction
       Binary64.ProbabilityPositive Binary64.HalfKellySuggested].
  unfold Binary64Fields.halfKellyAfter.
  set (kelly := Binary64Fields.kellyAfter s).
  assert (kelly
          = if 0 <? Binary64Fields.bratioAfter s then
              if Binary64Fields.rawKelly s <? 0 then 0
              else Binary64Fields.rawKelly s
            else 0) as Ek by reflexivity.
  change (Binary64Fields.rawKelly s)
    with ((Binary64Fields.bratioAfter s * Binary64Fields.probabilityAfter s
           - (1 - Binary64Fields.probabilityAfter s))
          / Binary64Fields.bratioAfter s * 100) in Ek.
  set (b := Binary64Fields.bratioAfter s) in *.
  set (p := Binary64Fields.probabilityAfter s) in *.
  set (raw := (b * p - (1 - p)) / b * 100) in *.
  assert ((kelly <? 0) = false) as Hk.
  { rewrite Ek. destruct (0 <? b); [|reflexivity].
    destruct (raw <? 0) eqn:E; [reflexivity|exact E]. }
  assert ((15 <? (if 15 <? kelly / 2 then 15 else kelly / 2)) = false) as Hh.
  { destruct (15 <? kelly / 2) eqn:E; [reflexivity|exact E]. }
  split_and!.
  - intros Hb. by rewrite Ek, Hb.
  - intros Hb. apply leb_not_gtb in Hb. by rewrite Ek, Hb.
  - intros Hb. by rewrite Ek, Hb.
  - exact Hk.
  - destruct (ltb_false _ _ Hk) as [H|[H|H]]; auto. discriminate.
  - reflexivity.
  - exact Hh.
  - destruct (ltb_false _ _ Hh) as [H|[H|H]]; auto. discriminate.
  - intros H. apply leb_not_gtb in H. by rewrite H.
Qed.


(** The Kelly fraction is NaN, and with it the half-Kelly weight, when the
    upside potential overflows: the b-ratio is then infinite. *)
Lemma kelly_nan_counterexample :
  let r := Binary64.CalculateMetrics Binary64Inputs.overflowing in
  (0 <=? Binary64.KellyFraction r) = false /\
  (Binary64.HalfKellySuggested r <=? 15) = false /\
  is_nan (Binary64.KellyFraction r) = true /\
  Binary64.BRatio r = infinity.
Proof. vm_compute. by split_and!. Qed.

Lemma CalculateMetrics_kelly_float64_witness :
  let r := Binary64.CalculateMetrics Binary64Inputs.reference in
  (0 <? Binary64.BRatio r) = true /\
  Binary64.KellyFraction r = 21.250000000000004 /\
  Binary64.HalfKellySuggested r = Binary64.KellyFraction r / 2.
Proof.
  cbv zeta.
  destruct CalculateMetrics_kelly_float64 as [H _].
  destruct (H Binary64Inputs.reference)
    as (Hk & _ & _ & _ & _ & _ & _ & _ & Hh).
  cbv zeta in Hk, Hh.
  assert ((0 <? Binary64.BRatio
                  (Binary64.CalculateMetrics Binary64Inputs.reference))
          = true) as Hb by (vm_compute; reflexivity).
  split; [exact Hb|]. split.
  - rewrite (Hk Hb). vm_compute. reflexivity.
  - apply Hh. vm_compute. reflexivity.
Defined.

(** ** The sell zone in binary64 *)










(** ** Sector weights in both arithmetics *)



(** ** The round trip of the buy zone in both arithmetics *)



End Binary64Claims.
